(** * weaver-core: training / evaluation loops of [weaver/utils/nn/tools.py]

    A shallow embedding of the batch loops of the engine and of the tensor
    operations they rely on, followed by the properties of the specification
    that were checked against it.

    Conventions of the embedding.
    - A tensor (torch or numpy) is a contiguous row-major buffer together
      with its shape.
    - A Python exception is a value [Raise e] of the error monad [result].
    - Python dictionaries keyed by names are [gmap string _].
    - Floating point values are kept abstract behind the class [FloatOps];
      nothing is assumed about their arithmetic, so a sum of floats is
      always the left-to-right accumulation the code performs.
    - Progress bars, logging of strings, timing, garbage collection, device
      transfers and the optional dashboard sink do not influence the values
      studied here and are left out; the numbers handed to them are kept,
      and so is, in [evaluate_classification], the computation of the
      scalars handed to the dashboard helper at the end of the pass, which
      can raise. *)

From Stdlib Require Import ZArith Lia Bool.
From stdpp Require Import base option list gmap strings fin_maps.

Set Default Proof Using "Type".
Open Scope nat_scope.

(** ** Exceptions and the error monad *)

Inductive exn : Type :=
  | IndexError
  | KeyError
  | ValueError
  | TypeError
  | NameError
  | AttributeError
  | AssertionError
  | ZeroDivisionError
  | RuntimeError.

Inductive result (A : Type) : Type :=
  | Ok (a : A)
  | Raise (e : exn).
Arguments Ok {A} a.
Arguments Raise {A} e.

#[global] Instance result_ret : MRet result := fun A a => Ok a.
#[global] Instance result_bind : MBind result :=
  fun A B f m => match m with Ok a => f a | Raise e => Raise e end.
#[global] Instance result_fmap : FMap result :=
  fun A B f m => match m with Ok a => Ok (f a) | Raise e => Raise e end.

Definition is_ok {A} (r : result A) : bool :=
  match r with Ok _ => true | Raise _ => false end.

(** [o ?! e] : the value of [o], or exception [e] when it is absent. *)
Definition or_raise {A} (o : option A) (e : exn) : result A :=
  match o with Some a => Ok a | None => Raise e end.
Notation "o ?! e" := (or_raise o e) (at level 40, no associativity).

(** [mapM] of the error monad, left to right, stopping at the first
    exception. *)
Fixpoint traverse {A B} (f : A -> result B) (l : list A) : result (list B) :=
  match l with
  | [] => Ok []
  | x :: l' => y ← f x; ys ← traverse f l'; mret (y :: ys)
  end.

(** ** Tensors *)

Module Tensor.

Record tensor (A : Type) : Type := Build { shape : list nat; data : list A }.
Arguments Build {A} shape data.
Arguments shape {A} t.
Arguments data {A} t.

Definition numel (sh : list nat) : nat := foldr Nat.mul 1 sh.

Definition ndim {A} (t : tensor A) : nat := length (shape t).

(** A tensor is well formed when its buffer has the size its shape says. *)
Definition wf {A} (t : tensor A) : Prop := length (data t) = numel (shape t).

Definition tmap {A B} (f : A -> B) (t : tensor A) : tensor B :=
  Build (shape t) (map f (data t)).

(** [t.shape[0]] *)
Definition shape0 {A} (t : tensor A) : result nat := head (shape t) ?! IndexError.

(** [t.shape[-1]] *)
Definition shape_last {A} (t : tensor A) : result nat := last (shape t) ?! IndexError.

(** [t.view(-1)] *)
Definition view_flat {A} (t : tensor A) : tensor A :=
  Build [numel (shape t)] (data t).

(** [t.view((-1, k))]: the first dimension is inferred, which torch refuses
    when [k] is zero or does not divide the number of elements. *)
Definition view_rows {A} (k : nat) (t : tensor A) : result (tensor A) :=
  if (k =? 0) || negb (numel (shape t) mod k =? 0) then Raise RuntimeError
  else Ok (Build [numel (shape t) / k; k] (data t)).

(** The [n] consecutive chunks of width [k] of a buffer. *)
Fixpoint chunks {A} (k n : nat) (l : list A) : list (list A) :=
  match n with
  | 0 => []
  | S n' => take k l :: chunks k n' (drop k l)
  end.

(** Keep the entries whose mask bit is set. *)
Fixpoint mask_select {A} (xs : list A) (ms : list bool) : list A :=
  match xs, ms with
  | x :: xs', m :: ms' => if m then x :: mask_select xs' ms' else mask_select xs' ms'
  | _, _ => []
  end.

Definition count_true (ms : list bool) : nat := length (filter (fun b => b = true) ms).

(** [t[m]] for a rank-1 boolean mask [m]: selects along the first axis; the
    mask must have the length of that axis. *)
Definition bool_index {A} (t : tensor A) (m : tensor bool) : result (tensor A) :=
  match shape t, shape m with
  | n :: rest, [n'] =>
      if n =? n' then
        Ok (Build (count_true (data m) :: rest)
                  (concat (mask_select (chunks (numel rest) n (data t)) (data m))))
      else Raise IndexError
  | _, _ => Raise IndexError
  end.

(** Row-major position of a multi-index, and back. *)
Fixpoint ravel (sh idx : list nat) : nat :=
  match sh, idx with
  | _ :: rest, i :: idx' => i * numel rest + ravel rest idx'
  | _, _ => 0
  end.

Fixpoint unravel (sh : list nat) (q : nat) : list nat :=
  match sh with
  | [] => []
  | _ :: rest => q / numel rest :: unravel rest (q mod numel rest)
  end.

Definition swap_at (i j : nat) (l : list nat) : list nat :=
  <[i := default 0 (l !! j)]> (<[j := default 0 (l !! i)]> l).

(** [t.transpose(i, j).contiguous()] *)
Definition transpose {A} (i j : nat) (t : tensor A) : result (tensor A) :=
  if (i <? ndim t) && (j <? ndim t) then
    let sh' := swap_at i j (shape t) in
    d ← mapM (fun q => data t !! ravel (shape t) (swap_at i j (unravel sh' q)))
             (seq 0 (numel sh')) ?! RuntimeError;
    mret (Build sh' d)
  else Raise IndexError.

(** Entry at a position of a rank-1, rank-2 or rank-3 tensor. *)
Definition get1 {A} (t : tensor A) (i : nat) : option A := data t !! i.
Definition get2 {A} (t : tensor A) (r c : nat) : option A :=
  match shape t with
  | [_; C] => if c <? C then data t !! (r * C + c) else None
  | _ => None
  end.
Definition get3 {A} (t : tensor A) (r k c : nat) : option A :=
  match shape t with
  | [_; K; C] => if (k <? K) && (c <? C) then data t !! (r * (K * C) + k * C + c) else None
  | _ => None
  end.

(** [t.squeeze()]: drop every axis of size one. *)
Definition squeeze {A} (t : tensor A) : tensor A :=
  Build (filter (fun d => d ≠ 1) (shape t)) (data t).

(** [t[:, None]] on a rank-1 tensor. *)
Definition unsqueeze_last {A} (t : tensor A) : tensor A :=
  Build (shape t ++ [1]) (data t).

(** Python's [l[a:b]] for non-negative bounds: out-of-range bounds are
    clamped, never an error. *)
Definition py_slice {A} (a b : nat) (l : list A) : list A := take (b - a) (drop a l).

(** [t[:, a:b]]: a slice of the second axis; indexing two axes of a tensor
    of rank below two is an [IndexError]. *)
Definition slice_cols {A} (a b : nat) (t : tensor A) : result (tensor A) :=
  match shape t with
  | n :: w :: rest =>
      let P := numel rest in
      Ok (Build (n :: (b `min` w - a `min` w) :: rest)
                (concat (map (py_slice (a * P) (b * P)) (chunks (w * P) n (data t)))))
  | _ => Raise IndexError
  end.

(** Row [r] of a rank-2 tensor. *)
Definition row {A} (r : nat) (t : tensor A) : list A :=
  match shape t with
  | [n; w] => default [] (chunks w n (data t) !! r)
  | _ => []
  end.

(** [torch.cat((a, b), dim=1)] *)
Definition cat1 {A} (a b : tensor A) : result (tensor A) :=
  match shape a, shape b with
  | n :: ka :: rest, n' :: kb :: rest' =>
      if bool_decide (n = n' ∧ rest = rest') then
        let P := numel rest in
        Ok (Build (n :: (ka + kb) :: rest)
                  (concat (zip_with app (chunks (ka * P) n (data a))
                                        (chunks (kb * P) n (data b)))))
      else Raise RuntimeError
  | _, _ => Raise IndexError
  end.

(** [torch.column_stack((a, b))]: tensors of rank at most one become
    columns first. *)
Definition as_column {A} (t : tensor A) : tensor A :=
  if ndim t <=? 1 then Build [numel (shape t); 1] (data t) else t.

Definition column_stack {A} (a b : tensor A) : result (tensor A) :=
  cat1 (as_column a) (as_column b).

(** Shape of the result of a broadcast binary operation. *)
Fixpoint bshape_rev (s1 s2 : list nat) : option (list nat) :=
  match s1, s2 with
  | [], s | s, [] => Some s
  | a :: s1', b :: s2' =>
      if a =? b then cons a <$> bshape_rev s1' s2'
      else if a =? 1 then cons b <$> bshape_rev s1' s2'
      else if b =? 1 then cons a <$> bshape_rev s1' s2'
      else None
  end.

Definition broadcast_shape (s1 s2 : list nat) : option (list nat) :=
  reverse <$> bshape_rev (reverse s1) (reverse s2).

(** Index in an operand of shape [s] read at index [idx] of the result. *)
Definition project (s idx : list nat) : list nat :=
  zip_with (fun d i => if d =? 1 then 0 else i) s (drop (length idx - length s) idx).

(** Element-wise binary operation with broadcasting. *)
Definition broadcast2 {A B C} (f : A -> B -> C) (t1 : tensor A) (t2 : tensor B)
  : result (tensor C) :=
  sh ← broadcast_shape (shape t1) (shape t2) ?! RuntimeError;
  d ← mapM (fun q =>
              let idx := unravel sh q in
              x ← data t1 !! ravel (shape t1) (project (shape t1) idx);
              y ← data t2 !! ravel (shape t2) (project (shape t2) idx);
              Some (f x y))
           (seq 0 (numel sh)) ?! RuntimeError;
  mret (Build sh d).

(** [torch.zeros(shape)] *)
Definition zeros {A} (z : A) (sh : list nat) : tensor A :=
  Build sh (replicate (numel sh) z).

(** First position of a largest entry, for the order [ltb]. *)
Fixpoint argmax_from {A} (ltb : A -> A -> bool) (best : A) (bi i : nat) (l : list A) : nat :=
  match l with
  | [] => bi
  | x :: l' => if ltb best x then argmax_from ltb x i (S i) l'
               else argmax_from ltb best bi (S i) l'
  end.

Definition argmax {A} (ltb : A -> A -> bool) (l : list A) : nat :=
  match l with
  | [] => 0
  | x :: l' => argmax_from ltb x 0 1 l'
  end.

(** The indices returned by [t.max(1)]: the second axis is reduced. *)
Definition argmax1 {A} (ltb : A -> A -> bool) (t : tensor A) : result (tensor Z) :=
  match shape t with
  | n :: k :: rest =>
      if k =? 0 then Raise IndexError
      else
        let P := numel rest in
        Ok (Build (n :: rest)
              (map (fun q =>
                      Z.of_nat (argmax ltb
                        (omap (fun i => data t !! (q / P * (k * P) + i * P + q mod P))
                              (seq 0 k))))
                   (seq 0 (n * P))))
  | _ => Raise IndexError
  end.

(** [numpy.concatenate(arrays)] along the first axis. *)
Definition np_concatenate {A} (l : list (tensor A)) : result (tensor A) :=
  match l with
  | [] => Raise ValueError
  | t :: _ =>
      match shape t with
      | [] => Raise ValueError
      | _ :: rest =>
          if forallb (fun t' => bool_decide (tail (shape t') = rest ∧ shape t' ≠ [])) l
          then Ok (Build (sum_list (map (fun t' => default 0 (head (shape t'))) l) :: rest)
                         (concat (map data l)))
          else Raise ValueError
      end
  end.

(** [a.transpose(axes)] of numpy: [axes] must be a permutation of all the
    axes of [a]. *)
Definition np_transpose {A} (axes : list nat) (t : tensor A) : result (tensor A) :=
  if bool_decide (length axes = ndim t)
     && forallb (fun i => bool_decide (i ∈ axes)) (seq 0 (ndim t)) then
    let sh' := map (fun a => default 0 (shape t !! a)) axes in
    let inv i := default 0 (fst <$> list_find (fun a => a = i) axes) in
    d ← mapM (fun q =>
                let idx' := unravel sh' q in
                data t !! ravel (shape t)
                                (map (fun i => default 0 (idx' !! inv i)) (seq 0 (ndim t))))
             (seq 0 (numel sh')) ?! RuntimeError;
    mret (Build sh' d)
  else Raise ValueError.

(** [a.reshape(dims + (-1,))]: the last dimension is inferred. *)
Definition np_reshape_infer {A} (dims : list nat) (t : tensor A) : result (tensor A) :=
  let k := numel dims in
  if (k =? 0) || negb (numel (shape t) mod k =? 0) then Raise ValueError
  else Ok (Build (dims ++ [numel (shape t) / k]) (data t)).

(** [numpy.squeeze(m.sum(axis=-1))] of a boolean array: the number of set
    bits along the last axis. *)
Definition mask_counts (m : tensor bool) : result (tensor nat) :=
  w ← last (shape m) ?! ValueError;
  let sh := removelast (shape m) in
  mret (squeeze (Build sh (map count_true (chunks w (numel sh) (data m))))).

(** [len(a)] *)
Definition len {A} (t : tensor A) : result nat := head (shape t) ?! TypeError.

End Tensor.
Import Tensor.

(** ** Jagged arrays (awkward) *)

(** An awkward array of variable-length lists over rows of shape [jrest]. *)
Record jagged (A : Type) : Type :=
  Jagged { jcounts : list nat; jrest : list nat; jgroups : list (list A) }.
Arguments Jagged {A} jcounts jrest jgroups.
Arguments jcounts {A} j.
Arguments jrest {A} j.
Arguments jgroups {A} j.

Fixpoint split_counts {A} (w : nat) (counts : list nat) (l : list A) : list (list A) :=
  match counts with
  | [] => []
  | c :: cs => take (c * w) l :: split_counts w cs (drop (c * w) l)
  end.

(** [ak.unflatten(array, counts)]: the counts have to add up to the length
    of the array. *)
Definition ak_unflatten {A} (t : tensor A) (counts : tensor nat) : result (jagged A) :=
  match shape t with
  | n :: rest =>
      if (ndim counts =? 1) && (sum_list (data counts) =? n) then
        Ok (Jagged (data counts) rest (split_counts (numel rest) (data counts) (data t)))
      else Raise ValueError
  | [] => Raise ValueError
  end.

(** [ak.flatten(j)]: the lists put end to end again. *)
Definition ak_flatten {A} (j : jagged A) : tensor A :=
  Build (sum_list (jcounts j) :: jrest j) (concat (jgroups j)).

(** What a regrouped output can be: still a numpy array, or jagged. *)
Inductive array (A : Type) : Type :=
  | NP (t : tensor A)
  | AK (j : jagged A).
Arguments NP {A} t.
Arguments AK {A} j.

(** ** Label and prediction flattening *)

Definition _flatten_label {A} (label : tensor A) (mask : option (tensor bool))
  : result (tensor A) :=
  if 1 <? ndim label then
    let label := view_flat label in
    match mask with
    | Some m => bool_index label (view_flat m)
    | None => Ok label
    end
  else Ok label.

Definition _flatten_preds {A} (preds : tensor A) (mask : option (tensor bool))
    (label_axis : nat) : result (tensor A) :=
  if 2 <? ndim preds then
    (* assuming axis=1 corresponds to the classes *)
    preds ← transpose label_axis (ndim preds - 1) preds;
    k ← shape_last preds;
    preds ← view_rows k preds;
    match mask with
    | Some m => bool_index preds (view_flat m)
    | None => Ok preds
    end
  else Ok preds.

(** The positions a mask keeps, in increasing order. *)
Definition kept (ms : list bool) : list nat :=
  filter (fun p => ms !! p = Some true) (seq 0 (length ms)).

(** The (row, col) coordinates kept by a rank-2 mask, in row-major order. *)
Definition selected (mask : tensor bool) : list (nat * nat) :=
  match shape mask with
  | [R; C] => map (fun p => (p / C, p mod C)) (kept (data mask))
  | _ => []
  end.


(** The two flattened arrays have the same length. *)
Definition flatten_lengths_agree {A B} (label : tensor A) (mask : tensor bool)
    (preds : tensor B) : Prop :=
  exists fl fp n,
    _flatten_label label (Some mask) = Ok fl /\
    _flatten_preds preds (Some mask) 1 = Ok fp /\
    len fl = Ok n /\ len fp = Ok n.

(** ** Scalars *)

(** Python floats and the operations the loops apply to them. *)
Class FloatOps (F : Type) : Type := {
  of_int : Z -> F;
  fadd : F -> F -> F;
  fsub : F -> F -> F;
  fmul : F -> F -> F;
  fdiv : F -> F -> F;
  fabs : F -> F;
  fltb : F -> F -> bool
}.

(** Raw values held by the tensors of a batch and their conversions
    [.long()], [.bool()], [.float()]. *)
Class Raw (V F : Type) : Type := {
  to_long : V -> Z;
  to_bool : V -> bool;
  to_float : V -> F
}.

Definition of_nat {F} `{FloatOps F} (n : nat) : F := of_int (Z.of_nat n).

(** [x / n] for an integer count [n]. *)
Definition py_div {F} `{FloatOps F} (x : F) (n : nat) : result F :=
  if n =? 0 then Raise ZeroDivisionError else Ok (fdiv x (of_nat n)).

(** [t.sum().item()] of a float tensor. *)
Definition fsum {F} `{FloatOps F} (l : list F) : F := foldl fadd (of_int 0) l.

(** The two averages of the specification, over per-batch losses [ls] and
    per-batch example counts [cs]; sums run from left to right. *)
Definition mean_of_batch_losses {F} `{FloatOps F} (ls : list F) : result F :=
  py_div (fsum ls) (length ls).

Definition example_weighted_mean {F} `{FloatOps F} (ls : list F) (cs : list nat)
  : result F :=
  py_div (fsum (zip_with (fun l c => fmul l (of_nat c)) ls cs)) (sum_list cs).

(** ** Configuration, batches and loop control *)

Record config : Type := Config {
  input_names : list string;
  label_names : list string;
  target_names : list string;
  label_value : list string;
  target_value : list string
}.

(** One iteration step of the batch source: [X, y, Z]. *)
Record batch (V : Type) : Type := Batch {
  batch_X : gmap string (tensor V);
  batch_y : gmap string (tensor V);
  batch_Z : gmap string (tensor V)
}.
Arguments Batch {V} batch_X batch_y batch_Z.
Arguments batch_X {V} b.
Arguments batch_y {V} b.
Arguments batch_Z {V} b.

(** How an iteration of a [for] loop ends: it falls through or reaches
    [continue] ([Next]), or it reaches [break]. *)
Inductive flow : Type := Next | Break.

Fixpoint for_each {S B} (body : S -> B -> result (S * flow)) (st : S) (l : list B)
  : result S :=
  match l with
  | [] => Ok st
  | b :: l' =>
      r ← body st b;
      match r.2 with
      | Break => Ok r.1
      | Next => for_each body r.1 l'
      end
  end.

(** The states a loop goes through: the state at the end of every
    iteration it runs, in order. *)
Fixpoint for_each_log {S B} (body : S -> B -> result (S * flow)) (st : S) (l : list B)
  : result (list S) :=
  match l with
  | [] => Ok []
  | b :: l' =>
      r ← body st b;
      match r.2 with
      | Break => Ok [r.1]
      | Next => cons r.1 <$> for_each_log body r.1 l'
      end
  end.

(** [if steps_per_epoch is not None and num_batches >= steps_per_epoch: break] *)
Definition budget_check (steps_per_epoch : option nat) (num_batches : nat) : flow :=
  match steps_per_epoch with
  | Some s => if s <=? num_batches then Break else Next
  | None => Next
  end.

(** [t.to(dev, **kwargs)]: torch rejects a keyword it does not know. *)
Definition tensor_to {A} (kwargs : list string) (t : tensor A) : result (tensor A) :=
  if forallb (fun k => bool_decide (k ∈ ["device"; "dtype"; "non_blocking"; "copy";
                                         "memory_format"])) kwargs
  then Ok t else Raise TypeError.

(** [[X[k].to(dev, non_blocking=True) for k in data_config.input_names]] *)
Definition get_inputs {V} (cfg : config) (b : batch V) : result (list (tensor V)) :=
  traverse (fun k => x ← batch_X b !! k ?! KeyError; tensor_to ["non_blocking"] x)
           (input_names cfg).

(** [counter.update(label.numpy())]: only a rank-1 array can be iterated
    into hashable items. *)
Definition counter_update (c : gmap Z nat) (label : tensor Z) : result (gmap Z nat) :=
  if ndim label =? 1 then
    Ok (foldl (fun c k => <[k := S (default 0 (c !! k))]> c) c (data label))
  else Raise TypeError.

(** [(preds == label).sum().item()] *)
Definition count_equal (preds label : tensor Z) : result nat :=
  t ← broadcast2 (fun a b => bool_decide (a = b)) preds label;
  mret (count_true (data t)).

(** [d[k].append(v)] on a [defaultdict(list)]. *)
Definition dd_append {A} (k : string) (v : A) (d : gmap string (list A))
  : gmap string (list A) :=
  <[k := default [] (d !! k) ++ [v]]> d.

(** [{k: f(v) for k, v in d.items()}]. Items are visited in key order here
    and in insertion order in Python, which only matters for which of two
    failing items reports its exception. *)
Definition dict_traverse {A B} (f : A -> result B) (d : gmap string A)
  : result (gmap string B) :=
  list_to_map <$> traverse (fun kv => v ← f kv.2; mret (kv.1, v)) (map_to_list d).

(** The label tensor and its optional validity mask, as both classification
    loops look them up:
    [[
      label = y[data_config.label_names[0]].long()
      try:
          label_mask = y[data_config.label_names[0] + '_mask'].bool()
      except KeyError:
          label_mask = None
    ]] *)
Definition lookup_label {V F} `{Raw V F} (cfg : config) (y : gmap string (tensor V))
  : result (tensor Z) :=
  name ← label_names cfg !! 0 ?! IndexError;
  v ← y !! name ?! KeyError;
  mret (tmap to_long v).

Definition lookup_mask {V F} `{Raw V F} (cfg : config) (y : gmap string (tensor V))
  : result (option (tensor bool)) :=
  name ← label_names cfg !! 0 ?! IndexError;
  match y !! (name +:+ "_mask") with
  | Some m => Ok (Some (tmap to_bool m))
  | None => Ok None
  end.

(** ** [train_classification] *)

Module TrainClassification.
Section loop.
Context {V F P : Type} `{FloatOps F} `{Raw V F}.
(** the network, parametrised by its weights, and the effect of the
    backward pass, optimiser (or gradient scaler) and per-step scheduler
    on the weights *)
Variable model : P -> list (tensor V) -> tensor F.
Variable loss_func : tensor F -> tensor Z -> F.
Variable optimise : P -> list (tensor V) -> tensor Z -> P.
Variable data_config : config.
Variable steps_per_epoch : option nat.

Record postfix : Type := Postfix { Loss : F; AvgLoss : F; Acc : F; AvgAcc : F }.

Record state : Type := State {
  params : P;
  label_counter : gmap Z nat;
  total_loss : F;
  num_batches : nat;
  total_correct : nat;
  count : nat;
  shown : option postfix
}.

Definition init (θ : P) : state := State θ ∅ (of_int 0) 0 0 0 None.

Definition body (st : state) (b : batch V) : result (state * flow) :=
  inputs ← get_inputs data_config b;
  label ← lookup_label data_config (batch_y b);
  label_mask ← lookup_mask data_config (batch_y b);
  label ← _flatten_label label label_mask;
  num_examples ← shape0 label;
  label_counter ← counter_update (label_counter st) label;
  label ← tensor_to ["non_blocking"] label;
  let model_output := model (params st) inputs in
  logits ← _flatten_preds model_output label_mask 1;
  let loss := loss_func logits label in
  let θ := optimise (params st) inputs label in
  preds ← argmax1 fltb logits;
  let num_batches := num_batches st + 1 in
  let count := count st + num_examples in
  correct ← count_equal preds label;
  let total_loss := fadd (total_loss st) loss in
  let total_correct := total_correct st + correct in
  avg_loss ← py_div total_loss num_batches;
  acc ← py_div (of_nat correct) num_examples;
  avg_acc ← py_div (of_nat total_correct) count;
  mret (State θ label_counter total_loss num_batches total_correct count
              (Some (Postfix loss avg_loss acc avg_acc)),
        budget_check steps_per_epoch num_batches).

(** The two numbers of the line [Train AvgLoss: .., AvgAcc: ..]. *)
Record report : Type := Report { final : state; rep_AvgLoss : F; rep_AvgAcc : F }.

(** Per-batch loss shown on the progress bar. *)
Definition batch_losses (log : list state) : list F :=
  omap (fun st => Loss <$> shown st) log.

(** The loss of one batch under the weights [θ], as [body] computes it. *)
Definition batch_loss (θ : P) (b : batch V) : result F :=
  inputs ← get_inputs data_config b;
  label ← lookup_label data_config (batch_y b);
  label_mask ← lookup_mask data_config (batch_y b);
  label ← _flatten_label label label_mask;
  logits ← _flatten_preds (model θ inputs) label_mask 1;
  mret (loss_func logits label).

Definition train_classification (θ : P) (train_loader : list (batch V))
  : result report :=
  st ← for_each body (init θ) train_loader;
  avg_loss ← py_div (total_loss st) (num_batches st);
  avg_acc ← py_div (of_nat (total_correct st)) (count st);
  mret (Report st avg_loss avg_acc).
End loop.
End TrainClassification.

(** ** [evaluate_classification] *)

(** What an evaluation pass hands back: the scalar alone, or the scalar
    with scores, labels, targets and observers (whose Python types differ
    from one loop to the other). *)
Inductive eval_output (F S L T O : Type) : Type :=
  | Summary (v : F)
  | Detailed (v : F) (scores : S) (labels : L) (targets : T) (observers : O).
Arguments Summary {F S L T O} v.
Arguments Detailed {F S L T O} v scores labels targets observers.

(** The scalar of a result. *)
Definition summary_value {F S L T O} (out : eval_output F S L T O) : F :=
  match out with
  | Summary v => v
  | Detailed v _ _ _ _ => v
  end.

(** [torch.softmax(t, dim=1)]: the second axis has to exist. The values are
    those of the runtime's [softmax]. *)
Definition softmax1 {F} (softmax : tensor F -> tensor F) (t : tensor F)
  : result (tensor F) :=
  if ndim t <? 2 then Raise IndexError else Ok (softmax t).

(** The conversion of flat scores and labels back to one group per entry,
    at the end of [evaluate_classification] (and only when not called for
    training):
    [[
      if len(scores) != entry_count:
          if len(labels_counts):
              labels_counts = np.concatenate(labels_counts)
              scores = ak.unflatten(scores, labels_counts)
              for k, v in labels.items():
                  labels[k] = ak.unflatten(v, labels_counts)
          else:
              assert(count % entry_count == 0)
              scores = scores.reshape((entry_count, int(count / entry_count), -1)).transpose((1, 2))
              for k, v in labels.items():
                  labels[k] = v.reshape((entry_count, -1))
    ]] *)
Definition regroup {V F} (scores : tensor F) (labels : gmap string (tensor V))
    (entry_count count : nat) (labels_counts : list (tensor nat))
  : result (array F * gmap string (array V)) :=
  n ← len scores;
  if negb (n =? entry_count) then
    if negb (length labels_counts =? 0) then
      labels_counts ← np_concatenate labels_counts;
      scores ← ak_unflatten scores labels_counts;
      labels ← dict_traverse (fun v => AK <$> ak_unflatten v labels_counts) labels;
      mret (AK scores, labels)
    else
      _ ← (if entry_count =? 0 then Raise ZeroDivisionError
           else if count mod entry_count =? 0 then Ok tt else Raise AssertionError);
      scores ← np_reshape_infer [entry_count; count / entry_count] scores;
      scores ← np_transpose [1; 2] scores;
      labels ← dict_traverse (fun v => NP <$> np_reshape_infer [entry_count] v) labels;
      mret (NP scores, labels)
  else mret (NP scores, NP <$> labels).

Module EvaluateClassification.
Section loop.
Context {V F : Type} `{FloatOps F} `{Raw V F}.
Variable model : list (tensor V) -> tensor F.
Variable softmax : tensor F -> tensor F.
Variable loss_func : option (tensor F -> tensor Z -> F).
(** [_concat] of [weaver/utils/data/tools.py] and [evaluate_metrics] of
    [weaver/utils/nn/metrics.py] *)
Variable _concat : list (tensor V) -> result (tensor V).
Variable evaluate_metrics : tensor V -> tensor F -> result unit.
Variable data_config : config.
Variable for_training : bool.
(** whether a dashboard helper is passed ([tb_helper] is not [None]); what
    the helper writes goes to the dashboard only *)
Variable tb_helper : bool.
Variable steps_per_epoch : option nat.

Record postfix : Type := Postfix { Loss : F; AvgLoss : F; Acc : F; AvgAcc : F }.

Record state : Type := State {
  label_counter : gmap Z nat;
  total_loss : F;
  num_batches : nat;
  total_correct : nat;
  entry_count : nat;
  count : nat;
  scores : list (tensor F);
  labels : gmap string (list (tensor V));
  targets : gmap string (list (tensor V));
  labels_counts : list (tensor nat);
  observers : gmap string (list (tensor V));
  shown : option postfix
}.

Definition init : state := State ∅ (of_int 0) 0 0 0 0 [] ∅ ∅ [] ∅ None.

Definition body (st : state) (b : batch V) : result (state * flow) :=
  inputs ← get_inputs data_config b;
  label ← lookup_label data_config (batch_y b);
  n0 ← shape0 label;
  let entry_count := entry_count st + n0 in
  label_mask ← lookup_mask data_config (batch_y b);
  labels_counts ←
    match label_mask with
    | Some m => if negb for_training
                then c ← mask_counts m; mret (labels_counts st ++ [c])
                else Ok (labels_counts st)
    | None => Ok (labels_counts st)
    end;
  label ← _flatten_label label label_mask;
  num_examples ← shape0 label;
  label_counter ← counter_update (label_counter st) label;
  label ← tensor_to ["non_blocking"] label;
  let model_output := model inputs in
  logits ← _flatten_preds model_output label_mask 1;
  sc ← softmax1 softmax logits;
  let scores := scores st ++ [sc] in
  ys ← traverse (fun kv => v ← _flatten_label kv.2 label_mask; mret (kv.1, v))
                (map_to_list (batch_y b));
  let labels := foldl (fun d kv => dd_append kv.1 kv.2 d) (labels st) ys in
  let observers :=
    if negb for_training
    then foldl (fun d kv => dd_append kv.1 kv.2 d) (observers st)
               (map_to_list (batch_Z b))
    else observers st in
  preds ← argmax1 fltb logits;
  let loss := match loss_func with
              | None => of_int 0
              | Some f => f logits label
              end in
  let num_batches := num_batches st + 1 in
  let count := count st + num_examples in
  correct ← count_equal preds label;
  let total_loss := fadd (total_loss st) (fmul loss (of_nat num_examples)) in
  let total_correct := total_correct st + correct in
  avg_loss ← py_div total_loss count;
  acc ← py_div (of_nat correct) num_examples;
  avg_acc ← py_div (of_nat total_correct) count;
  mret (State label_counter total_loss num_batches total_correct entry_count count
              scores labels (targets st) labels_counts observers
              (Some (Postfix loss avg_loss acc avg_acc)),
        budget_check steps_per_epoch num_batches).

Definition loop (test_loader : list (batch V)) : result state :=
  for_each body init test_loader.

(** The loss and the number of examples of one batch, as [body] computes
    them. *)
Definition batch_loss (b : batch V) : result F :=
  inputs ← get_inputs data_config b;
  label ← lookup_label data_config (batch_y b);
  label_mask ← lookup_mask data_config (batch_y b);
  label ← _flatten_label label label_mask;
  logits ← _flatten_preds (model inputs) label_mask 1;
  mret (match loss_func with
        | None => of_int 0
        | Some f => f logits label
        end).

Definition batch_examples (b : batch V) : result nat :=
  label ← lookup_label data_config (batch_y b);
  label_mask ← lookup_mask data_config (batch_y b);
  label ← _flatten_label label label_mask;
  shape0 label.

(** The two scalars handed to [tb_helper.write_scalars] at the end of the
    pass: [total_loss / count] and [total_correct / count]. *)
Definition epoch_scalars (st : state) : result (F * F) :=
  avg_loss ← py_div (total_loss st) (count st);
  avg_acc ← py_div (of_nat (total_correct st)) (count st);
  mret (avg_loss, avg_acc).

Definition evaluate_classification (test_loader : list (batch V))
  : result (eval_output F (array F) (gmap string (array V))
                        (gmap string (list (tensor V))) (gmap string (tensor V))) :=
  st ← loop test_loader;
  _ ← (if tb_helper then _ ← epoch_scalars st; mret tt else mret tt);
  scores ← np_concatenate (scores st);
  labels ← dict_traverse _concat (labels st);
  name ← label_names data_config !! 0 ?! IndexError;
  truth ← labels !! name ?! KeyError;
  _ ← evaluate_metrics truth scores;
  if for_training then
    acc ← py_div (of_nat (total_correct st)) (count st);
    mret (Summary acc)
  else
    (* convert 2D labels/scores *)
    r ← regroup scores labels (entry_count st) (count st) (labels_counts st);
    observers ← dict_traverse _concat (observers st);
    acc ← py_div (of_nat (total_correct st)) (count st);
    mret (Detailed acc r.1 r.2 (targets st) observers).
End loop.
End EvaluateClassification.

(** ** Regression targets *)

(** [t[:, j]] *)
Definition select_col {A} (j : nat) (t : tensor A) : result (tensor A) :=
  match shape t with
  | n :: w :: rest =>
      if j <? w then
        let P := numel rest in
        Ok (Build (n :: rest)
                  (concat (map (py_slice (j * P) ((j + 1) * P)) (chunks (w * P) n (data t)))))
      else Raise IndexError
  | _ => Raise IndexError
  end.

Fixpoint stack_targets {V F} `{Raw V F} (y : gmap string (tensor V)) (target : tensor F)
    (names : list string) : result (tensor F) :=
  match names with
  | [] => Ok target
  | n :: names' =>
      v ← y !! n ?! KeyError;
      target ← column_stack target (tmap to_float v);
      stack_targets y target names'
  end.

(** [[
      for idx, names in enumerate(data_config.target_names):
          if idx == 0:
              target = y[names].float();
          else:
              target = torch.column_stack((target,y[names].float()))
    ]]
    With no target name the variable is still [None] when its shape is
    asked for. *)
Definition build_target {V F} `{Raw V F} (cfg : config) (y : gmap string (tensor V))
  : result (tensor F) :=
  match target_names cfg with
  | [] => Raise AttributeError
  | n :: names =>
      v ← y !! n ?! KeyError;
      stack_targets y (tmap to_float v) names
  end.

(** A target column of a batch: present under its name, of rank 1, with
    [n] entries. *)
Definition target_column {V} (y : gmap string (tensor V)) (n : nat) (name : string)
    (v : tensor V) : Prop :=
  y !! name = Some v /\ shape v = [n] /\ wf v.

(** ** [evaluate_regression] *)

Module EvaluateRegression.
Section loop.
Context {V F : Type} `{FloatOps F} `{Raw V F}.
Variable model : list (tensor V) -> tensor F.
Variable loss_func : option (tensor F -> tensor F -> F).
Variable _concat : list (tensor V) -> result (tensor V).
Variable data_config : config.
Variable for_training : bool.
Variable steps_per_epoch : option nat.

Record postfix : Type :=
  Postfix { Loss : F; AvgLoss : F; MSE : F; AvgMSE : F; MAE : F; AvgMAE : F }.

Record state : Type := State {
  total_loss : F;
  num_batches : nat;
  sum_sqr_err : F;
  sum_abs_err : F;
  count : nat;
  scores : list (tensor F);
  labels : gmap string (list (tensor V));
  targets : gmap string (list (tensor V));
  observers : gmap string (list (tensor V));
  shown : option postfix
}.

Definition init : state := State (of_int 0) 0 (of_int 0) (of_int 0) 0 [] ∅ ∅ ∅ None.

Definition body (st : state) (b : batch V) : result (state * flow) :=
  inputs ← get_inputs data_config b;
  target ← build_target data_config (batch_y b);
  num_examples ← shape0 target;
  target ← tensor_to ["devmnon_blocking"] target;
  let model_output := model inputs in
  let preds := squeeze model_output in
  let scores := scores st ++ [preds] in
  let targets := foldl (fun d kv => dd_append kv.1 kv.2 d) (targets st)
                       (map_to_list (batch_y b)) in
  let observers :=
    if negb for_training
    then foldl (fun d kv => dd_append kv.1 kv.2 d) (observers st)
               (map_to_list (batch_Z b))
    else observers st in
  let loss := match loss_func with
              | None => of_int 0
              | Some f => f preds target
              end in
  let num_batches := num_batches st + 1 in
  let count := count st + num_examples in
  let total_loss := fadd (total_loss st) (fmul loss (of_nat num_examples)) in
  e ← broadcast2 fsub preds target;
  let abs_err := fsum (map fabs (data e)) in
  let sum_abs_err := fadd (sum_abs_err st) abs_err in
  let sqr_err := fsum (map (fun x => fmul x x) (data e)) in
  let sum_sqr_err := fadd (sum_sqr_err st) sqr_err in
  avg_loss ← py_div total_loss count;
  mse ← py_div sqr_err num_examples;
  avg_mse ← py_div sum_sqr_err count;
  mae ← py_div abs_err num_examples;
  avg_mae ← py_div sum_abs_err count;
  mret (State total_loss num_batches sum_sqr_err sum_abs_err count scores
              (labels st) targets observers
              (Some (Postfix loss avg_loss mse avg_mse mae avg_mae)),
        budget_check steps_per_epoch num_batches).

(** The metric loop after the batches: it reads the names
    [eval_reg_metrics] and [metric_results], which the function never
    binds (its parameter is called [eval_metrics]). *)
Definition report_metrics (scores : tensor F) (targets : gmap string (tensor V))
  : result unit :=
  match map_to_list targets with
  | [] => Ok tt
  | _ :: _ =>
      if length (target_names data_config) =? 1 then Raise NameError
      else _ ← select_col 0 scores; Raise NameError
  end.

Definition evaluate_regression (test_loader : list (batch V))
  : result (eval_output F (tensor F) (gmap string (list (tensor V)))
                        (gmap string (tensor V)) (gmap string (tensor V))) :=
  st ← for_each body init test_loader;
  scores ← np_concatenate (scores st);
  targets ← dict_traverse _concat (targets st);
  _ ← report_metrics scores targets;
  if for_training then
    v ← py_div (total_loss st) (count st);
    mret (Summary v)
  else
    (* convert 2D targets/scores *)
    observers ← dict_traverse _concat (observers st);
    v ← py_div (total_loss st) (count st);
    mret (Detailed v scores (labels st) targets observers).
End loop.
End EvaluateRegression.

(** ** More of numpy and of Python dictionaries *)

(** [a.reshape(dims)] with every dimension given. *)
Definition np_reshape {A} (dims : list nat) (t : tensor A) : result (tensor A) :=
  if numel dims =? numel (shape t) then Ok (Build dims (data t)) else Raise ValueError.

(** [numpy.concatenate((a, b), axis=1)] *)
Definition np_concatenate1 {A} (a b : tensor A) : result (tensor A) :=
  match cat1 a b with
  | Ok t => Ok t
  | Raise _ => Raise ValueError
  end.

(** The keys of a dictionary filled by going through [names] over and
    over, in the order in which Python keeps them: each name at its first
    occurrence. *)
Fixpoint first_occurrences (names : list string) : list string :=
  match names with
  | [] => []
  | n :: names' => n :: filter (fun m => m <> n) (first_occurrences names')
  end.

(** ** The hybrid loops *)

(** The two blocks the hybrid loops cut out of the raw output:
    [model_output[:, :nc]] and [model_output[:, nc:nc+nt]] with
    [nc = len(data_config.label_value)], [nt = len(data_config.target_value)]. *)
Definition class_block {A} (cfg : config) (model_output : tensor A) : result (tensor A) :=
  slice_cols 0 (length (label_value cfg)) model_output.

Definition target_block {A} (cfg : config) (model_output : tensor A) : result (tensor A) :=
  slice_cols (length (label_value cfg))
             (length (label_value cfg) + length (target_value cfg)) model_output.

(** [[
      if label.dim() == 1:
          label = label[:,None]
      if target.dim() == 1:
          target = target[:,None]
      loss_target = torch.cat((label,target),dim=1)
    ]] *)
Definition as_2d {A} (t : tensor A) : tensor A :=
  if ndim t =? 1 then unsqueeze_last t else t.

Definition merge_truth {F} `{FloatOps F} (label : tensor Z) (target : tensor F)
  : result (tensor F) :=
  cat1 (tmap of_int (as_2d label)) (as_2d target).

Module TrainHybrid.
Section loop.
Context {V F P : Type} `{FloatOps F} `{Raw V F}.
Variable model : P -> list (tensor V) -> tensor F.
Variable loss_func : tensor F -> tensor F -> F * F * F.
Variable optimise : P -> list (tensor V) -> tensor F -> P.
Variable data_config : config.
Variable steps_per_epoch : option nat.

Record postfix : Type := Postfix {
  Loss : F; AvgLoss : F; Acc : F; AvgAcc : F;
  MSE : F; AvgMSE : F; MAE : F; AvgMAE : F
}.

Record state : Type := State {
  params : P;
  num_batches : nat;
  total_loss : F;
  total_cat_loss : F;
  total_reg_loss : F;
  count : nat;
  label_counter : gmap Z nat;
  total_correct : nat;
  sum_abs_err : F;
  sum_sqr_err : F;
  shown : option postfix
}.

Definition init (θ : P) : state :=
  State θ 0 (of_int 0) (of_int 0) (of_int 0) 0 ∅ 0 (of_int 0) (of_int 0) None.

Definition body (st : state) (b : batch V) : result (state * flow) :=
  (* input features for the model *)
  inputs ← get_inputs data_config b;
  (* build classification true labels *)
  label ← lookup_label data_config (batch_y b);
  label ← _flatten_label label None;
  label_counter ← counter_update (label_counter st) label;
  label ← tensor_to ["non_blocking"] label;
  (* build regression targets *)
  target ← build_target data_config (batch_y b);
  target ← tensor_to ["non_blocking"] target;
  (* number of samples in the batch *)
  nl ← shape0 label;
  nt ← shape0 target;
  let num_examples := nl `max` nt in
  (* evaluate the model *)
  let model_output := model (params st) inputs in
  loss_target ← merge_truth label target;
  let label := squeeze (as_2d label) in
  let target := squeeze (as_2d target) in
  let losses := loss_func model_output loss_target in
  (* back propagation *)
  let θ := optimise (params st) inputs loss_target in
  (* loss function and counters *)
  let total_loss := fadd (total_loss st) losses.1.1 in
  let total_cat_loss := fadd (total_cat_loss st) losses.1.2 in
  let total_reg_loss := fadd (total_reg_loss st) losses.2 in
  let num_batches := num_batches st + 1 in
  let count := count st + num_examples in
  if ndim model_output =? 1 then
    (* continue *)
    mret (State θ num_batches total_loss total_cat_loss total_reg_loss count
                label_counter (total_correct st) (sum_abs_err st) (sum_sqr_err st)
                (shown st),
          Next)
  else
    (* classification prediction against the true labels *)
    pc ← class_block data_config model_output;
    pred_cat ← argmax1 fltb (squeeze pc);
    correct ← count_equal pred_cat label;
    let total_correct := total_correct st + correct in
    (* regression prediction against the true targets *)
    pr ← target_block data_config model_output;
    let pred_reg := squeeze pr in
    residual_reg ← broadcast2 fsub pred_reg target;
    let abs_err := fsum (map fabs (data residual_reg)) in
    let sum_abs_err := fadd (sum_abs_err st) abs_err in
    let sqr_err := fsum (map (fun x => fmul x x) (data residual_reg)) in
    let sum_sqr_err := fadd (sum_sqr_err st) sqr_err in
    (* monitor metrics *)
    avg_loss ← py_div total_loss num_batches;
    acc ← py_div (of_nat correct) num_examples;
    avg_acc ← py_div (of_nat total_correct) count;
    mse ← py_div sqr_err num_examples;
    avg_mse ← py_div sum_sqr_err count;
    mae ← py_div abs_err num_examples;
    avg_mae ← py_div sum_abs_err count;
    mret (State θ num_batches total_loss total_cat_loss total_reg_loss count
                label_counter total_correct sum_abs_err sum_sqr_err
                (Some (Postfix losses.1.1 avg_loss acc avg_acc mse avg_mse mae avg_mae)),
          budget_check steps_per_epoch num_batches).

Definition loop (θ : P) (train_loader : list (batch V)) : result state :=
  for_each body (init θ) train_loader.

(** The numbers of the training summary. *)
Record report : Type := Report {
  final : state;
  rep_AvgLoss : F; rep_AvgLossCat : F; rep_AvgLossReg : F;
  rep_AvgAcc : F; rep_AvgMSE : F; rep_AvgMAE : F
}.

Definition train_hybrid (θ : P) (train_loader : list (batch V)) : result report :=
  st ← loop θ train_loader;
  avg_loss ← py_div (total_loss st) (num_batches st);
  avg_cat ← py_div (total_cat_loss st) (num_batches st);
  avg_reg ← py_div (total_reg_loss st) (num_batches st);
  avg_acc ← py_div (of_nat (total_correct st)) (count st);
  avg_mse ← py_div (sum_sqr_err st) (count st);
  avg_mae ← py_div (sum_abs_err st) (count st);
  mret (Report st avg_loss avg_cat avg_reg avg_acc avg_mse avg_mae).
End loop.
End TrainHybrid.

Module EvaluateHybrid.
Section loop.
Context {V F : Type} `{FloatOps F} `{Raw V F}.
Variable model : list (tensor V) -> tensor F.
Variable softmax : tensor F -> tensor F.
Variable loss_func : option (tensor F -> tensor F -> F * F * F).
Variable data_config : config.
Variable for_training : bool.
Variable steps_per_epoch : option nat.

Record postfix : Type := Postfix {
  Loss : F; AvgLoss : F; Acc : F; AvgAcc : F;
  MSE : F; AvgMSE : F; MAE : F; AvgMAE : F
}.

Record state : Type := State {
  label_counter : gmap Z nat;
  total_loss : F;
  total_cat_loss : F;
  total_reg_loss : F;
  num_batches : nat;
  total_correct : nat;
  sum_sqr_err : F;
  sum_abs_err : F;
  entry_count : nat;
  count : nat;
  scores_cat : list (tensor F);
  scores_reg : list (tensor F);
  labels : gmap string (list (tensor V));
  targets : gmap string (list (tensor V));
  observers : gmap string (list (tensor V));
  shown : option postfix
}.

Definition init : state :=
  State ∅ (of_int 0) (of_int 0) (of_int 0) 0 0 (of_int 0) (of_int 0) 0 0 [] [] ∅ ∅ ∅ None.

(** [pred_cat_output.shape[0] == num_examples and pred_reg.shape[0] == num_examples] *)
Definition blocks_fit (pred_cat_output pred_reg : tensor F) (num_examples : nat)
  : result bool :=
  n1 ← shape0 pred_cat_output;
  if n1 =? num_examples then n2 ← shape0 pred_reg; mret (n2 =? num_examples)
  else mret false.

Definition body (st : state) (b : batch V) : result (state * flow) :=
  (* input features for the model *)
  inputs ← get_inputs data_config b;
  (* build classification true labels *)
  label ← lookup_label data_config (batch_y b);
  label ← _flatten_label label None;
  label_counter ← counter_update (label_counter st) label;
  label ← tensor_to ["non_blocking"] label;
  (* build regression targets *)
  target ← build_target data_config (batch_y b);
  target ← tensor_to ["non_blocking"] target;
  (* update counters *)
  nl ← shape0 label;
  nt ← shape0 target;
  let num_examples := nl `max` nt in
  let entry_count := entry_count st + num_examples in
  (* evaluate model *)
  let model_output := model inputs in
  (* truth labels for classification and regression *)
  ls ← traverse (fun name => v ← batch_y b !! name ?! KeyError;
                             v ← _flatten_label v None; mret (name, v))
                (label_names data_config);
  let labels := foldl (fun d kv => dd_append kv.1 kv.2 d) (labels st) ls in
  ts ← traverse (fun name => v ← batch_y b !! name ?! KeyError; mret (name, v))
                (target_names data_config);
  let targets := foldl (fun d kv => dd_append kv.1 kv.2 d) (targets st) ts in
  (* observers *)
  let observers :=
    if negb for_training
    then foldl (fun d kv => dd_append kv.1 kv.2 d) (observers st)
               (map_to_list (batch_Z b))
    else observers st in
  (* build classification and regression outputs *)
  pc ← class_block data_config model_output;
  let pred_cat_output := squeeze pc in
  pr ← target_block data_config model_output;
  let pred_reg := squeeze pr in
  fit ← blocks_fit pred_cat_output pred_reg num_examples;
  r ← (if (fit : bool) then
         pred_cat ← argmax1 fltb pred_cat_output;
         sc ← softmax1 softmax pred_cat_output;
         mret (pred_cat, scores_cat st ++ [sc], scores_reg st ++ [pred_reg])
       else
         let nc := length (label_value data_config) in
         let nt := length (target_value data_config) in
         mret (zeros 0%Z [num_examples],
               scores_cat st ++ [zeros (of_int 0) [num_examples; nc]],
               scores_reg st ++ [if 1 <? nt then zeros (of_int 0) [num_examples; nt]
                                 else zeros (of_int 0) [num_examples]]));
  let pred_cat := r.1.1 in
  (* evaluate loss function; without one, [loss] is still [None] when it
     is added to the total *)
  f ← loss_func ?! TypeError;
  loss_target ← merge_truth label target;
  let losses := f model_output loss_target in
  let label := squeeze (as_2d label) in
  let target := squeeze (as_2d target) in
  let total_loss := fadd (total_loss st) losses.1.1 in
  let total_cat_loss := fadd (total_cat_loss st) losses.1.2 in
  let total_reg_loss := fadd (total_reg_loss st) losses.2 in
  let num_batches := num_batches st + 1 in
  let count := count st + num_examples in
  fit ← blocks_fit pred_cat_output pred_reg num_examples;
  if (fit : bool) then
    (* classification accuracy *)
    correct ← count_equal pred_cat label;
    let total_correct := total_correct st + correct in
    (* regression spread *)
    residual_reg ← broadcast2 fsub pred_reg target;
    let abs_err := fsum (map fabs (data residual_reg)) in
    let sum_abs_err := fadd (sum_abs_err st) abs_err in
    let sqr_err := fsum (map (fun x => fmul x x) (data residual_reg)) in
    let sum_sqr_err := fadd (sum_sqr_err st) sqr_err in
    (* monitor results *)
    avg_loss ← py_div total_loss num_batches;
    acc ← py_div (of_nat correct) num_examples;
    avg_acc ← py_div (of_nat total_correct) count;
    mse ← py_div sqr_err num_examples;
    avg_mse ← py_div sum_sqr_err count;
    mae ← py_div abs_err num_examples;
    avg_mae ← py_div sum_abs_err count;
    mret (State label_counter total_loss total_cat_loss total_reg_loss num_batches
                total_correct sum_sqr_err sum_abs_err entry_count count
                r.1.2 r.2 labels targets observers
                (Some (Postfix losses.1.1 avg_loss acc avg_acc mse avg_mse mae avg_mae)),
          budget_check steps_per_epoch num_batches)
  else
    mret (State label_counter total_loss total_cat_loss total_reg_loss num_batches
                (total_correct st) (sum_sqr_err st) (sum_abs_err st) entry_count count
                r.1.2 r.2 labels targets observers (shown st),
          budget_check steps_per_epoch num_batches).

(** The batch loop of [evaluate_hybrid]. *)
Definition loop (test_loader : list (batch V)) : result state :=
  for_each body init test_loader.

(** The loss and the number of examples of one batch, as [body] computes
    them. *)
Definition batch_loss (b : batch V) : result F :=
  inputs ← get_inputs data_config b;
  label ← lookup_label data_config (batch_y b);
  label ← _flatten_label label None;
  target ← build_target data_config (batch_y b);
  f ← loss_func ?! TypeError;
  loss_target ← merge_truth label target;
  mret (f (model inputs) loss_target).1.1.

Definition batch_examples (b : batch V) : result nat :=
  label ← lookup_label data_config (batch_y b);
  label ← _flatten_label label None;
  target ← build_target data_config (batch_y b);
  nl ← shape0 label;
  nt ← shape0 target;
  mret (nl `max` nt).

(** [_concat] of [weaver/utils/data/tools.py] and [evaluate_metrics] of
    [weaver/utils/nn/metrics.py] *)
Variable _concat : list (tensor V) -> result (tensor V).
Variable evaluate_metrics : tensor V -> tensor F -> result unit.

(** [[
      for idx, (name,element) in enumerate(targets.items()):
          if len(data_config.target_names) == 1:
              metric_reg_results = evaluate_metrics(element, scores_reg, eval_metrics=eval_reg_metrics)
          else:
              metric_reg_results = evaluate_metrics(element, scores_reg[:,idx], eval_metrics=eval_reg_metrics)
    ]]
    The items of [targets] come in the order in which the names were first
    inserted, that of [names]. *)
Fixpoint report_metrics (targets : gmap string (tensor V)) (scores_reg : tensor F)
    (idx : nat) (names : list string) : result unit :=
  match names with
  | [] => Ok tt
  | name :: names' =>
      element ← targets !! name ?! KeyError;
      _ ← (if length (target_names data_config) =? 1
           then evaluate_metrics element scores_reg
           else col ← select_col idx scores_reg; evaluate_metrics element col);
      report_metrics targets scores_reg (idx + 1) names'
  end.

Definition evaluate_hybrid (test_loader : list (batch V))
  : result (eval_output F (tensor F) (gmap string (tensor V))
                        (gmap string (tensor V)) (gmap string (tensor V))) :=
  st ← loop test_loader;
  scores_cat ← squeeze <$> np_concatenate (scores_cat st);
  scores_reg ← squeeze <$> np_concatenate (scores_reg st);
  labels ← dict_traverse _concat (labels st);
  targets ← dict_traverse _concat (targets st);
  name ← label_names data_config !! 0 ?! IndexError;
  truth ← labels !! name ?! KeyError;
  _ ← evaluate_metrics truth scores_cat;
  _ ← report_metrics targets scores_reg 0 (first_occurrences (target_names data_config));
  if for_training then
    v ← py_div (total_loss st) (count st);
    mret (Summary v)
  else
    observers ← dict_traverse _concat (observers st);
    if negb (ndim scores_reg =? 0) && negb (ndim scores_cat =? 0) then
      n ← len scores_reg;
      scores_reg ← np_reshape [n; length (target_names data_config)] scores_reg;
      scores ← np_concatenate1 scores_cat scores_reg;
      v ← py_div (total_loss st) (count st);
      mret (Detailed v scores labels targets observers)
    else
      v ← py_div (total_loss st) (count st);
      mret (Detailed v scores_reg labels targets observers).
End loop.
End EvaluateHybrid.

(** ** [train_regression] *)

Module TrainRegression.
Section loop.
Context {V F P : Type} `{FloatOps F} `{Raw V F}.
Variable model : P -> list (tensor V) -> tensor F.
Variable loss_func : tensor F -> tensor F -> F.
Variable optimise : P -> list (tensor V) -> tensor F -> P.
Variable data_config : config.
Variable steps_per_epoch : option nat.

Record postfix : Type :=
  Postfix { Loss : F; AvgLoss : F; MSE : F; AvgMSE : F; MAE : F; AvgMAE : F }.

Record state : Type := State {
  params : P;
  total_loss : F;
  num_batches : nat;
  sum_abs_err : F;
  sum_sqr_err : F;
  count : nat;
  shown : option postfix
}.

Definition init (θ : P) : state := State θ (of_int 0) 0 (of_int 0) (of_int 0) 0 None.

Definition body (st : state) (b : batch V) : result (state * flow) :=
  inputs ← get_inputs data_config b;
  target ← build_target data_config (batch_y b);
  num_examples ← shape0 target;
  target ← tensor_to ["non_blocking"] target;
  let model_output := model (params st) inputs in
  let preds := squeeze model_output in
  let loss := loss_func preds target in
  let θ := optimise (params st) inputs target in
  let num_batches := num_batches st + 1 in
  let count := count st + num_examples in
  let total_loss := fadd (total_loss st) loss in
  e ← broadcast2 fsub preds target;
  let abs_err := fsum (map fabs (data e)) in
  let sum_abs_err := fadd (sum_abs_err st) abs_err in
  let sqr_err := fsum (map (fun x => fmul x x) (data e)) in
  let sum_sqr_err := fadd (sum_sqr_err st) sqr_err in
  avg_loss ← py_div total_loss num_batches;
  mse ← py_div sqr_err num_examples;
  avg_mse ← py_div sum_sqr_err count;
  mae ← py_div abs_err num_examples;
  avg_mae ← py_div sum_abs_err count;
  mret (State θ total_loss num_batches sum_abs_err sum_sqr_err count
              (Some (Postfix loss avg_loss mse avg_mse mae avg_mae)),
        budget_check steps_per_epoch num_batches).

Definition loop (θ : P) (train_loader : list (batch V)) : result state :=
  for_each body (init θ) train_loader.

(** Per-batch loss shown on the progress bar. *)
Definition batch_losses (log : list state) : list F :=
  omap (fun st => Loss <$> shown st) log.

(** The numbers of the line [Train AvgLoss: .., AvgMSE: .., AvgMAE: ..]. *)
Record report : Type :=
  Report { final : state; rep_AvgLoss : F; rep_AvgMSE : F; rep_AvgMAE : F }.

Definition train_regression (θ : P) (train_loader : list (batch V)) : result report :=
  st ← loop θ train_loader;
  avg_loss ← py_div (total_loss st) (num_batches st);
  avg_mse ← py_div (sum_sqr_err st) (count st);
  avg_mae ← py_div (sum_abs_err st) (count st);
  mret (Report st avg_loss avg_mse avg_mae).
End loop.
End TrainRegression.

(** ** [evaluate_onnx_classification] *)

(** [counter.update(label)] for a numpy array of raw label values. *)
Definition counter_update_raw {K} `{Countable K} (c : gmap K nat) (label : tensor K)
  : result (gmap K nat) :=
  if ndim label =? 1 then
    Ok (foldl (fun c k => <[k := S (default 0 (c !! k))]> c) c (data label))
  else Raise TypeError.

(** [a.argmax(1)] of numpy. *)
Definition np_argmax1 {A} (ltb : A -> A -> bool) (t : tensor A) : result (tensor Z) :=
  match argmax1 ltb t with
  | Ok i => Ok i
  | Raise _ => Raise ValueError
  end.

(** [(preds == label).sum()] of numpy, for shapes that broadcast. *)
Definition np_count_equal {V} (eqb : Z -> V -> bool) (preds : tensor Z) (label : tensor V)
  : result nat :=
  match broadcast2 eqb preds label with
  | Ok t => Ok (count_true (data t))
  | Raise _ => Raise ValueError
  end.

Module EvaluateOnnxClassification.
Section loop.
Context {V F : Type} `{FloatOps F} `{Countable V}.
(** [sess.run([], inputs)] of the inference session, and numpy's [==]
    between a predicted index and a raw label value *)
Variable sess_run : gmap string (tensor V) -> list (tensor F).
Variable index_eqb : Z -> V -> bool.
Variable _concat : list (tensor V) -> result (tensor V).
Variable evaluate_metrics : tensor V -> tensor F -> result unit.
Variable data_config : config.

Record postfix : Type := Postfix { Acc : F; AvgAcc : F }.

Record state : Type := State {
  label_counter : gmap V nat;
  total_correct : nat;
  count : nat;
  scores : list (tensor F);
  labels : gmap string (list (tensor V));
  targets : gmap string (list (tensor V));
  observers : gmap string (list (tensor V));
  shown : option postfix
}.

Definition init : state := State ∅ 0 0 [] ∅ ∅ ∅ None.

Definition body (st : state) (b : batch V) : result (state * flow) :=
  let inputs := batch_X b in
  name ← label_names data_config !! 0 ?! IndexError;
  label ← batch_y b !! name ?! KeyError;
  num_examples ← shape0 label;
  label_counter ← counter_update_raw (label_counter st) label;
  score ← sess_run inputs !! 0 ?! IndexError;
  preds ← np_argmax1 fltb score;
  let scores := scores st ++ [score] in
  let labels := foldl (fun d kv => dd_append kv.1 kv.2 d) (labels st)
                      (map_to_list (batch_y b)) in
  let observers := foldl (fun d kv => dd_append kv.1 kv.2 d) (observers st)
                         (map_to_list (batch_Z b)) in
  correct ← np_count_equal index_eqb preds label;
  let total_correct := total_correct st + correct in
  let count := count st + num_examples in
  mret (State label_counter total_correct count scores labels (targets st) observers
              (Some (Postfix (fdiv (of_nat correct) (of_nat num_examples))
                             (fdiv (of_nat total_correct) (of_nat count)))),
        Next).

Definition loop (test_loader : list (batch V)) : result state :=
  for_each body init test_loader.

Definition evaluate_onnx_classification (test_loader : list (batch V))
  : result (eval_output F (tensor F) (gmap string (tensor V))
                        (gmap string (list (tensor V))) (gmap string (tensor V))) :=
  st ← loop test_loader;
  scores ← np_concatenate (scores st);
  labels ← dict_traverse _concat (labels st);
  name ← label_names data_config !! 0 ?! IndexError;
  truth ← labels !! name ?! KeyError;
  _ ← evaluate_metrics truth scores;
  observers ← dict_traverse _concat (observers st);
  mret (Detailed (fdiv (of_nat (total_correct st)) (of_nat (count st)))
                 scores labels (targets st) observers).
End loop.
End EvaluateOnnxClassification.

(** ** [evaluate_onnx_regression] and [evaluate_onnx_hybrid]

    In both functions [score = sess.run([], inputs)] is the list of the
    outputs of the session, and the next statement uses it as an array.
    The iteration is modelled up to that statement; what the rest of the
    iteration and the code after the loop would do is a parameter
    ([rest], [finish]). *)

(** [l.squeeze()], or any other array method, on a Python list. *)
Definition list_method {A B} (method : string) (l : list A) : result B :=
  Raise AttributeError.

(** [l[:, a:b]] on a Python list: a list is not indexed by a tuple. *)
Definition list_index_tuple {A B} (l : list A) : result B := Raise TypeError.

Module EvaluateOnnxRegression.
Section loop.
Context {V F : Type} `{Raw V F}.
Variable sess_run : gmap string (tensor V) -> list (tensor F).
Variable data_config : config.
Context {state output : Type}.
Variable init : state.
Variable rest :
  state -> batch V -> tensor F -> nat -> list (tensor F) -> tensor F ->
  result (state * flow).
Variable finish : state -> result output.

Definition body (st : state) (b : batch V) : result (state * flow) :=
  let inputs := batch_X b in
  target ← build_target data_config (batch_y b);
  num_examples ← shape0 target;
  let score := sess_run inputs in
  preds ← list_method "squeeze" score;
  rest st b target num_examples score preds.

Definition evaluate_onnx_regression (test_loader : list (batch V)) : result output :=
  st ← for_each body init test_loader;
  finish st.
End loop.
End EvaluateOnnxRegression.

Module EvaluateOnnxHybrid.
Section loop.
Context {V F : Type} `{Raw V F} `{Countable V}.
Variable sess_run : gmap string (tensor V) -> list (tensor F).
Variable data_config : config.

Record state : Type := State {
  label_counter : gmap V nat;
  total_loss : F;
  total_cat_loss : F;
  total_reg_loss : F;
  total_correct : nat;
  sum_sqr_err : F;
  sum_abs_err : F;
  count : nat;
  scores_cat : list (tensor F);
  scores_reg : list (tensor F);
  labels : gmap string (list (tensor V));
  targets : gmap string (list (tensor V));
  observers : gmap string (list (tensor V))
}.

Context {output : Type}.
Variable init : state.
Variable rest :
  state -> batch V -> tensor V -> tensor F -> nat -> gmap V nat -> list (tensor F) ->
  tensor F -> result (state * flow).
Variable finish : state -> result output.

Definition body (st : state) (b : batch V) : result (state * flow) :=
  (* input features for the model *)
  let inputs := batch_X b in
  name ← label_names data_config !! 0 ?! IndexError;
  label ← batch_y b !! name ?! KeyError;
  target ← build_target data_config (batch_y b);
  nl ← shape0 label;
  nt ← shape0 target;
  let num_examples := nl `max` nt in
  label_counter ← counter_update_raw (label_counter st) label;
  let score := sess_run inputs in
  block ← list_index_tuple score;
  rest st b label target num_examples label_counter score block.

Definition evaluate_onnx_hybrid (test_loader : list (batch V)) : result output :=
  st ← for_each body init test_loader;
  finish st.
End loop.
End EvaluateOnnxHybrid.

(** ** An instance to run the loops on

    Integers in the place of floats (with the integer quotient as the
    division), enough to evaluate the definitions on small inputs. *)

Module Toy.
#[global] Instance int_float : FloatOps Z := {|
  of_int := fun z => z;
  fadd := Z.add; fsub := Z.sub; fmul := Z.mul; fdiv := Z.div;
  fabs := Z.abs; fltb := Z.ltb
|}.

#[global] Instance int_raw : Raw Z Z := {|
  to_long := fun z => z;
  to_bool := fun z => negb (z =? 0)%Z;
  to_float := fun z => z
|}.

Definition cfg : config :=
  Config ["x"] ["label"] ["pt"] ["bkg"; "sig"] ["pt"].

(** a network that returns its first input unchanged *)
Definition echo (inputs : list (tensor Z)) : tensor Z :=
  default (Build [] [0%Z]) (head inputs).

Definition softmax_id (t : tensor Z) : tensor Z := t.

(** a loss that is the first entry of the truth it is given *)
Definition first_truth (_ : tensor Z) (truth : tensor Z) : Z :=
  default 0%Z (head (data truth)).

Definition hybrid_loss (out truth : tensor Z) : Z * Z * Z :=
  (first_truth out truth, 0%Z, 0%Z).

Definition mk_batch (x label pt : tensor Z) : batch Z :=
  Batch {["x" := x]} {["label" := label; "pt" := pt]} ∅.

(** two batches of two and three examples, whose losses are 4 and 2 *)
Definition two_batches : list (batch Z) :=
  [ mk_batch (Build [2; 2] [5; 1; 0; 7]%Z) (Build [2] [4; 1]%Z) (Build [2] [10; 20]%Z);
    mk_batch (Build [3; 2] [1; 0; 0; 1; 3; 2]%Z) (Build [3] [2; 0; 0]%Z)
             (Build [3] [15; 5; 7]%Z) ].

Definition train_body :=
  TrainClassification.body (P := unit) (fun _ => echo) first_truth
                           (fun θ _ _ => θ) cfg None.

Definition eval_body :=
  EvaluateClassification.body echo softmax_id (Some first_truth) cfg false None.

(** an evaluation pass outside training and without a dashboard helper,
    with numpy's [concatenate] for [_concat] and metrics that always
    succeed *)
Definition evaluate (steps_per_epoch : option nat) :=
  EvaluateClassification.evaluate_classification
    echo softmax_id (Some first_truth) np_concatenate (fun _ _ => Ok tt)
    cfg false false steps_per_epoch.

Definition evaluate_regression :=
  EvaluateRegression.evaluate_regression
    echo (Some first_truth) np_concatenate cfg false None.

(** two entries of three positions each, two classes, no mask *)
Definition sequence_batch : batch Z :=
  mk_batch (Build [2; 2; 3] [5; 1; 0; 7; 2; 2; 1; 0; 0; 1; 3; 2]%Z)
           (Build [2; 3] [0; 1; 1; 0; 1; 0]%Z) (Build [2] [10; 20]%Z).

(** a hybrid batch of two examples whose raw output has rank 1, and one
    whose raw output has two class columns and one target column *)
Definition rank1_batch : batch Z :=
  mk_batch (Build [2] [3; 4]%Z) (Build [2] [0; 1]%Z) (Build [2] [10; 20]%Z).

Definition hybrid_batch : batch Z :=
  mk_batch (Build [2; 3] [9; 1; 10; 2; 8; 19]%Z) (Build [2] [0; 1]%Z)
           (Build [2] [10; 20]%Z).

Definition train_hybrid_loop (steps_per_epoch : option nat) :=
  TrainHybrid.loop (P := unit) (fun _ => echo) hybrid_loss (fun θ _ _ => θ)
                   cfg steps_per_epoch tt.

Definition evaluate_hybrid_loop :=
  EvaluateHybrid.loop echo softmax_id (Some hybrid_loss) cfg false None.

(** two entries of three positions with a validity mask keeping two
    positions of the first entry and one of the second *)
Definition masked_batch : batch Z :=
  Batch {["x" := Build [2; 2; 3] [5; 1; 0; 7; 2; 2; 1; 0; 0; 1; 3; 2]%Z]}
        {["label" := Build [2; 3] [0; 1; 1; 0; 1; 0]%Z;
          "label_mask" := Build [2; 3] [1; 1; 0; 1; 0; 0]%Z]}
        ∅.

(** a single entry of three positions, of which the mask keeps two *)
Definition one_entry_masked : batch Z :=
  Batch {["x" := Build [1; 2; 3] [4; 1; 0; 2; 6; 3]%Z]}
        {["label" := Build [1; 3] [0; 1; 1]%Z;
          "label_mask" := Build [1; 3] [1; 1; 0]%Z]}
        ∅.

(** the scenario of the specification with every value multiplied by ten:
    labels 0 1 1 0, targets 10 20 15 5, and raw output rows of two class
    scores followed by the predicted target *)
Definition scenario_batch : batch Z :=
  mk_batch (Build [4; 3] [9; 1; 105; 2; 8; 190; 3; 7; 160; 6; 4; 45]%Z)
           (Build [4] [0; 1; 1; 0]%Z) (Build [4] [100; 200; 150; 50]%Z).

(** two regression batches of two and three examples, with losses 10 and 4 *)
Definition regression_batches : list (batch Z) :=
  [ mk_batch (Build [2; 1] [11; 19]%Z) (Build [2] [0; 1]%Z) (Build [2] [10; 20]%Z);
    mk_batch (Build [3; 1] [4; 5; 6]%Z) (Build [3] [0; 1; 1]%Z) (Build [3] [4; 7; 7]%Z) ].

Definition train_regression (data_config : config) (steps_per_epoch : option nat) :=
  TrainRegression.train_regression (P := unit) (fun _ => echo) first_truth
                                   (fun θ _ _ => θ) data_config steps_per_epoch tt.

(** a configuration that names no target *)
Definition cfg_no_target : config := Config ["x"] ["label"] [] ["bkg"; "sig"] [].

(** an inference session that returns its input [x] as its only output *)
Definition session (inputs : gmap string (tensor Z)) : list (tensor Z) :=
  match inputs !! "x" with Some x => [x] | None => [] end.

(** a hybrid batch of a single example *)
Definition single_batch : batch Z :=
  mk_batch (Build [1; 3] [9; 1; 10]%Z) (Build [1] [0]%Z) (Build [1] [10]%Z).

(** a network that returns the same two rows whatever it is given *)
Definition constant_model (_ : unit) (_ : list (tensor Z)) : tensor Z :=
  Build [2; 3] [9; 1; 10; 2; 8; 19]%Z.

(** a hybrid batch of two examples for which the network returns three
    rows *)
Definition mismatched_batch : batch Z :=
  mk_batch (Build [3; 3] [9; 1; 10; 2; 8; 19; 4; 4; 4]%Z) (Build [2] [0; 1]%Z)
           (Build [2] [10; 20]%Z).

(** two hybrid batches of two and three examples, with losses 1 and 5 *)
Definition hybrid_batches : list (batch Z) :=
  [ mk_batch (Build [2; 3] [9; 1; 10; 2; 8; 19]%Z) (Build [2] [1; 0]%Z)
             (Build [2] [10; 20]%Z);
    mk_batch (Build [3; 3] [1; 2; 3; 4; 5; 6; 7; 8; 9]%Z) (Build [3] [5; 0; 1]%Z)
             (Build [3] [1; 2; 3]%Z) ].

Definition evaluate_hybrid (loss_func : option (tensor Z -> tensor Z -> Z * Z * Z))
    (for_training : bool) :=
  EvaluateHybrid.evaluate_hybrid echo softmax_id loss_func cfg for_training None
                                 np_concatenate (fun _ _ => Ok tt).
End Toy.

(** * Properties *)

(** ** The definitions at work *)

Example flatten_label_masked_example :
  _flatten_label (Build [2; 2] [10; 11; 12; 13]%Z)
                 (Some (Build [2; 2] [true; false; false; true]))
  = Ok (Build [2] [10; 13]%Z).
Proof. reflexivity. Qed.

Example flatten_preds_masked_example :
  _flatten_preds (Build [2; 3; 2] [1; 2; 3; 4; 5; 6; 7; 8; 9; 10; 11; 12]%Z)
                 (Some (Build [2; 2] [true; false; false; true])) 1
  = Ok (Build [2; 3] [1; 3; 5; 8; 10; 12]%Z).
Proof. reflexivity. Qed.

Example selected_example :
  selected (Build [2; 2] [true; false; false; true]) = [(0, 0); (1, 1)].
Proof. reflexivity. Qed.

Example broadcast_example :
  broadcast2 Z.sub (Build [2; 2] [5; 6; 7; 8]%Z) (Build [2] [1; 2]%Z)
  = Ok (Build [2; 2] [4; 4; 6; 6]%Z).
Proof. reflexivity. Qed.

Example np_transpose_example :
  np_transpose [0; 2; 1] (Build [1; 2; 3] [1; 2; 3; 4; 5; 6]%Z)
  = Ok (Build [1; 3; 2] [1; 4; 2; 5; 3; 6]%Z)
  /\ np_transpose [1; 2] (Build [1; 2; 3] [1; 2; 3; 4; 5; 6]%Z) = Raise ValueError.
Proof. split; reflexivity. Qed.

(** The scenario of the specification: four of four predictions correct,
    residuals 0.5, -1, 1, -0.5 (times ten), sum |e| = 3.0, sum e^2 = 2.5. *)
Example hybrid_scenario :
  exists st,
    Toy.train_hybrid_loop None [Toy.scenario_batch] = Ok st
    /\ TrainHybrid.total_correct st = 4
    /\ TrainHybrid.sum_abs_err st = 30%Z
    /\ TrainHybrid.sum_sqr_err st = 250%Z
    /\ TrainHybrid.count st = 4.
Proof. eexists. split; [vm_compute; reflexivity|]. repeat split. Qed.

(** A masked evaluation outside training, end to end: three flat scores
    for two entries come back as the lists of the two entries. *)
Example masked_evaluation :
  exists v j labels observers,
    Toy.evaluate None [Toy.masked_batch] = Ok (Detailed v (AK j) labels ∅ observers)
    /\ jcounts j = [2; 1]
    /\ jgroups j = [[5; 7; 1; 2]; [1; 1]]%Z.
Proof. vm_compute. do 4 eexists. repeat split. Qed.

(** ** Lists: chunks, masks and positions *)

Section list_facts.
Context {A : Type}.
Implicit Types (l : list A) (ms : list bool).

Lemma chunks_length k n l : length (chunks k n l) = n.
Proof. revert l; induction n as [|n IH]; intros l; simpl; [done|by rewrite IH]. Qed.

Lemma chunks_lookup k n l i :
  i < n -> chunks k n l !! i = Some (take k (drop (i * k) l)).
Proof.
  revert l i; induction n as [|n IH]; intros l i Hi; [lia|].
  destruct i as [|i]; simpl.
  - by rewrite drop_0.
  - rewrite IH by lia. by rewrite drop_drop.
Qed.

Lemma chunks_width k n l x :
  n * k <= length l -> x ∈ chunks k n l -> length x = k.
Proof.
  intros Hlen [i Hi]%list_elem_of_lookup.
  assert (i < n) as Hlt.
  { apply lookup_lt_Some in Hi. by rewrite chunks_length in Hi. }
  rewrite chunks_lookup in Hi by done. injection Hi as <-.
  rewrite length_take, length_drop. nia.
Qed.

Lemma concat_lookup_uniform (ls : list (list A)) w i k :
  (forall x, x ∈ ls -> length x = w) -> k < w ->
  concat ls !! (i * w + k) = ls !! i ≫= (fun x => x !! k).
Proof.
  revert i; induction ls as [|x ls IH]; intros i Hw Hk; [done|].
  assert (length x = w) as Hx by (apply Hw; left).
  destruct i as [|i]; simpl.
  - rewrite lookup_app_l by lia. done.
  - rewrite lookup_app_r by lia.
    replace (w + i * w + k - length x) with (i * w + k) by lia.
    apply IH; [|done]. intros y Hy. apply Hw. by right.
Qed.

Lemma concat_length_uniform (ls : list (list A)) w :
  (forall x, x ∈ ls -> length x = w) -> length (concat ls) = length ls * w.
Proof.
  induction ls as [|x ls IH]; intros Hw; [done|].
  simpl. rewrite length_app, IH, (Hw x).
  - done.
  - left.
  - intros y Hy. apply Hw. by right.
Qed.

Lemma kept_cons m ms :
  kept (m :: ms) = (if m then [0] else []) ++ (S <$> kept ms).
Proof.
  unfold kept. simpl length. rewrite <- cons_seq, <- fmap_S_seq.
  assert (forall l : list nat,
    filter (fun p => (m :: ms) !! p = Some true) (S <$> l)
    = S <$> filter (fun p => ms !! p = Some true) l) as Hmap.
  { induction l as [|p l IH]; [done|].
    rewrite fmap_cons, !filter_cons. simpl.
    destruct (decide (ms !! p = Some true)); by rewrite IH. }
  rewrite filter_cons, Hmap. simpl.
  destruct m; by destruct (decide _).
Qed.

Lemma mask_select_length l ms : length (mask_select l ms) <= length ms.
Proof.
  revert ms; induction l as [|x l IH]; intros [|m ms]; simpl; try lia.
  specialize (IH ms). destruct m; simpl; lia.
Qed.

Lemma mask_select_lookup l ms i p :
  length l = length ms -> kept ms !! i = Some p -> mask_select l ms !! i = l !! p.
Proof.
  revert ms i p; induction l as [|x l IH]; intros [|m ms] i p Hlen; try done.
  rewrite kept_cons. simpl in Hlen. simpl mask_select.
  destruct m; simpl.
  - destruct i as [|i]; simpl; [by intros [= <-]|].
    rewrite list_lookup_fmap. destruct (kept ms !! i) as [p'|] eqn:Hp; [|done].
    intros [= <-]. simpl. eapply IH; [lia|done].
  - rewrite list_lookup_fmap. destruct (kept ms !! i) as [p'|] eqn:Hp; [|done].
    intros [= <-]. simpl. eapply IH; [lia|done].
Qed.

Lemma mask_select_kept_length l ms :
  length l = length ms -> length (mask_select l ms) = length (kept ms).
Proof.
  revert ms; induction l as [|x l IH]; intros [|m ms] Hlen; try done.
  rewrite kept_cons, length_app, length_fmap. simpl in *.
  destruct m; simpl; rewrite IH by lia; done.
Qed.

Lemma kept_bound ms i p : kept ms !! i = Some p -> p < length ms.
Proof.
  intros Hi. apply list_elem_of_lookup_2 in Hi.
  apply list_elem_of_filter in Hi as [_ Hi].
  apply elem_of_seq in Hi. lia.
Qed.
End list_facts.

Lemma count_true_kept ms : count_true ms = length (kept ms).
Proof.
  induction ms as [|m ms IH]; [done|].
  rewrite kept_cons, length_app, length_fmap, <- IH. unfold count_true.
  rewrite filter_cons. destruct m; case_decide; simpl; congruence.
Qed.

(** ** Flattening of labels and predictions *)

Lemma chunks_singletons {A} (l : list A) :
  chunks 1 (length l) l = (fun x => [x]) <$> l.
Proof. induction l as [|x l IH]; [done|]. simpl. by rewrite drop_0, IH. Qed.

Lemma mask_select_singletons {A} (l : list A) ms :
  concat (mask_select ((fun x => [x]) <$> l) ms) = mask_select l ms.
Proof.
  revert ms; induction l as [|x l IH]; intros [|m ms]; simpl; try done.
  destruct m; simpl; by rewrite IH.
Qed.

Lemma flatten_label_masked {A} (label : tensor A) (mask : tensor bool) R C :
  shape label = [R; C] -> shape mask = [R; C] -> wf label ->
  _flatten_label label (Some mask)
  = Ok (Build [count_true (data mask)] (mask_select (data label) (data mask))).
Proof.
  intros Hl Hm Wl. unfold _flatten_label, ndim, view_flat, bool_index.
  rewrite Hl, Hm. simpl. rewrite Nat.eqb_refl.
  red in Wl. rewrite Hl in Wl. simpl in Wl. rewrite <- Wl.
  by rewrite chunks_singletons, mask_select_singletons.
Qed.

Lemma div_mod_split C K p k :
  k < K -> 0 < C ->
  (p * K + k) / (C * K) = p / C /\ (p * K + k) mod (C * K) = p mod C * K + k.
Proof.
  intros Hk HC.
  assert (p * K + k = C * K * (p / C) + (p mod C * K + k)) as Heq.
  { pose proof (Nat.div_mod_eq p C). nia. }
  assert (p mod C * K + k < C * K) as Hlt.
  { pose proof (Nat.mod_upper_bound p C). nia. }
  split.
  - symmetry. by apply (Nat.div_unique _ _ _ (p mod C * K + k)).
  - symmetry. by apply (Nat.mod_unique _ _ (p / C)).
Qed.

Lemma swap_at_12 a b c : swap_at 1 2 [a; b; c] = [a; c; b].
Proof. reflexivity. Qed.

Lemma source_index R C K p k :
  p < R * C -> k < K ->
  ravel [R; K; C] (swap_at 1 2 (unravel [R; C; K] (p * K + k)))
  = p / C * (K * C) + k * C + p mod C.
Proof.
  intros Hp Hk. assert (0 < C) as HC by nia.
  cbn [unravel numel foldr]. rewrite swap_at_12. cbn [ravel numel foldr].
  rewrite !Nat.mul_1_r, !Nat.div_1_r, !Nat.add_0_r.
  destruct (div_mod_split C K p k Hk HC) as [-> ->].
  assert ((p mod C * K + k) / K = p mod C) as ->.
  { symmetry. apply (Nat.div_unique _ _ _ k); [done|lia]. }
  assert ((p mod C * K + k) mod K = k) as ->.
  { symmetry. apply (Nat.mod_unique _ _ (p mod C)); [done|lia]. }
  lia.
Qed.

Lemma source_index_bound R C K p k :
  p < R * C -> k < K -> p / C * (K * C) + k * C + p mod C < R * (K * (C * 1)).
Proof.
  intros Hp Hk. assert (0 < C) as HC by nia.
  pose proof (Nat.mod_upper_bound p C).
  assert (p / C < R) by (apply Nat.Div0.div_lt_upper_bound; lia).
  nia.
Qed.

Lemma transpose_rank3 {A} (preds : tensor A) R K C :
  shape preds = [R; K; C] -> wf preds ->
  exists d,
    transpose 1 2 preds = Ok (Build [R; C; K] d) /\
    length d = R * C * K /\
    forall p k, p < R * C -> k < K ->
      d !! (p * K + k) = data preds !! (p / C * (K * C) + k * C + p mod C).
Proof.
  intros Hs W. red in W. rewrite Hs in W.
  unfold transpose, ndim. rewrite Hs. cbn [length Nat.ltb Nat.leb andb].
  change (swap_at 1 2 [R; K; C]) with [R; C; K].
  set (f := fun q => data preds !! ravel [R; K; C] (swap_at 1 2 (unravel [R; C; K] q))).
  assert (forall q, q < R * C * K -> exists p k, q = p * K + k /\ p < R * C /\ k < K)
    as Hdec.
  { intros q Hq. assert (0 < K) by nia.
    exists (q / K), (q mod K). pose proof (Nat.div_mod_eq q K).
    pose proof (Nat.mod_upper_bound q K).
    assert (q / K < R * C) by (apply Nat.Div0.div_lt_upper_bound; lia).
    lia. }
  assert (is_Some (mapM f (seq 0 (numel [R; C; K])))) as [d Hd].
  { apply mapM_is_Some_2, Forall_forall. intros q Hq%elem_of_seq.
    simpl in Hq. destruct (Hdec q) as (p & k & -> & Hp & Hk); [lia|].
    unfold compose, f. rewrite source_index by done.
    apply lookup_lt_is_Some. rewrite W. by apply source_index_bound. }
  rewrite Hd. simpl. exists d. split; [done|].
  apply mapM_Some_1 in Hd.
  pose proof (Forall2_length _ _ _ Hd) as Hlen. rewrite length_seq in Hlen.
  split; [simpl in Hlen; lia|].
  intros p k Hp Hk.
  assert (seq 0 (numel [R; C; K]) !! (p * K + k) = Some (p * K + k)) as Hq.
  { apply lookup_seq. simpl. nia. }
  destruct (Forall2_lookup_l _ _ _ _ _ Hd Hq) as (y & Hy & Hf).
  rewrite Hy, <- Hf. unfold f. by rewrite source_index.
Qed.

Lemma flatten_preds_masked {A} (preds : tensor A) (mask : tensor bool) R K C :
  shape preds = [R; K; C] -> shape mask = [R; C] -> wf preds -> 0 < K ->
  exists d,
    _flatten_preds preds (Some mask) 1
    = Ok (Build [count_true (data mask); K]
                (concat (mask_select (chunks K (R * C) d) (data mask)))) /\
    length d = R * C * K /\
    forall p k, p < R * C -> k < K ->
      d !! (p * K + k) = data preds !! (p / C * (K * C) + k * C + p mod C).
Proof.
  intros Hs Hm W HK.
  destruct (transpose_rank3 preds R K C Hs W) as (d & Ht & Hlen & Hd).
  exists d. split; [|done].
  unfold _flatten_preds, ndim. rewrite Hs. cbn [length Nat.ltb Nat.leb Nat.sub].
  rewrite Ht. cbn [mbind result_bind shape_last shape last or_raise].
  unfold view_rows. cbn [shape data numel foldr].
  assert (R * (C * (K * 1)) = R * C * K) as -> by lia.
  rewrite Nat.Div0.mod_mul, Nat.div_mul by lia.
  destruct K as [|K']; [lia|]. cbn [Nat.eqb orb negb].
  unfold bool_index, view_flat. rewrite Hm. cbn [shape data numel foldr].
  assert (R * (C * 1) = R * C) as -> by lia.
  cbn [mbind result_bind shape data numel foldr].
  rewrite Nat.eqb_refl. by rewrite Nat.mul_1_r.
Qed.

Lemma mask_select_elem_of {A} (l : list A) ms x : x ∈ mask_select l ms -> x ∈ l.
Proof.
  revert ms; induction l as [|y l IH]; intros [|m ms]; simpl; try by intros ?%elem_of_nil.
  destruct m.
  - intros [->|Hx]%elem_of_cons; [left|right; by eapply IH].
  - intros Hx. right. by eapply IH.
Qed.

Lemma selected_lookup (mask : tensor bool) R C i r c :
  shape mask = [R; C] -> wf mask -> selected mask !! i = Some (r, c) ->
  exists p, kept (data mask) !! i = Some p /\ p < R * C /\ 0 < C /\
            r = p / C /\ c = p mod C /\ r * C + c = p /\ c < C.
Proof.
  intros Hm W. unfold selected. rewrite Hm, list_lookup_fmap.
  destruct (kept (data mask) !! i) as [p|] eqn:Hp; [|done].
  intros [= <- <-]. exists p. pose proof (kept_bound _ _ _ Hp) as Hb.
  red in W. rewrite Hm in W. simpl in W. rewrite W in Hb.
  assert (0 < C) by nia.
  pose proof (Nat.div_mod_eq p C). pose proof (Nat.mod_upper_bound p C).
  repeat split; try done; lia.
Qed.

(** C1 (as amended). For a label of shape (R, C), a mask of the same shape
    and a prediction tensor of shape (R, K, C) with its K >= 1 classes on
    axis 1, [_flatten_label] and [_flatten_preds] with that mask return
    arrays of the same length, the number of positions the mask keeps; and
    entry [i] of the flat label and row [i] of the flat predictions are the
    label and the K class scores of one and the same coordinate (r, c) of
    the inputs, the [i]-th one kept by the mask in row-major order. *)
Theorem flatten_label_preds_aligned {A B} (label : tensor A) (mask : tensor bool)
    (preds : tensor B) (R C K : nat) :
  shape label = [R; C] -> shape mask = [R; C] -> shape preds = [R; K; C] ->
  wf label -> wf mask -> wf preds -> 0 < K ->
  exists fl fp,
    _flatten_label label (Some mask) = Ok fl /\
    _flatten_preds preds (Some mask) 1 = Ok fp /\
    shape fl = [length (selected mask)] /\
    shape fp = [length (selected mask); K] /\
    forall i r c, selected mask !! i = Some (r, c) ->
      is_Some (get2 label r c) /\
      get1 fl i = get2 label r c /\
      forall k, k < K -> is_Some (get3 preds r k c) /\ get2 fp i k = get3 preds r k c.
Proof.
  intros Hl Hm Hp Wl Wm Wp HK.
  destruct (flatten_preds_masked preds mask R K C Hp Hm Wp HK) as (d & Hfp & Hlen & Hd).
  rewrite (flatten_label_masked label mask R C Hl Hm Wl), Hfp.
  assert (length (selected mask) = count_true (data mask)) as Hsel.
  { unfold selected. rewrite Hm, length_fmap. symmetry. apply count_true_kept. }
  assert (length (data label) = length (data mask)) as Hlm.
  { red in Wl, Wm. by rewrite Wl, Wm, Hl, Hm. }
  assert (length (data mask) = R * C) as Hmask.
  { red in Wm. rewrite Wm, Hm. simpl. lia. }
  eexists _, _. split; [done|]. split; [done|]. cbn [shape]. rewrite Hsel.
  split; [done|]. split; [done|].
  intros i r c Hi.
  destruct (selected_lookup mask R C i r c Hm Wm Hi)
    as (p & Hk & Hlt & HC & -> & -> & Hrc & Hc).
  assert (get2 label (p / C) (p mod C) = data label !! p) as Hg2.
  { unfold get2. rewrite Hl. apply Nat.ltb_lt in Hc. by rewrite Hc, Hrc. }
  split; [|split].
  - rewrite Hg2. apply lookup_lt_is_Some. lia.
  - rewrite Hg2. unfold get1. cbn [data]. by apply mask_select_lookup.
  - intros k Hk'.
    assert (get3 preds (p / C) k (p mod C)
            = data preds !! (p / C * (K * C) + k * C + p mod C)) as Hg3.
    { unfold get3. rewrite Hp. apply Nat.ltb_lt in Hc, Hk'. by rewrite Hc, Hk'. }
    rewrite Hg3. split.
    + apply lookup_lt_is_Some. red in Wp. rewrite Wp, Hp.
      apply source_index_bound; lia.
    + unfold get2. cbn [shape data].
      pose proof Hk' as Hk''. apply Nat.ltb_lt in Hk''. rewrite Hk''.
      assert (forall x, x ∈ mask_select (chunks K (R * C) d) (data mask) ->
                        length x = K) as Hw.
      { intros x Hx%mask_select_elem_of. apply (chunks_width K (R * C) d); [lia|done]. }
      rewrite (concat_lookup_uniform _ K _ _ Hw Hk').
      rewrite (mask_select_lookup _ _ _ p); [|by rewrite chunks_length|done].
      rewrite chunks_lookup by done. cbn [mbind option_bind].
      rewrite lookup_take_lt, lookup_drop by done. by apply Hd.
Qed.

Lemma flatten_label_preds_aligned_witness :
  exists fl fp,
    _flatten_label (Build [2; 2] [10; 11; 12; 13]%Z)
                   (Some (Build [2; 2] [true; false; false; true])) = Ok fl /\
    _flatten_preds (Build [2; 3; 2] [1; 2; 3; 4; 5; 6; 7; 8; 9; 10; 11; 12]%Z)
                   (Some (Build [2; 2] [true; false; false; true])) 1 = Ok fp /\
    shape fl = [2] /\ shape fp = [2; 3].
Proof.
  destruct (flatten_label_preds_aligned
              (Build [2; 2] [10; 11; 12; 13]%Z)
              (Build [2; 2] [true; false; false; true])
              (Build [2; 3; 2] [1; 2; 3; 4; 5; 6; 7; 8; 9; 10; 11; 12]%Z) 2 2 3)
    as (fl & fp & H1 & H2 & H3 & H4 & _);
    [reflexivity | reflexivity | reflexivity | reflexivity | reflexivity | reflexivity
    | lia | ].
  exists fl, fp. repeat split; assumption.
Defined.

(** A rank-2 prediction tensor is handed back as it is: neither flattened
    nor masked. *)
Lemma flatten_preds_rank2 {A} (preds : tensor A) mask label_axis :
  ndim preds <= 2 -> _flatten_preds preds mask label_axis = Ok preds.
Proof.
  intros Hn. unfold _flatten_preds.
  destruct (2 <? ndim preds) eqn:E; [apply Nat.ltb_lt in E; lia|done].
Qed.

(** C1 (as stated) fails for a prediction tensor of the shape of the label:
    with a 2x2 label, a mask keeping three positions and a 2x2 prediction,
    the flat label has length 3 and the predictions keep their length 2. *)
Lemma flatten_equal_shape_lengths_differ :
  ~ flatten_lengths_agree
      (Build [2; 2] [10; 11; 12; 13]%Z)
      (Build [2; 2] [true; false; true; true])
      (Build [2; 2] [1; 2; 3; 4]%Z).
Proof.
  intros (fl & fp & n & Hl & Hp & Hn1 & Hn2).
  vm_compute in Hl, Hp. injection Hl as <-. injection Hp as <-.
  vm_compute in Hn1, Hn2. congruence.
Qed.

(** ** The hybrid blocks *)

Lemma concat_chunk {A} (ls : list (list A)) w r x :
  (forall y, y ∈ ls -> length y = w) -> ls !! r = Some x ->
  take w (drop (r * w) (concat ls)) = x.
Proof.
  revert r; induction ls as [|y ls IH]; intros r Hw Hr; [done|].
  assert (length y = w) as Hy by (apply Hw; left).
  destruct r as [|r]; simpl in *.
  - injection Hr as ->. by rewrite drop_0, take_app_length'.
  - rewrite drop_app_add' by done. apply IH; [|done].
    intros z Hz. apply Hw. by right.
Qed.

Lemma row_length {A} (t : tensor A) n w r :
  shape t = [n; w] -> wf t -> r < n -> length (row r t) = w.
Proof.
  intros Hs W Hr. red in W. rewrite Hs in W. simpl in W.
  unfold row. rewrite Hs, chunks_lookup by done. simpl.
  rewrite length_take, length_drop. nia.
Qed.

Lemma py_slice_length {A} (l : list A) a b :
  length (py_slice a b l) = b `min` length l - a `min` length l.
Proof. unfold py_slice. rewrite length_take, length_drop. lia. Qed.

Lemma slice_cols_rank2 {A} (t : tensor A) n w a b :
  shape t = [n; w] -> wf t ->
  exists s, slice_cols a b t = Ok s /\ shape s = [n; b `min` w - a `min` w] /\
            forall r, r < n -> row r s = py_slice a b (row r t).
Proof.
  intros Hs W. unfold slice_cols. rewrite Hs. eexists. split; [done|].
  split; [done|]. intros r Hr.
  pose proof (row_length t n w r Hs W Hr) as Hlen.
  unfold row in *. cbn [shape data numel foldr]. rewrite Hs in *.
  rewrite !Nat.mul_1_r. rewrite !chunks_lookup in * by done. cbn [default] in *.
  rewrite (concat_chunk _ _ _ (py_slice a b (take w (drop (r * w) (data t))))); [done| |].
  - intros y [x [-> Hx]]%list_elem_of_fmap.
    rewrite py_slice_length. erewrite chunks_width; [done| |done].
    red in W. rewrite Hs in W. simpl in W. lia.
  - by rewrite list_lookup_fmap, chunks_lookup.
Qed.

(** C3. On a raw output of rows of width at least [num_classes +
    num_targets], the block of class scores [[:, 0:num_classes]] and the
    block of regression outputs [[:, num_classes:num_classes+num_targets]]
    have widths [num_classes] and [num_targets], and in every row the first
    followed by the second is exactly the first [num_classes + num_targets]
    columns: each of those columns is in one block and in one only. *)
Theorem hybrid_blocks_partition {A} (cfg : config) (model_output : tensor A) (n w : nat) :
  shape model_output = [n; w] -> wf model_output ->
  length (label_value cfg) + length (target_value cfg) <= w ->
  exists pc pr,
    class_block cfg model_output = Ok pc /\
    target_block cfg model_output = Ok pr /\
    shape pc = [n; length (label_value cfg)] /\
    shape pr = [n; length (target_value cfg)] /\
    forall r, r < n ->
      length (row r pc) = length (label_value cfg) /\
      length (row r pr) = length (target_value cfg) /\
      row r pc ++ row r pr
      = take (length (label_value cfg) + length (target_value cfg)) (row r model_output).
Proof.
  intros Hs W Hw. unfold class_block, target_block.
  set (nc := length (label_value cfg)) in *. set (nt := length (target_value cfg)) in *.
  destruct (slice_cols_rank2 model_output n w 0 nc Hs W) as (pc & -> & Hpc & Hrc).
  destruct (slice_cols_rank2 model_output n w nc (nc + nt) Hs W) as (pr & -> & Hpr & Hrr).
  exists pc, pr. split; [done|]. split; [done|].
  split; [rewrite Hpc; f_equal; f_equal; lia|].
  split; [rewrite Hpr; f_equal; f_equal; lia|].
  intros r Hr. rewrite Hrc, Hrr by done.
  pose proof (row_length model_output n w r Hs W Hr) as Hlen.
  rewrite !py_slice_length, Hlen. unfold py_slice. rewrite drop_0.
  replace (nc - 0) with nc by lia. replace (nc + nt - nc) with nt by lia.
  split; [lia|]. split; [lia|]. apply take_take_drop.
Qed.

Lemma hybrid_blocks_partition_witness :
  exists pc pr,
    class_block (Config [] [] [] ["a"; "b"; "c"] ["pt"; "eta"])
                (Build [2; 5] [1; 2; 3; 4; 5; 6; 7; 8; 9; 10]%Z) = Ok pc /\
    target_block (Config [] [] [] ["a"; "b"; "c"] ["pt"; "eta"])
                 (Build [2; 5] [1; 2; 3; 4; 5; 6; 7; 8; 9; 10]%Z) = Ok pr /\
    shape pc = [2; 3] /\ shape pr = [2; 2].
Proof.
  destruct (hybrid_blocks_partition
              (Config [] [] [] ["a"; "b"; "c"] ["pt"; "eta"])
              (Build [2; 5] [1; 2; 3; 4; 5; 6; 7; 8; 9; 10]%Z) 2 5)
    as (pc & pr & H1 & H2 & H3 & H4 & _); [reflexivity | reflexivity | simpl; lia | ].
  exists pc, pr. repeat split; assumption.
Defined.

(** ** Loops and their logs *)

(** Inversion of a successful sequence of monadic steps. *)
Ltac inv_bind H :=
  repeat match type of H with
  | mbind _ ?m = Ok _ =>
      let E := fresh "E" in
      destruct m eqn:E; cbn [mbind result_bind] in H; [|discriminate H]
  end.

Lemma last_cons_default {A} (x : A) l : last (x :: l) = Some (default x (last l)).
Proof.
  revert x; induction l as [|y l IH]; intros x; [done|].
  change (last (x :: y :: l)) with (last (y :: l)). by rewrite IH.
Qed.

Section for_each_facts.
Context {S B : Type} (body : S -> B -> result (S * flow)).

Lemma for_each_log_last l st st' :
  for_each body st l = Ok st' ->
  exists log, for_each_log body st l = Ok log /\ st' = default st (last log).
Proof.
  revert st; induction l as [|b l IH]; intros st Hrun; simpl in *.
  - injection Hrun as <-. by exists [].
  - destruct (body st b) as [[st1 []]|] eqn:E; simpl in *; [| |done].
    + destruct (IH _ Hrun) as (log & -> & ->). exists (st1 :: log).
      split; [done|]. by rewrite last_cons_default.
    + injection Hrun as <-. by exists [st1].
Qed.

(** A property kept by every iteration holds when the loop ends. *)
Lemma for_each_invariant (I : S -> Prop) l st st' :
  (forall s b s' fl, I s -> body s b = Ok (s', fl) -> I s') ->
  I st -> for_each body st l = Ok st' -> I st'.
Proof.
  intros Hstep. revert st; induction l as [|b l IH]; intros st HI Hrun; simpl in *.
  - by injection Hrun as <-.
  - destruct (body st b) as [[st1 fl]|] eqn:E; simpl in *; [|done].
    assert (I st1) by (by eapply Hstep).
    destruct fl; [by eapply IH|by injection Hrun as <-].
Qed.
End for_each_facts.

Lemma tensor_to_non_blocking {A} (t : tensor A) : tensor_to ["non_blocking"] t = Ok t.
Proof. reflexivity. Qed.

(** ** Running averages of the classification loops *)

Section train_classification_facts.
Context {V F P : Type} `{FloatOps F} `{Raw V F}.
Variable model : P -> list (tensor V) -> tensor F.
Variable loss_func : tensor F -> tensor Z -> F.
Variable optimise : P -> list (tensor V) -> tensor Z -> P.
Variable data_config : config.
Variable steps_per_epoch : option nat.

Import TrainClassification.
#[local] Abbreviation body := (body model loss_func optimise data_config steps_per_epoch).

Lemma train_body_step st b st' fl :
  body st b = Ok (st', fl) ->
  exists p, shown st' = Some p /\
            total_loss st' = fadd (total_loss st) (Loss p) /\
            num_batches st' = num_batches st + 1 /\
            fl = budget_check steps_per_epoch (num_batches st').
Proof.
  intros Hb. unfold TrainClassification.body in Hb. inv_bind Hb.
  injection Hb as <- <-. simpl. eauto.
Qed.

Lemma train_losses_cons (st : @state F P) log p :
  shown st = Some p -> batch_losses (st :: log) = Loss p :: batch_losses log.
Proof. intros Hp. unfold batch_losses. cbn [omap list_omap]. by rewrite Hp. Qed.

Lemma train_log_totals l st log :
  for_each_log body st l = Ok log ->
  total_loss (default st (last log)) = foldl fadd (total_loss st) (batch_losses log) /\
  num_batches (default st (last log)) = num_batches st + length log /\
  length (batch_losses log) = length log.
Proof.
  revert st log; induction l as [|b l IH]; intros st log Hlog; simpl in Hlog.
  - injection Hlog as <-. simpl. auto.
  - destruct (body st b) as [[st1 fl]|] eqn:E; simpl in Hlog; [|done].
    destruct (train_body_step _ _ _ _ E) as (p & Hp & Hl & Hn & _).
    destruct fl.
    + destruct (for_each_log body st1 l) as [log'|] eqn:E'; simpl in Hlog; [|done].
      injection Hlog as <-. destruct (IH _ _ E') as (IH1 & IH2 & IH3).
      rewrite last_cons_default, (train_losses_cons _ _ _ Hp).
      cbn [from_option id foldl length]. rewrite IH1, IH2, IH3, Hl, Hn. repeat split; lia.
    + injection Hlog as <-. rewrite (train_losses_cons _ _ _ Hp).
      cbn [last from_option id foldl length].
      rewrite Hl, Hn. repeat split; lia.
Qed.
End train_classification_facts.

Section evaluate_classification_facts.
Context {V F : Type} `{FloatOps F} `{Raw V F}.
Variable model : list (tensor V) -> tensor F.
Variable softmax : tensor F -> tensor F.
Variable loss_func : option (tensor F -> tensor Z -> F).
Variable _concat : list (tensor V) -> result (tensor V).
Variable evaluate_metrics : tensor V -> tensor F -> result unit.
Variable data_config : config.
Variable for_training : bool.
Variable steps_per_epoch : option nat.

Import EvaluateClassification.
#[local] Abbreviation body := (body model softmax loss_func data_config for_training steps_per_epoch).

Lemma eval_body_step st b st' fl :
  body st b = Ok (st', fl) ->
  exists p c, shown st' = Some p /\
              count st' = count st + c /\
              total_loss st' = fadd (total_loss st) (fmul (Loss p) (of_nat c)) /\
              py_div (total_loss st') (count st') = Ok (AvgLoss p) /\
              num_batches st' = num_batches st + 1 /\
              targets st' = targets st /\
              fl = budget_check steps_per_epoch (num_batches st').
Proof.
  intros Hb. unfold EvaluateClassification.body in Hb. inv_bind Hb.
  injection Hb as <- <-. simpl. eexists _, _. repeat split; eauto.
Qed.

End evaluate_classification_facts.

(** ** The batch losses behind the averages *)

Section train_classification_losses.
Context {V F P : Type} `{FloatOps F} `{Raw V F}.
Variable model : P -> list (tensor V) -> tensor F.
Variable loss_func : tensor F -> tensor Z -> F.
Variable optimise : P -> list (tensor V) -> tensor Z -> P.
Variable data_config : config.
Variable steps_per_epoch : option nat.

Import TrainClassification.
#[local] Abbreviation body := (body model loss_func optimise data_config steps_per_epoch).
#[local] Abbreviation loss_under :=
  (fun sb : state * batch V => batch_loss model loss_func data_config (params sb.1) sb.2).

(** The loss an iteration shows is the loss of its batch under the weights
    the iteration starts with. *)
Lemma train_body_loss st b st' fl :
  body st b = Ok (st', fl) ->
  exists p, shown st' = Some p
            /\ batch_loss model loss_func data_config (params st) b = Ok (Loss p).
Proof.
  intros Hb. unfold TrainClassification.body in Hb. inv_bind Hb.
  repeat match goal with
  | E : tensor_to ["non_blocking"] _ = Ok _ |- _ =>
      rewrite tensor_to_non_blocking in E; injection E as <-
  end.
  injection Hb as <- <-. cbn [shown Loss]. eexists. split; [done|].
  unfold batch_loss.
  repeat match goal with
  | E : ?m = Ok _ |- context [?m] => rewrite E; cbn [mbind result_bind]
  end.
  done.
Qed.

Lemma train_log_losses l st log :
  for_each_log body st l = Ok log ->
  traverse loss_under (zip (st :: log) (take (length log) l)) = Ok (batch_losses log).
Proof.
  revert st log; induction l as [|b l IH]; intros st log Hlog; simpl in Hlog.
  - by injection Hlog as <-.
  - destruct (body st b) as [[st1 fl]|] eqn:E; simpl in Hlog; [|done].
    destruct (train_body_loss _ _ _ _ E) as (p & Hp & Hx).
    destruct fl.
    + destruct (for_each_log body st1 l) as [log'|] eqn:E'; simpl in Hlog; [|done].
      injection Hlog as <-. rewrite (train_losses_cons _ _ _ Hp).
      change (zip (st :: st1 :: log') (take (length (st1 :: log')) (b :: l)))
        with ((st, b) :: zip (st1 :: log') (take (length log') l)).
      cbn [traverse fst snd]. rewrite Hx.
      cbn [mbind result_bind]. by rewrite (IH _ _ E').
    + injection Hlog as <-. rewrite (train_losses_cons _ _ _ Hp).
      change (zip [st; st1] (take (length [st1]) (b :: l))) with [(st, b)].
      cbn [traverse fst snd]. by rewrite Hx.
Qed.
End train_classification_losses.

Section evaluate_classification_run.
Context {V F : Type} `{FloatOps F} `{Raw V F}.
Variable model : list (tensor V) -> tensor F.
Variable softmax : tensor F -> tensor F.
Variable loss_func : option (tensor F -> tensor Z -> F).
Variable data_config : config.
Variable for_training : bool.
Variable steps_per_epoch : option nat.

Import EvaluateClassification.
#[local] Abbreviation body :=
  (body model softmax loss_func data_config for_training steps_per_epoch).

(** One iteration, in terms of the loss and the number of examples of its
    batch. *)
Lemma eval_body_batch st b st' fl :
  body st b = Ok (st', fl) ->
  exists p c,
    batch_loss model loss_func data_config b = Ok (Loss p) /\
    batch_examples data_config b = Ok c /\
    shown st' = Some p /\
    count st' = count st + c /\
    total_loss st' = fadd (total_loss st) (fmul (Loss p) (of_nat c)) /\
    py_div (total_loss st') (count st') = Ok (AvgLoss p) /\
    num_batches st' = num_batches st + 1 /\
    fl = budget_check steps_per_epoch (num_batches st').
Proof.
  intros Hb. unfold EvaluateClassification.body in Hb. inv_bind Hb.
  repeat match goal with
  | E : tensor_to ["non_blocking"] _ = Ok _ |- _ =>
      rewrite tensor_to_non_blocking in E; injection E as <-
  end.
  injection Hb as <- <-. cbn [shown Loss AvgLoss count total_loss num_batches].
  eexists _, _. unfold batch_loss, batch_examples.
  repeat match goal with
  | E : ?m = Ok _ |- context [?m] => rewrite E; cbn [mbind result_bind]
  end.
  repeat match goal with |- _ /\ _ => split end.
  3: reflexivity.
  all: cbn [Loss AvgLoss]; done.
Qed.

(** The per-entry counts an iteration records: those it finds stay, and
    outside training the counts of the mask of its batch are added. *)
Lemma eval_body_counts st b st' fl :
  body st b = Ok (st', fl) ->
  (forall c, c ∈ labels_counts st -> c ∈ labels_counts st')
  /\ (for_training = false ->
      forall m, lookup_mask data_config (batch_y b) = Ok (Some m) ->
                exists c, mask_counts m = Ok c /\ c ∈ labels_counts st').
Proof.
  intros Hb. unfold EvaluateClassification.body in Hb. inv_bind Hb.
  injection Hb as <- <-. cbn [labels_counts].
  match goal with
  | E : lookup_mask _ _ = Ok ?om, E' : _ = Ok ?lc |- context [_ ∈ ?lc] =>
      destruct om as [m0|]; [destruct for_training; cbn [negb] in E'|]
  end.
  - match goal with E' : Ok _ = Ok _ |- _ => injection E' as <- end. split; [done|done].
  - match goal with E' : mbind _ _ = Ok _ |- _ => inv_bind E'; injection E' as <- end.
    split; [intros c Hc; apply elem_of_app; by left|].
    intros _ m [= <-]. eexists. split; [eassumption|].
    apply elem_of_app. right. apply list_elem_of_here.
  - match goal with E' : Ok _ = Ok _ |- _ => injection E' as <- end.
    split; [done|]. by intros _ m [=].
Qed.

Lemma evaluate_classification_run l st st' :
  for_each body st l = Ok st' ->
  exists ls cs,
    num_batches st <= num_batches st' /\
    num_batches st' - num_batches st <= length l /\
    traverse (batch_loss model loss_func data_config)
             (take (num_batches st' - num_batches st) l) = Ok ls /\
    traverse (batch_examples data_config)
             (take (num_batches st' - num_batches st) l) = Ok cs /\
    total_loss st'
    = foldl fadd (total_loss st) (zip_with (fun x c => fmul x (of_nat c)) ls cs) /\
    count st' = count st + sum_list cs /\
    (l <> [] ->
     num_batches st < num_batches st'
     /\ exists p, shown st' = Some p
                  /\ py_div (total_loss st') (count st') = Ok (AvgLoss p)) /\
    (forall c, c ∈ labels_counts st -> c ∈ labels_counts st') /\
    (for_training = false ->
     forall b m, b ∈ take (num_batches st' - num_batches st) l ->
                 lookup_mask data_config (batch_y b) = Ok (Some m) ->
                 exists c, mask_counts m = Ok c /\ c ∈ labels_counts st').
Proof.
  revert st; induction l as [|b l IH]; intros st Hrun; simpl in Hrun.
  - injection Hrun as <-. exists [], []. rewrite Nat.sub_diag. cbn.
    repeat match goal with |- _ /\ _ => split end; try done; try lia.
    intros _ b m Hb. by apply elem_of_nil in Hb.
  - destruct (body st b) as [[st1 fl]|] eqn:E; simpl in Hrun; [|done].
    destruct (eval_body_batch _ _ _ _ E)
      as (p & c & Hx & Hc & Hp & Hcount & Ht & Hd & Hn & _).
    destruct (eval_body_counts _ _ _ _ E) as (Hkeep & Hadd).
    destruct fl.
    + destruct (IH _ Hrun)
        as (ls & cs & Hle & Hlen & Hls & Hcs & Htot & Hcnt & Hlast & Hkeep' & Hadd').
      assert (num_batches st < num_batches st'
              /\ exists q, shown st' = Some q
                           /\ py_div (total_loss st') (count st') = Ok (AvgLoss q))
        as Hfinal.
      { destruct l as [|b' l'].
        - simpl in Hrun. injection Hrun as <-. split; [lia|eauto].
        - destruct Hlast as (Hlt & Hshown); [done|]. split; [lia|exact Hshown]. }
      exists (Loss p :: ls), (c :: cs).
      replace (num_batches st' - num_batches st)
        with (S (num_batches st' - num_batches st1)) by lia.
      cbn [take traverse length]. rewrite Hx, Hc, Hls, Hcs.
      cbn [mbind result_bind mret result_ret foldl zip_with].
      change (sum_list (c :: cs)) with (c + sum_list cs).
      repeat match goal with |- _ /\ _ => split end;
        try done; try lia; try (by rewrite Htot, Ht); try (by intros _); try (by auto).
      intros Hft b0 m [->|Hin]%elem_of_cons Hm.
      * destruct (Hadd Hft _ Hm) as (c0 & Hc0 & Hin0). eauto.
      * eauto.
    + injection Hrun as <-. exists [Loss p], [c].
      replace (num_batches st1 - num_batches st) with 1 by lia.
      cbn [take traverse length]. rewrite Hx, Hc.
      cbn [mbind result_bind mret result_ret foldl zip_with].
      change (sum_list [c]) with (c + 0).
      repeat match goal with |- _ /\ _ => split end;
        try done; try lia; try (intros _; split; [lia|by eauto]).
      intros Hft b0 m Hin Hm. rewrite take_0 in Hin.
      apply list_elem_of_singleton in Hin as ->. eauto.
Qed.
End evaluate_classification_run.

(** X28. The average loss [train_classification] reports at the end of the
    epoch is the plain mean of the losses of the batches it processed,
    sum(l_i) / n, where l_i is the loss of batch i under the weights the
    network has when the batch comes up. *)
Lemma train_classification_mean_loss {V F P : Type} `{FloatOps F} `{Raw V F}
    (model : P -> list (tensor V) -> tensor F) loss_func optimise
    data_config steps_per_epoch (θ : P) (train_loader : list (batch V)) rep :
  TrainClassification.train_classification
    model loss_func optimise data_config steps_per_epoch θ train_loader = Ok rep ->
  exists log ls,
    for_each_log
      (TrainClassification.body model loss_func optimise data_config steps_per_epoch)
      (TrainClassification.init θ) train_loader = Ok log /\
    log <> [] /\
    traverse (fun sb => TrainClassification.batch_loss
                          model loss_func data_config
                          (TrainClassification.params sb.1) sb.2)
             (zip (TrainClassification.init θ :: log) (take (length log) train_loader))
    = Ok ls /\
    length ls = length log /\
    mean_of_batch_losses ls = Ok (TrainClassification.rep_AvgLoss rep).
Proof.
  intros Hrun.
  unfold TrainClassification.train_classification in Hrun. inv_bind Hrun.
  injection Hrun as <-.
  match goal with
  | E : for_each _ _ _ = Ok _ |- _ =>
      destruct (for_each_log_last _ _ _ _ E) as (log & Hlog & ->)
  end.
  destruct (train_log_totals _ _ _ _ _ _ _ _ Hlog) as (Ht & Hn & Hlen).
  exists log, (TrainClassification.batch_losses log).
  split; [done|]. split.
  { intros ->. cbn in *. unfold py_div in *. by cbn in *. }
  split.
  { exact (train_log_losses model loss_func optimise data_config steps_per_epoch
                            _ _ _ Hlog). }
  split; [done|].
  unfold mean_of_batch_losses, fsum. cbn [TrainClassification.rep_AvgLoss].
  rewrite Hlen. cbn in Ht, Hn. by rewrite <- Ht, <- Hn.
Qed.

Lemma train_classification_mean_loss_witness :
  exists log ls,
    for_each_log Toy.train_body (TrainClassification.init tt) Toy.two_batches = Ok log /\
    traverse (fun sb => TrainClassification.batch_loss
                          (fun _ : unit => Toy.echo) Toy.first_truth Toy.cfg
                          (TrainClassification.params sb.1) sb.2)
             (zip (TrainClassification.init tt :: log)
                  (take (length log) Toy.two_batches))
    = Ok ls /\
    ls = [4; 2]%Z /\
    mean_of_batch_losses ls = Ok 3%Z.
Proof.
  edestruct (train_classification_mean_loss
               (fun _ : unit => Toy.echo) Toy.first_truth (fun θ _ _ => θ)
               Toy.cfg None tt Toy.two_batches)
    as (log & ls & Hlog & _ & Hls & _ & Hmean); [vm_compute; reflexivity|].
  exists log, ls. split; [exact Hlog|]. split; [exact Hls|].
  assert (Ok log = for_each_log Toy.train_body (TrainClassification.init tt)
                                Toy.two_batches) as Heq by (symmetry; exact Hlog).
  vm_compute in Heq. injection Heq as ->.
  assert (Ok ls = Ok [4; 2]%Z) as Hval by (rewrite <- Hls; vm_compute; reflexivity).
  injection Hval as ->. split; [reflexivity|exact Hmean].
Defined.

(** X27. When the batch loop of [evaluate_classification] has gone through
    a loader that is not empty, the average loss it shows after its last
    batch, which is also the loss [total_loss / count] handed to the
    dashboard helper at the end of the pass, is the mean of the losses of
    the batches it processed weighted by their numbers of examples,
    sum(l_i * c_i) / sum(c_i). *)
Lemma evaluate_classification_weighted_average {V F : Type} `{FloatOps F} `{Raw V F}
    (model : list (tensor V) -> tensor F) softmax loss_func
    data_config for_training steps_per_epoch (test_loader : list (batch V)) st :
  test_loader <> [] ->
  EvaluateClassification.loop
    model softmax loss_func data_config for_training steps_per_epoch test_loader
  = Ok st ->
  exists p ls cs acc,
    0 < EvaluateClassification.num_batches st <= length test_loader /\
    traverse (EvaluateClassification.batch_loss model loss_func data_config)
             (take (EvaluateClassification.num_batches st) test_loader) = Ok ls /\
    traverse (EvaluateClassification.batch_examples data_config)
             (take (EvaluateClassification.num_batches st) test_loader) = Ok cs /\
    EvaluateClassification.shown st = Some p /\
    example_weighted_mean ls cs = Ok (EvaluateClassification.AvgLoss p) /\
    EvaluateClassification.epoch_scalars st
    = Ok (EvaluateClassification.AvgLoss p, acc).
Proof.
  intros Hne Hrun. unfold EvaluateClassification.loop in Hrun.
  destruct (evaluate_classification_run _ _ _ _ _ _ _ _ _ Hrun)
    as (ls & cs & _ & Hlen & Hls & Hcs & Htot & Hcnt & Hlast & _).
  destruct (Hlast Hne) as (Hpos & p & Hp & Hdiv).
  cbn in Hlen, Hls, Hcs, Htot, Hcnt, Hpos. rewrite Nat.sub_0_r in *.
  exists p, ls, cs.
  assert (exists acc, EvaluateClassification.epoch_scalars st
                      = Ok (EvaluateClassification.AvgLoss p, acc)) as [acc Hacc].
  { unfold EvaluateClassification.epoch_scalars. rewrite Hdiv.
    cbn [mbind result_bind]. unfold py_div in *.
    destruct (EvaluateClassification.count st =? 0); [done|]. by eexists. }
  exists acc. split; [lia|]. split; [done|]. split; [done|]. split; [done|].
  split; [|done].
  unfold example_weighted_mean, fsum. by rewrite <- Htot, <- Hcnt.
Qed.

Lemma evaluate_classification_weighted_average_witness :
  exists st p ls cs,
    EvaluateClassification.loop Toy.echo Toy.softmax_id (Some Toy.first_truth) Toy.cfg
                                false None Toy.two_batches = Ok st /\
    traverse (EvaluateClassification.batch_loss Toy.echo (Some Toy.first_truth) Toy.cfg)
             (take (EvaluateClassification.num_batches st) Toy.two_batches) = Ok ls /\
    traverse (EvaluateClassification.batch_examples Toy.cfg)
             (take (EvaluateClassification.num_batches st) Toy.two_batches) = Ok cs /\
    ls = [4; 2]%Z /\ cs = [2; 3] /\
    EvaluateClassification.shown st = Some p /\
    EvaluateClassification.AvgLoss p = 2%Z /\
    example_weighted_mean ls cs = Ok (EvaluateClassification.AvgLoss p).
Proof.
  assert (exists st,
             EvaluateClassification.loop Toy.echo Toy.softmax_id (Some Toy.first_truth)
                                         Toy.cfg false None Toy.two_batches = Ok st)
    as [st Hst] by (vm_compute; eexists; reflexivity).
  destruct (evaluate_classification_weighted_average
              Toy.echo Toy.softmax_id (Some Toy.first_truth) Toy.cfg false None
              Toy.two_batches st ltac:(discriminate) Hst)
    as (p & ls & cs & acc & _ & Hls & Hcs & Hp & Hmean & _).
  exists st, p, ls, cs. split; [exact Hst|]. split; [exact Hls|]. split; [exact Hcs|].
  assert (Ok st = EvaluateClassification.loop Toy.echo Toy.softmax_id
                    (Some Toy.first_truth) Toy.cfg false None Toy.two_batches)
    as Heq by (symmetry; exact Hst).
  vm_compute in Heq. injection Heq as ->.
  assert (Ok ls = Ok [4; 2]%Z) as Hl by (rewrite <- Hls; vm_compute; reflexivity).
  assert (Ok cs = Ok [2; 3]) as Hc by (rewrite <- Hcs; vm_compute; reflexivity).
  injection Hl as ->. injection Hc as ->.
  cbn in Hp. injection Hp as <-.
  split; [reflexivity|]. split; [reflexivity|]. split; [reflexivity|].
  split; [reflexivity|exact Hmean].
Defined.

(** C2 (the code at the failing input). [evaluate_hybrid] on two batches of
    two and three examples whose losses are 1 and 5: the average loss it
    returns is neither the mean weighted by the examples,
    (1 * 2 + 5 * 3) / 5, nor the mean of the batch losses, but the sum of
    the batch losses over the number of examples, (1 + 5) / 5; with the
    integer quotient of the instance these are 3 and 1. *)
Theorem evaluate_hybrid_average_not_weighted :
  exists out ls cs weighted,
    Toy.evaluate_hybrid (Some Toy.hybrid_loss) true Toy.hybrid_batches = Ok out
    /\ traverse (EvaluateHybrid.batch_loss Toy.echo (Some Toy.hybrid_loss) Toy.cfg)
                Toy.hybrid_batches = Ok ls
    /\ traverse (EvaluateHybrid.batch_examples Toy.cfg) Toy.hybrid_batches = Ok cs
    /\ ls = [1; 5]%Z /\ cs = [2; 3]
    /\ example_weighted_mean ls cs = Ok weighted
    /\ weighted = ((1 * 2 + 5 * 3) / 5)%Z
    /\ summary_value out = ((1 + 5) / 5)%Z
    /\ summary_value out <> weighted
    /\ exists detailed,
         Toy.evaluate_hybrid (Some Toy.hybrid_loss) false Toy.hybrid_batches
         = Ok detailed
         /\ summary_value detailed = summary_value out.
Proof.
  do 4 eexists.
  repeat match goal with |- _ /\ _ => split end;
    try (vm_compute; reflexivity); try discriminate.
  eexists. split; vm_compute; reflexivity.
Qed.

(** ** Regrouping of the flat output *)

Lemma split_counts_length {A} w counts (l : list A) :
  length (split_counts w counts l) = length counts.
Proof. revert l; induction counts as [|c cs IH]; intros l; simpl; [done|by rewrite IH]. Qed.

Lemma split_counts_concat {A} w counts (l : list A) :
  length l = sum_list counts * w -> concat (split_counts w counts l) = l.
Proof.
  revert l; induction counts as [|c cs IH]; intros l Hlen; simpl in *.
  - by destruct l.
  - rewrite IH; [apply take_drop|]. rewrite length_drop. lia.
Qed.

(** ** The fixed-multiplicity branch of the regrouping *)

Lemma np_transpose_wrong_arity {A} (axes : list nat) (t : tensor A) :
  length axes <> ndim t -> np_transpose axes t = Raise ValueError.
Proof.
  intros Hne. unfold np_transpose.
  by rewrite (bool_decide_eq_false_2 _ Hne).
Qed.

(** Without recorded counts, a flat output whose length differs from the
    number of entries never comes back regrouped: the reshaped array has
    three axes and [transpose((1, 2))] names two. *)
Lemma regroup_fixed_multiplicity_raises {V F} (scores : tensor F)
    (labels : gmap string (tensor V)) (entry_count count n : nat) :
  len scores = Ok n -> n <> entry_count ->
  exists e, regroup scores labels entry_count count [] = Raise e.
Proof.
  intros Hn Hne. unfold regroup. rewrite Hn. cbn [mbind result_bind].
  apply Nat.eqb_neq in Hne. rewrite Hne. cbn [negb length Nat.eqb].
  destruct (entry_count =? 0); [by eexists|].
  destruct (count mod entry_count =? 0); [|by eexists].
  cbn [mbind result_bind]. unfold np_reshape_infer.
  destruct (_ || _); [by eexists|]. cbn [mbind result_bind].
  rewrite np_transpose_wrong_arity; [by eexists|]. unfold ndim. cbn. lia.
Qed.

(** C6 (the code at the failing input). One batch of two entries with three
    positions each, two classes and no mask: six flat scores for two
    entries, three per entry. The pass does not return the reshaped and
    transposed scores, it ends in numpy's [ValueError]. *)
Theorem evaluate_classification_fixed_multiplicity_raises :
  Toy.evaluate None [Toy.sequence_batch] = Raise ValueError
  /\ (exists st,
        EvaluateClassification.loop Toy.echo Toy.softmax_id (Some Toy.first_truth)
                                    Toy.cfg false None [Toy.sequence_batch] = Ok st
        /\ EvaluateClassification.count st = 6
        /\ EvaluateClassification.entry_count st = 2
        /\ EvaluateClassification.labels_counts st = []).
Proof.
  split; [vm_compute; reflexivity|].
  eexists. split; [vm_compute; reflexivity|]. repeat split.
Qed.

(** ** Regrouping by recorded counts *)

Lemma np_concatenate_rank0 {A} (l : list (tensor A)) c :
  c ∈ l -> ndim c = 0 -> np_concatenate l = Raise ValueError.
Proof.
  intros Hc Hrank. unfold np_concatenate.
  destruct l as [|t l]; [done|].
  destruct (shape t) as [|d rest] eqn:Hs; [done|].
  match goal with |- context [forallb ?f ?l] => destruct (forallb f l) eqn:E end; [|done].
  rewrite forallb_forall in E. apply list_elem_of_In in Hc. specialize (E _ Hc).
  apply bool_decide_eq_true in E as [_ Hne].
  unfold ndim in Hrank. by destruct (shape c).
Qed.

(** The counts of a mask with a single row are a 0-d array. *)
Lemma mask_counts_single_entry (m : tensor bool) (L : nat) :
  shape m = [1; L] -> exists c, mask_counts m = Ok c /\ ndim c = 0.
Proof.
  intros Hm. unfold mask_counts. rewrite Hm. cbn [last or_raise mbind result_bind].
  eexists. split; done.
Qed.

(** With a 0-d array among the recorded counts, a flat output that has not
    one row per entry is never regrouped. *)
Lemma regroup_rank0_counts {V F} (scores : tensor F) (labels : gmap string (tensor V))
    (entry_count count : nat) (labels_counts : list (tensor nat)) c :
  c ∈ labels_counts -> ndim c = 0 -> len scores <> Ok entry_count ->
  is_ok (regroup scores labels entry_count count labels_counts) = false.
Proof.
  intros Hc Hrank Hne. unfold regroup.
  destruct (len scores) as [n|e]; [|done]. cbn [mbind result_bind].
  assert (n <> entry_count) as Hn by congruence.
  apply Nat.eqb_neq in Hn. rewrite Hn. cbn [negb].
  destruct labels_counts as [|c0 lcs]; [by apply elem_of_nil in Hc|].
  cbn [length Nat.eqb negb].
  by erewrite np_concatenate_rank0.
Qed.

Lemma split_counts_sizes {A} w counts (l : list A) :
  length l = sum_list counts * w ->
  Forall2 (fun g c => length g = c * w) (split_counts w counts l) counts.
Proof.
  revert l; induction counts as [|c cs IH]; intros l Hlen; simpl in *; [constructor|].
  constructor.
  - rewrite length_take. lia.
  - apply IH. rewrite length_drop. lia.
Qed.

(** [ak.unflatten] followed by [ak.flatten] gives back the array, and the
    lists have the sizes the counts ask for. *)
Lemma ak_unflatten_flatten {A} (t : tensor A) (counts : tensor nat) (j : jagged A) :
  ak_unflatten t counts = Ok j ->
  jcounts j = data counts
  /\ length (jgroups j) = length (jcounts j)
  /\ (wf t ->
      ak_flatten j = t
      /\ Forall2 (fun g c => length g = c * numel (jrest j)) (jgroups j) (jcounts j)).
Proof.
  unfold ak_unflatten. destruct (shape t) as [|n rest] eqn:Hs; [done|].
  destruct (ndim counts =? 1); [|done]. cbn [andb].
  destruct (sum_list (data counts) =? n) eqn:Hsum; [|done].
  apply Nat.eqb_eq in Hsum. intros [= <-]. cbn [jcounts jgroups jrest].
  split; [done|]. split; [apply split_counts_length|].
  intros W. red in W. rewrite Hs in W.
  assert (length (data t) = sum_list (data counts) * numel rest) as Hlen.
  { rewrite W, Hsum. done. }
  split; [|by apply split_counts_sizes].
  unfold ak_flatten. cbn [jcounts jrest jgroups].
  rewrite split_counts_concat, Hsum by done.
  destruct t as [sh d]. cbn in *. by subst.
Qed.

(** What the regrouping hands back when it returns: the flat scores
    themselves when there is one per entry, and otherwise the scores
    unflattened by the concatenated counts; the reshaping branch never
    returns. *)
Lemma regroup_output {V F} (scores : tensor F) (labels : gmap string (tensor V))
    (entry_count count : nat) (labels_counts : list (tensor nat)) s ls :
  regroup scores labels entry_count count labels_counts = Ok (s, ls) ->
  match s with
  | NP s' => s' = scores /\ len scores = Ok entry_count
  | AK j => len scores <> Ok entry_count
            /\ exists cnts, np_concatenate labels_counts = Ok cnts
                            /\ ak_unflatten scores cnts = Ok j
  end.
Proof.
  intros Hr. destruct (len scores) as [n|e] eqn:Hn.
  2: { unfold regroup in Hr. by rewrite Hn in Hr. }
  destruct (decide (n = entry_count)) as [->|Hne].
  - unfold regroup in Hr. rewrite Hn in Hr. cbn [mbind result_bind] in Hr.
    rewrite Nat.eqb_refl in Hr. cbn in Hr. by injection Hr as <- <-.
  - destruct labels_counts as [|c0 lcs].
    + destruct (regroup_fixed_multiplicity_raises scores labels entry_count count n Hn Hne)
        as [e He]. congruence.
    + unfold regroup in Hr. rewrite Hn in Hr. cbn [mbind result_bind] in Hr.
      rewrite (proj2 (Nat.eqb_neq _ _) Hne) in Hr. cbn [negb length Nat.eqb] in Hr.
      inv_bind Hr. injection Hr as <- <-. split; [congruence|eauto].
Qed.

(** C5 (the code at the failing input). A pass of [evaluate_classification]
    outside training in which one of the processed batches has a mask with
    a single row (a batch of one entry) never returns when the number of
    flat scores is not the number of entries: the counts recorded for that
    batch are a 0-d array, which [np.concatenate] refuses, so nothing is
    regrouped. On two masked batches of two entries and of one entry (five
    flat scores for three entries) the pass ends in a [ValueError]. *)
Theorem evaluate_classification_single_entry_batch_raises :
  (forall (V F : Type) (HF : FloatOps F) (HR : Raw V F)
          (model : list (tensor V) -> tensor F) softmax loss_func _concat
          evaluate_metrics data_config tb_helper steps_per_epoch
          (test_loader : list (batch V)) st b m L,
      EvaluateClassification.loop
        model softmax loss_func data_config false steps_per_epoch test_loader = Ok st ->
      b ∈ take (EvaluateClassification.num_batches st) test_loader ->
      lookup_mask data_config (batch_y b) = Ok (Some m) ->
      shape m = [1; L] ->
      (forall flat, np_concatenate (EvaluateClassification.scores st) = Ok flat ->
                    len flat <> Ok (EvaluateClassification.entry_count st)) ->
      is_ok (EvaluateClassification.evaluate_classification
               model softmax loss_func _concat evaluate_metrics data_config false
               tb_helper steps_per_epoch test_loader) = false)
  /\ Toy.evaluate None [Toy.masked_batch; Toy.one_entry_masked] = Raise ValueError
  /\ (exists st,
        EvaluateClassification.loop Toy.echo Toy.softmax_id (Some Toy.first_truth)
                                    Toy.cfg false None
                                    [Toy.masked_batch; Toy.one_entry_masked] = Ok st
        /\ EvaluateClassification.entry_count st = 3
        /\ EvaluateClassification.count st = 5
        /\ EvaluateClassification.labels_counts st
           = [Build [2] [2; 1]; Build [] [2]]).
Proof.
  split.
  - intros V F HF HR model softmax loss_func _concat evaluate_metrics cfg tb steps
           loader st b m L Hrun Hb Hm Hs Hflat.
    pose proof Hrun as Hloop. unfold EvaluateClassification.loop in Hloop.
    destruct (evaluate_classification_run _ _ _ _ _ _ _ _ _ Hloop)
      as (_ & _ & _ & _ & _ & _ & _ & _ & _ & _ & Hcounts).
    cbn in Hcounts. rewrite Nat.sub_0_r in Hcounts.
    destruct (Hcounts eq_refl b m Hb Hm) as (c & Hc & Hin).
    destruct (mask_counts_single_entry m L Hs) as (c' & Hc' & Hrank).
    assert (c' = c) as -> by congruence.
    destruct (EvaluateClassification.evaluate_classification _ _ _ _ _ _ _ _ _ _)
      as [out|e] eqn:Hev; [exfalso|done].
    unfold EvaluateClassification.evaluate_classification in Hev.
    rewrite Hrun in Hev. cbn [mbind result_bind] in Hev. inv_bind Hev.
    match goal with
    | E : regroup ?flat ?labels _ _ _ = Ok _ |- _ =>
        assert (len flat <> Ok (EvaluateClassification.entry_count st)) as Hne
          by (apply Hflat; first [reflexivity|assumption]);
        pose proof (regroup_rank0_counts
                      flat labels (EvaluateClassification.entry_count st)
                      (EvaluateClassification.count st) _ c Hin Hrank Hne) as Hraise;
        rewrite E in Hraise
    end.
    discriminate Hraise.
  - split; [vm_compute; reflexivity|].
    eexists. split; [vm_compute; reflexivity|]. repeat split.
Qed.

Lemma evaluate_classification_single_entry_batch_raises_witness :
  exists st,
    EvaluateClassification.loop Toy.echo Toy.softmax_id (Some Toy.first_truth)
                                Toy.cfg false None
                                [Toy.masked_batch; Toy.one_entry_masked] = Ok st
    /\ Toy.one_entry_masked
       ∈ take (EvaluateClassification.num_batches st)
              [Toy.masked_batch; Toy.one_entry_masked]
    /\ lookup_mask Toy.cfg (batch_y Toy.one_entry_masked)
       = Ok (Some (Build [1; 3] [true; true; false]))
    /\ is_ok (Toy.evaluate None [Toy.masked_batch; Toy.one_entry_masked]) = false.
Proof.
  assert (exists st,
             EvaluateClassification.loop Toy.echo Toy.softmax_id (Some Toy.first_truth)
                                         Toy.cfg false None
                                         [Toy.masked_batch; Toy.one_entry_masked] = Ok st)
    as [st Hst] by (vm_compute; eexists; reflexivity).
  exists st. split; [exact Hst|].
  assert (Toy.one_entry_masked
          ∈ take (EvaluateClassification.num_batches st)
                 [Toy.masked_batch; Toy.one_entry_masked]) as Hin.
  { assert (Ok st = EvaluateClassification.loop
                      Toy.echo Toy.softmax_id (Some Toy.first_truth) Toy.cfg false None
                      [Toy.masked_batch; Toy.one_entry_masked])
      as Heq by (symmetry; exact Hst).
    vm_compute in Heq. injection Heq as ->.
    cbn [EvaluateClassification.num_batches take].
    apply list_elem_of_further, list_elem_of_here. }
  split; [exact Hin|]. split; [reflexivity|].
  apply (proj1 evaluate_classification_single_entry_batch_raises
           Z Z _ _ Toy.echo Toy.softmax_id (Some Toy.first_truth) np_concatenate
           (fun _ _ => Ok tt) Toy.cfg false None
           [Toy.masked_batch; Toy.one_entry_masked] st Toy.one_entry_masked
           (Build [1; 3] [true; true; false]) 3 Hst Hin eq_refl eq_refl).
  intros flat Hflat.
  assert (Ok st = EvaluateClassification.loop
                    Toy.echo Toy.softmax_id (Some Toy.first_truth) Toy.cfg false None
                    [Toy.masked_batch; Toy.one_entry_masked])
    as Heq by (symmetry; exact Hst).
  vm_compute in Heq. injection Heq as ->.
  vm_compute in Hflat. injection Hflat as <-. vm_compute. discriminate.
Defined.

(** X29. Whenever [evaluate_classification], called with
    [for_training=False], returns, the scores it returns are either the
    flat concatenated scores themselves, and then there is one per entry,
    or a jagged array, and then the flat scores were not one per entry, the
    jagged array has one list per recorded count, list [i] holds as many
    rows as the [i]-th count, and putting the lists end to end gives back
    the flat scores in their order. *)
Lemma evaluate_classification_regrouped_scores {V F : Type} `{FloatOps F} `{Raw V F}
    (model : list (tensor V) -> tensor F) softmax loss_func _concat evaluate_metrics
    data_config tb_helper steps_per_epoch (test_loader : list (batch V))
    acc scores labels targets observers :
  EvaluateClassification.evaluate_classification
    model softmax loss_func _concat evaluate_metrics data_config false tb_helper
    steps_per_epoch test_loader = Ok (Detailed acc scores labels targets observers) ->
  exists st flat,
    EvaluateClassification.loop
      model softmax loss_func data_config false steps_per_epoch test_loader = Ok st
    /\ np_concatenate (EvaluateClassification.scores st) = Ok flat
    /\ match scores with
       | NP s => s = flat /\ len flat = Ok (EvaluateClassification.entry_count st)
       | AK j =>
           len flat <> Ok (EvaluateClassification.entry_count st)
           /\ (exists cnts,
                 np_concatenate (EvaluateClassification.labels_counts st) = Ok cnts
                 /\ jcounts j = data cnts)
           /\ length (jgroups j) = length (jcounts j)
           /\ (wf flat ->
               ak_flatten j = flat
               /\ Forall2 (fun g c => length g = c * numel (jrest j))
                          (jgroups j) (jcounts j))
       end.
Proof.
  intros Hrun. unfold EvaluateClassification.evaluate_classification in Hrun.
  inv_bind Hrun. injection Hrun as _ <- <- _ _.
  match goal with
  | E : regroup ?flat _ (EvaluateClassification.entry_count ?st) _ _ = Ok ?r |- _ =>
      exists st, flat; split; [reflexivity|]; split; [assumption|];
      destruct r as [s ls]; apply regroup_output in E; cbn [fst]; destruct s as [s|j]
  end.
  - done.
  - match goal with
    | E : _ /\ _ |- _ => destruct E as (Hne & cnts & Hcat & Hun)
    end.
    destruct (ak_unflatten_flatten _ _ _ Hun) as (Hc & Hl & Hwf).
    split; [done|]. split; [by exists cnts|]. split; [done|done].
Qed.

Lemma evaluate_classification_regrouped_scores_witness :
  exists acc j labels targets observers,
    Toy.evaluate None [Toy.masked_batch] = Ok (Detailed acc (AK j) labels targets observers)
    /\ jcounts j = [2; 1]
    /\ jgroups j = [[5; 7; 1; 2]; [1; 1]]%Z
    /\ ak_flatten j = Build [3; 2] [5; 7; 1; 2; 1; 1]%Z.
Proof.
  assert (exists acc j labels targets observers,
             Toy.evaluate None [Toy.masked_batch]
             = Ok (Detailed acc (AK j) labels targets observers))
    as (acc & j & labels & targets & observers & Hrun).
  { vm_compute. do 5 eexists. reflexivity. }
  exists acc, j, labels, targets, observers. split; [exact Hrun|].
  destruct (evaluate_classification_regrouped_scores
              Toy.echo Toy.softmax_id (Some Toy.first_truth) np_concatenate
              (fun _ _ => Ok tt) Toy.cfg false None [Toy.masked_batch]
              acc (AK j) labels targets observers Hrun)
    as (st & flat & Hst & Hflat & _ & _ & _ & Hwf).
  assert (Ok st = EvaluateClassification.loop
                    Toy.echo Toy.softmax_id (Some Toy.first_truth) Toy.cfg false None
                    [Toy.masked_batch]) as Heq by (symmetry; exact Hst).
  vm_compute in Heq. injection Heq as ->.
  vm_compute in Hflat. injection Hflat as <-.
  destruct (Hwf eq_refl) as (Hround & _).
  assert (Ok (Detailed acc (AK j) labels targets observers)
          = Toy.evaluate None [Toy.masked_batch]) as Hval by (symmetry; exact Hrun).
  vm_compute in Hval. injection Hval as _ -> _ _ _.
  split; [reflexivity|]. split; [reflexivity|exact Hround].
Defined.

(** ** [evaluate_regression] does not return *)

Section evaluate_regression_facts.
Context {V F : Type} `{FloatOps F} `{Raw V F}.
Variable model : list (tensor V) -> tensor F.
Variable loss_func : option (tensor F -> tensor F -> F).
Variable _concat : list (tensor V) -> result (tensor V).
Variable data_config : config.
Variable for_training : bool.
Variable steps_per_epoch : option nat.

Import EvaluateRegression.

Lemma regression_body_raises st b :
  is_ok (body model loss_func data_config for_training steps_per_epoch st b) = false.
Proof.
  unfold body.
  destruct (get_inputs data_config b); [|done]. cbn [mbind result_bind].
  destruct (build_target data_config (batch_y b)); [|done]. cbn [mbind result_bind].
  destruct (shape0 _); [|done]. cbn [mbind result_bind]. done.
Qed.

Lemma evaluate_regression_raises test_loader :
  is_ok (evaluate_regression model loss_func _concat data_config for_training
                             steps_per_epoch test_loader) = false.
Proof.
  unfold evaluate_regression. destruct test_loader as [|b l]; [done|].
  cbn [for_each].
  pose proof (regression_body_raises init b) as Hb.
  destruct (body _ _ _ _ _ _ _); [done|done].
Qed.
End evaluate_regression_facts.

(** C7 (the code at the failing input). [evaluate_regression] hands nothing
    back, whatever the batch source, the model and the mode: with at least
    one batch it stops in the first one, on the keyword
    [devmnon_blocking] that [Tensor.to] does not know; on the batch below,
    called with [for_training=False], this is a [TypeError]. *)
Theorem evaluate_regression_never_returns :
  (forall (V F : Type) (HF : FloatOps F) (HR : Raw V F) model loss_func _concat
          data_config for_training steps_per_epoch (test_loader : list (batch V)),
      is_ok (EvaluateRegression.evaluate_regression
               model loss_func _concat data_config for_training steps_per_epoch
               test_loader) = false)
  /\ Toy.evaluate_regression [Toy.hybrid_batch] = Raise TypeError.
Proof.
  split; [|vm_compute; reflexivity].
  intros. apply evaluate_regression_raises.
Qed.

(** ** What [evaluate_classification] hands back *)

Section evaluate_classification_output.
Context {V F : Type} `{FloatOps F} `{Raw V F}.
Variable model : list (tensor V) -> tensor F.
Variable softmax : tensor F -> tensor F.
Variable loss_func : option (tensor F -> tensor Z -> F).
Variable _concat : list (tensor V) -> result (tensor V).
Variable evaluate_metrics : tensor V -> tensor F -> result unit.
Variable data_config : config.
Variable steps_per_epoch : option nat.

Import EvaluateClassification.

Lemma loop_targets_empty for_training test_loader st :
  loop model softmax loss_func data_config for_training steps_per_epoch test_loader
  = Ok st ->
  targets st = ∅.
Proof.
  intros Hrun. unfold loop in Hrun.
  apply (for_each_invariant _ (fun s => targets s = ∅) _ _ _) in Hrun; [done| |done].
  intros s b s' fl Hs Hb.
  destruct (eval_body_step _ _ _ _ _ _ _ _ _ _ Hb) as (_ & _ & _ & _ & _ & _ & _ & Ht & _).
  by rewrite Ht.
Qed.

(** X4. Whenever [evaluate_classification] returns, it hands back the
    scalar alone if it was called for training, and the scalar with scores,
    labels, targets and observers if it was not. *)
Lemma evaluate_classification_shape for_training tb_helper test_loader out :
  evaluate_classification model softmax loss_func _concat evaluate_metrics data_config
                          for_training tb_helper steps_per_epoch test_loader = Ok out ->
  match out with
  | Summary _ => for_training = true
  | Detailed _ _ _ _ _ => for_training = false
  end.
Proof.
  intros Hrun. unfold evaluate_classification in Hrun. inv_bind Hrun.
  destruct for_training; inv_bind Hrun; by injection Hrun as <-.
Qed.
End evaluate_classification_output.

(** C10. Whenever [evaluate_classification], called with
    [for_training=False], returns, the targets it returns are the empty
    mapping: no batch adds to it. *)
Theorem evaluate_classification_targets_empty {V F : Type} `{FloatOps F} `{Raw V F}
    (model : list (tensor V) -> tensor F) softmax loss_func _concat evaluate_metrics
    data_config tb_helper steps_per_epoch (test_loader : list (batch V))
    v scores labels targets observers :
  EvaluateClassification.evaluate_classification
    model softmax loss_func _concat evaluate_metrics data_config false tb_helper
    steps_per_epoch test_loader = Ok (Detailed v scores labels targets observers) ->
  targets = ∅.
Proof.
  intros Hrun. unfold EvaluateClassification.evaluate_classification in Hrun.
  inv_bind Hrun. injection Hrun as _ _ _ <- _.
  eapply loop_targets_empty. eassumption.
Qed.

Lemma evaluate_classification_targets_empty_witness :
  exists v scores labels targets observers,
    Toy.evaluate None Toy.two_batches = Ok (Detailed v scores labels targets observers)
    /\ targets = ∅.
Proof.
  assert (exists v scores labels targets observers,
             Toy.evaluate None Toy.two_batches
             = Ok (Detailed v scores labels targets observers))
    as (v & scores & labels & targets & observers & Hrun).
  { vm_compute. do 5 eexists. reflexivity. }
  exists v, scores, labels, targets, observers. split; [exact Hrun|].
  exact (evaluate_classification_targets_empty
           Toy.echo Toy.softmax_id (Some Toy.first_truth) np_concatenate
           (fun _ _ => Ok tt) Toy.cfg false None Toy.two_batches
           v scores labels targets observers Hrun).
Defined.

(** ** A batch without a validity mask *)

Lemma flatten_no_mask_examples {A} (t fl : tensor A) n :
  _flatten_label t None = Ok fl -> shape0 fl = Ok n ->
  n = numel (shape t) /\ data fl = data t.
Proof.
  unfold _flatten_label, ndim, shape0. destruct (1 <? length (shape t)) eqn:E.
  - intros [= <-]. cbn. by intros [= <-].
  - intros [= <-]. apply Nat.ltb_ge in E.
    destruct (shape t) as [|m [|]]; cbn in *; try done; [|lia].
    intros [= <-]. split; [lia|done].
Qed.

Lemma lookup_label_present {V F} `{Raw V F} cfg (y : gmap string (tensor V)) name v :
  label_names cfg !! 0 = Some name -> y !! name = Some v ->
  lookup_label cfg y = Ok (tmap to_long v).
Proof. intros Hn Hv. unfold lookup_label. by rewrite Hn; cbn; rewrite Hv. Qed.

Lemma lookup_mask_absent {V F} `{Raw V F} cfg (y : gmap string (tensor V)) name :
  label_names cfg !! 0 = Some name -> y !! (name +:+ "_mask") = None ->
  lookup_mask cfg y = Ok None.
Proof. intros Hn Hm. unfold lookup_mask. by rewrite Hn; cbn; rewrite Hm. Qed.

(** C9. When the truths of a batch have no entry [label_name + '_mask'],
    the lookup of the mask raises nothing and yields "no mask"; the label
    is flattened with every position kept; and in the training loop as in
    the evaluation loop the batch counts as many examples as the label
    tensor has positions (the evaluation loop records no per-entry
    counts). *)
Theorem missing_mask_is_no_mask {V F : Type} `{FloatOps F} `{Raw V F}
    (data_config : config) (b : batch V) (name : string) (v : tensor V) :
  label_names data_config !! 0 = Some name ->
  batch_y b !! name = Some v ->
  batch_y b !! (name +:+ "_mask") = None ->
  lookup_mask data_config (batch_y b) = Ok None
  /\ (exists fl, _flatten_label (tmap to_long v) None = Ok fl
                 /\ data fl = to_long <$> data v)
  /\ (forall (P : Type) (model : P -> list (tensor V) -> tensor F) loss_func optimise
             steps_per_epoch st st' fl,
        TrainClassification.body model loss_func optimise data_config steps_per_epoch
                                 st b = Ok (st', fl) ->
        TrainClassification.count st'
        = TrainClassification.count st + numel (shape v))
  /\ (forall (model : list (tensor V) -> tensor F) softmax loss_func for_training
             steps_per_epoch st st' fl,
        EvaluateClassification.body model softmax loss_func data_config for_training
                                    steps_per_epoch st b = Ok (st', fl) ->
        EvaluateClassification.count st'
        = EvaluateClassification.count st + numel (shape v)
        /\ EvaluateClassification.labels_counts st'
           = EvaluateClassification.labels_counts st).
Proof.
  intros Hn Hv Hm.
  pose proof (lookup_label_present _ _ _ _ Hn Hv) as Hlab.
  pose proof (lookup_mask_absent _ _ _ Hn Hm) as Hmask.
  split; [done|]. split; [|split].
  - unfold _flatten_label. destruct (1 <? _); by eexists.
  - intros P model loss_func optimise steps st st' fl Hb.
    unfold TrainClassification.body in Hb. rewrite Hlab, Hmask in Hb.
    inv_bind Hb. injection Hb as <- _. cbn.
    match goal with
    | E1 : _flatten_label _ None = Ok _, E2 : shape0 _ = Ok _ |- _ =>
        destruct (flatten_no_mask_examples _ _ _ E1 E2) as [-> _]
    end.
    done.
  - intros model softmax loss_func ft steps st st' fl Hb.
    unfold EvaluateClassification.body in Hb. rewrite Hlab, Hmask in Hb.
    inv_bind Hb. injection Hb as <- _. cbn.
    match goal with
    | E1 : _flatten_label (tmap to_long v) None = Ok ?t, E2 : shape0 ?t = Ok _ |- _ =>
        destruct (flatten_no_mask_examples _ _ _ E1 E2) as [-> _]
    end.
    done.
Qed.

Lemma missing_mask_is_no_mask_witness :
  lookup_mask (F := Z) Toy.cfg (batch_y Toy.sequence_batch) = Ok None
  /\ (exists st' fl, Toy.train_body (TrainClassification.init tt) Toy.sequence_batch
                     = Ok (st', fl)
                     /\ TrainClassification.count st' = 6)
  /\ (exists st' fl, Toy.eval_body EvaluateClassification.init Toy.sequence_batch
                     = Ok (st', fl)
                     /\ EvaluateClassification.count st' = 6).
Proof.
  destruct (missing_mask_is_no_mask (F := Z) Toy.cfg Toy.sequence_batch "label"
              (Build [2; 3] [0; 1; 1; 0; 1; 0]%Z))
    as (Hmask & _ & Htrain & Heval); [reflexivity | reflexivity | reflexivity |].
  split; [exact Hmask|]. split.
  - assert (exists st' fl, Toy.train_body (TrainClassification.init tt)
                                          Toy.sequence_batch = Ok (st', fl))
      as (st' & fl & Hb) by (vm_compute; do 2 eexists; reflexivity).
    exists st', fl. split; [exact Hb|]. exact (Htrain unit (fun _ => Toy.echo) Toy.first_truth (fun θ _ _ => θ) None _ _ _ Hb).
  - assert (exists st' fl, Toy.eval_body EvaluateClassification.init
                                         Toy.sequence_batch = Ok (st', fl))
      as (st' & fl & Hb) by (vm_compute; do 2 eexists; reflexivity).
    exists st', fl. split; [exact Hb|]. exact (proj1 (Heval Toy.echo Toy.softmax_id (Some Toy.first_truth) false None _ _ _ Hb)).
Defined.

(** ** The step budget *)

Section budget_facts.
Context {S B : Type} (body : S -> B -> result (S * flow)).
Variable counter : S -> nat.
Variable budget : nat.

(** A loop whose every iteration counts one batch and then checks the
    budget never counts more batches than the budget. *)
Lemma for_each_within_budget l st st' :
  (forall s b s' fl, body s b = Ok (s', fl) ->
     counter s' = counter s + 1 /\ fl = budget_check (Some budget) (counter s')) ->
  counter st < budget ->
  for_each body st l = Ok st' ->
  counter st' <= budget.
Proof.
  intros Hstep. revert st; induction l as [|b l IH]; intros st Hlt Hrun; simpl in Hrun.
  - injection Hrun as <-. lia.
  - destruct (body st b) as [[st1 fl]|] eqn:E; simpl in Hrun; [|done].
    destruct (Hstep _ _ _ _ E) as [Hc ->]. unfold budget_check in Hrun.
    destruct (budget <=? counter st1) eqn:Hb.
    + injection Hrun as <-. lia.
    + apply Nat.leb_gt in Hb. by eapply IH.
Qed.
End budget_facts.

(** X1. With a step budget of at least one, [train_classification] never
    counts more batches than the budget, however many the loader has. *)
Lemma train_classification_within_budget {V F P : Type} `{FloatOps F} `{Raw V F}
    (model : P -> list (tensor V) -> tensor F) loss_func optimise data_config
    (budget : nat) θ train_loader st :
  0 < budget ->
  for_each (TrainClassification.body model loss_func optimise data_config (Some budget))
           (TrainClassification.init θ) train_loader = Ok st ->
  TrainClassification.num_batches st <= budget.
Proof.
  intros Hpos. apply for_each_within_budget; [|done].
  intros s b s' fl Hb.
  destruct (train_body_step _ _ _ _ _ _ _ _ _ Hb) as (p & _ & _ & Hn & Hfl). done.
Qed.

(** X2. With a step budget of at least one, the batch loop of
    [evaluate_classification] never counts more batches than the budget. *)
Lemma evaluate_classification_within_budget {V F : Type} `{FloatOps F} `{Raw V F}
    (model : list (tensor V) -> tensor F) softmax loss_func data_config for_training
    (budget : nat) test_loader st :
  0 < budget ->
  EvaluateClassification.loop model softmax loss_func data_config for_training
                              (Some budget) test_loader = Ok st ->
  EvaluateClassification.num_batches st <= budget.
Proof.
  intros Hpos. apply for_each_within_budget; [|done].
  intros s b s' fl Hb.
  destruct (eval_body_step _ _ _ _ _ _ _ _ _ _ Hb)
    as (p & c & _ & _ & _ & _ & Hn & _ & Hfl). done.
Qed.

(** ** Hybrid batches with a rank-1 raw output *)

Ltac step_bind :=
  match goal with
  | |- is_ok (mbind _ (Raise _)) = false => reflexivity
  | |- is_ok (mbind _ ?m) = false =>
      destruct m eqn:?; [cbn [mbind result_bind]|reflexivity]
  end.

Lemma blocks_of_rank1 {A} cfg (out : tensor A) :
  ndim out = 1 -> class_block cfg out = Raise IndexError.
Proof.
  unfold class_block, slice_cols, ndim. by destruct (shape out) as [|n [|]].
Qed.

Section hybrid_rank1.
Context {V F : Type} `{FloatOps F} `{Raw V F}.
Variable data_config : config.

(** X3. In [train_hybrid] a batch whose raw output has rank 1 is counted
    (one more batch, its examples and its losses) and then skipped: no
    accuracy and no residual is added, and the loop goes on to the next
    batch without looking at the budget. *)
Lemma train_hybrid_rank1_skipped {P : Type}
    (model : P -> list (tensor V) -> tensor F) loss_func optimise steps_per_epoch
    st b inputs st' fl :
  get_inputs data_config b = Ok inputs ->
  ndim (model (TrainHybrid.params st) inputs) = 1 ->
  TrainHybrid.body model loss_func optimise data_config steps_per_epoch st b
  = Ok (st', fl) ->
  fl = Next
  /\ TrainHybrid.num_batches st' = TrainHybrid.num_batches st + 1
  /\ TrainHybrid.total_correct st' = TrainHybrid.total_correct st
  /\ TrainHybrid.sum_abs_err st' = TrainHybrid.sum_abs_err st
  /\ TrainHybrid.sum_sqr_err st' = TrainHybrid.sum_sqr_err st.
Proof.
  intros Hin Hrank Hb. unfold TrainHybrid.body in Hb. rewrite Hin in Hb.
  cbn [mbind result_bind] in Hb. inv_bind Hb.
  rewrite Hrank in Hb. cbn in Hb. by injection Hb as <- <-.
Qed.

(** In [evaluate_hybrid] the same batch is fatal: the raw output is
    indexed along two axes before its shape is looked at. *)
Lemma evaluate_hybrid_rank1_fatal
    (model : list (tensor V) -> tensor F) softmax loss_func for_training
    steps_per_epoch st b inputs :
  get_inputs data_config b = Ok inputs ->
  ndim (model inputs) = 1 ->
  is_ok (EvaluateHybrid.body model softmax loss_func data_config for_training
                             steps_per_epoch st b) = false.
Proof.
  intros Hin Hrank. unfold EvaluateHybrid.body. rewrite Hin.
  cbn [mbind result_bind].
  repeat first [ rewrite (blocks_of_rank1 _ _ Hrank); reflexivity
               | progress cbv zeta
               | step_bind ].
Qed.
End hybrid_rank1.

(** C4 (the code at the failing input). A hybrid batch of two examples whose
    raw output has rank 1: [train_hybrid] counts it and moves on, but the
    batch loop of [evaluate_hybrid] raises [IndexError] on it, alone or
    after a sound batch, so that nothing of the epoch is handed back. *)
Theorem evaluate_hybrid_rank1_batch_raises :
  Toy.evaluate_hybrid_loop [Toy.rank1_batch] = Raise IndexError
  /\ Toy.evaluate_hybrid_loop [Toy.hybrid_batch; Toy.rank1_batch] = Raise IndexError
  /\ is_ok (Toy.evaluate_hybrid_loop [Toy.hybrid_batch]) = true
  /\ is_ok (Toy.train_hybrid_loop None [Toy.rank1_batch]) = true.
Proof. repeat split; vm_compute; reflexivity. Qed.

(** C8 (the code at the failing input). [train_hybrid] with a budget of one
    step, fed a batch with a rank-1 raw output and then sound batches: the
    [continue] of the first batch jumps over the budget test, and the loop
    stops only after the second batch, with two batches in its
    statistics. With sound batches only it stops after one. *)
Theorem train_hybrid_budget_overrun :
  (exists st,
     Toy.train_hybrid_loop (Some 1) [Toy.rank1_batch; Toy.hybrid_batch; Toy.hybrid_batch]
     = Ok st
     /\ TrainHybrid.num_batches st = 2 /\ TrainHybrid.count st = 4)
  /\ (exists st,
        Toy.train_hybrid_loop (Some 1) [Toy.hybrid_batch; Toy.hybrid_batch; Toy.hybrid_batch]
        = Ok st
        /\ TrainHybrid.num_batches st = 1 /\ TrainHybrid.count st = 2).
Proof.
  split; (eexists; split; [vm_compute; reflexivity|]); split; reflexivity.
Qed.

(** * Further properties of the loops *)

Lemma train_classification_within_budget_witness :
  exists st,
    for_each (TrainClassification.body (P := unit) (fun _ => Toy.echo) Toy.first_truth
                                       (fun θ _ _ => θ) Toy.cfg (Some 1))
             (TrainClassification.init tt) Toy.two_batches = Ok st
    /\ TrainClassification.num_batches st <= 1.
Proof.
  assert (exists st,
             for_each (TrainClassification.body (P := unit) (fun _ => Toy.echo)
                         Toy.first_truth (fun θ _ _ => θ) Toy.cfg (Some 1))
                      (TrainClassification.init tt) Toy.two_batches = Ok st)
    as [st Hst] by (vm_compute; eexists; reflexivity).
  exists st. split; [exact Hst|].
  exact (train_classification_within_budget _ _ _ _ 1 _ _ _ (le_n 1) Hst).
Defined.

Lemma evaluate_classification_within_budget_witness :
  exists st,
    EvaluateClassification.loop Toy.echo Toy.softmax_id (Some Toy.first_truth) Toy.cfg
                                false (Some 1) Toy.two_batches = Ok st
    /\ EvaluateClassification.num_batches st <= 1.
Proof.
  assert (exists st,
             EvaluateClassification.loop Toy.echo Toy.softmax_id (Some Toy.first_truth)
                                         Toy.cfg false (Some 1) Toy.two_batches = Ok st)
    as [st Hst] by (vm_compute; eexists; reflexivity).
  exists st. split; [exact Hst|].
  exact (evaluate_classification_within_budget _ _ _ _ _ 1 _ _ (le_n 1) Hst).
Defined.

Lemma train_hybrid_rank1_skipped_witness :
  exists st' fl,
    TrainHybrid.body (P := unit) (fun _ => Toy.echo) Toy.hybrid_loss (fun θ _ _ => θ)
                     Toy.cfg (Some 1) (TrainHybrid.init tt) Toy.rank1_batch
    = Ok (st', fl)
    /\ fl = Next /\ TrainHybrid.num_batches st' = 1 /\ TrainHybrid.total_correct st' = 0.
Proof.
  assert (exists st' fl,
             TrainHybrid.body (P := unit) (fun _ => Toy.echo) Toy.hybrid_loss
                              (fun θ _ _ => θ) Toy.cfg (Some 1) (TrainHybrid.init tt)
                              Toy.rank1_batch = Ok (st', fl))
    as (st' & fl & Hb) by (vm_compute; do 2 eexists; reflexivity).
  exists st', fl. split; [exact Hb|].
  destruct (train_hybrid_rank1_skipped Toy.cfg (P := unit) (fun _ => Toy.echo)
              Toy.hybrid_loss (fun θ _ _ => θ) (Some 1) (TrainHybrid.init tt)
              Toy.rank1_batch [Build [2] [3; 4]%Z] st' fl eq_refl eq_refl Hb)
    as (H1 & H2 & H3 & _).
  split; [exact H1|]. split; [exact H2|exact H3].
Defined.

Lemma evaluate_classification_shape_witness :
  exists out,
    Toy.evaluate None Toy.two_batches = Ok out
    /\ match out with
       | Summary _ => false = true
       | Detailed _ _ _ _ _ => false = false
       end.
Proof.
  assert (exists out, Toy.evaluate None Toy.two_batches = Ok out) as [out E]
    by (vm_compute; eexists; reflexivity).
  exists out. split; [exact E|].
  exact (evaluate_classification_shape
           Toy.echo Toy.softmax_id (Some Toy.first_truth) np_concatenate
           (fun _ _ => Ok tt) Toy.cfg None false false Toy.two_batches out E).
Defined.

(** ** Edge cases of the classification loops *)

(** X5. With [steps_per_epoch = 0] the training loop still runs its first
    batch, and only that one: the budget is looked at after a batch, never
    before. *)
Lemma train_classification_zero_budget {V F P : Type} `{FloatOps F} `{Raw V F}
    (model : P -> list (tensor V) -> tensor F) loss_func optimise data_config
    st (b : batch V) (l : list (batch V)) :
  for_each (TrainClassification.body model loss_func optimise data_config (Some 0))
           st (b :: l)
  = for_each (TrainClassification.body model loss_func optimise data_config (Some 0))
             st [b].
Proof.
  cbn [for_each].
  destruct (TrainClassification.body _ _ _ _ _ st b) as [[st1 fl]|] eqn:E;
    cbn [mbind result_bind]; [|done].
  destruct (train_body_step _ _ _ _ _ _ _ _ _ E) as (p & _ & _ & _ & ->). done.
Qed.

(** X6. On an empty loader [train_classification] ends in a
    [ZeroDivisionError] (the summary divides by the number of batches), for
    every model, loss, optimiser, configuration and budget. *)
Lemma train_classification_empty_loader {V F P : Type} `{FloatOps F} `{Raw V F}
    (model : P -> list (tensor V) -> tensor F) loss_func optimise data_config
    steps_per_epoch θ :
  TrainClassification.train_classification model loss_func optimise data_config
                                           steps_per_epoch θ []
  = Raise ZeroDivisionError.
Proof. reflexivity. Qed.

(** X7. On an empty loader [evaluate_classification] never returns,
    whether called for training or not: with a dashboard helper it ends in
    a [ZeroDivisionError] (the epoch scalars divide by a count of zero),
    and without one in a [ValueError] (there is no score array to
    concatenate). *)
Lemma evaluate_classification_empty_loader {V F : Type} `{FloatOps F} `{Raw V F}
    (model : list (tensor V) -> tensor F) softmax loss_func _concat evaluate_metrics
    data_config for_training tb_helper steps_per_epoch :
  EvaluateClassification.evaluate_classification
    model softmax loss_func _concat evaluate_metrics data_config for_training
    tb_helper steps_per_epoch []
  = Raise (if tb_helper then ZeroDivisionError else ValueError).
Proof. by destruct tb_helper. Qed.

(** ** More on flattening *)

Lemma concat_mask_select_singletons_length {A} (l : list A) ms :
  length l = length ms -> length (mask_select l ms) = count_true ms.
Proof. intros Hl. by rewrite mask_select_kept_length, count_true_kept. Qed.

(** X8. For a label of rank two or more, [_flatten_label] with a mask only
    asks the mask for as many entries as the label has, whatever its shape:
    then the result is the rank-1 array of the entries whose mask bit is
    set, as many as there are set bits; with any other number of entries
    in the mask it is an [IndexError]. *)
Lemma flatten_label_mask_size {A} (label : tensor A) (mask : tensor bool) :
  1 < ndim label -> wf label -> wf mask ->
  (numel (shape mask) = numel (shape label) ->
   exists fl, _flatten_label label (Some mask) = Ok fl
              /\ shape fl = [count_true (data mask)]
              /\ data fl = mask_select (data label) (data mask)
              /\ length (data fl) = count_true (data mask))
  /\ (numel (shape mask) <> numel (shape label) ->
      _flatten_label label (Some mask) = Raise IndexError).
Proof.
  intros Hrank Wl Wm. unfold _flatten_label.
  apply Nat.ltb_lt in Hrank. rewrite Hrank.
  unfold bool_index, view_flat. cbn [shape data numel foldr].
  split.
  - intros Heq. rewrite Heq, Nat.eqb_refl. red in Wl. rewrite <- Wl.
    rewrite chunks_singletons, mask_select_singletons.
    eexists. split; [done|]. cbn [shape data]. repeat split.
    apply concat_mask_select_singletons_length. red in Wm. by rewrite Wl, Wm.
  - intros Hne. apply not_eq_sym in Hne. apply Nat.eqb_neq in Hne. by rewrite Hne.
Qed.

Lemma flatten_label_mask_size_witness :
  (exists fl,
     _flatten_label (Build [2; 3] [10; 11; 12; 13; 14; 15]%Z)
                    (Some (Build [6] [true; false; true; true; false; false])) = Ok fl
     /\ data fl = [10; 12; 13]%Z)
  /\ _flatten_label (Build [2; 3] [10; 11; 12; 13; 14; 15]%Z)
                    (Some (Build [2] [true; false])) = Raise IndexError.
Proof.
  split.
  - destruct (proj1 (flatten_label_mask_size
                       (Build [2; 3] [10; 11; 12; 13; 14; 15]%Z)
                       (Build [6] [true; false; true; true; false; false])
                       ltac:(cbn; lia) eq_refl eq_refl) eq_refl)
      as (fl & Hfl & _ & Hd & _).
    exists fl. split; [exact Hfl|exact Hd].
  - apply (proj2 (flatten_label_mask_size
                    (Build [2; 3] [10; 11; 12; 13; 14; 15]%Z)
                    (Build [2] [true; false])
                    ltac:(cbn; lia) eq_refl eq_refl)).
    cbn. lia.
Defined.

(** X9. Without a mask, [_flatten_preds] turns a prediction of shape
    (R, K, C) into R*C rows of K class scores: row [p] holds, in class
    order, the scores of position (p / C, p mod C), so that column [k] is
    always the score of class [k]. *)
Lemma flatten_preds_rows_are_class_scores {A} (preds : tensor A) (R K C : nat) :
  shape preds = [R; K; C] -> wf preds -> 0 < K ->
  exists fp,
    _flatten_preds preds None 1 = Ok fp
    /\ shape fp = [R * C; K]
    /\ forall p k, p < R * C -> k < K ->
         get2 fp p k = get3 preds (p / C) k (p mod C)
         /\ is_Some (get2 fp p k).
Proof.
  intros Hs W HK.
  destruct (transpose_rank3 preds R K C Hs W) as (d & Ht & Hlen & Hd).
  unfold _flatten_preds, ndim. rewrite Hs. cbn [length Nat.ltb Nat.leb Nat.sub].
  rewrite Ht. cbn [mbind result_bind shape_last shape last or_raise].
  unfold view_rows. cbn [shape data numel foldr].
  assert (R * (C * (K * 1)) = R * C * K) as -> by lia.
  rewrite Nat.Div0.mod_mul, Nat.div_mul by lia.
  destruct K as [|K']; [lia|]. cbn [Nat.eqb orb negb].
  eexists. split; [done|]. split; [done|].
  intros p k Hp Hk. assert (0 < C) as HC by nia.
  pose proof (Nat.mod_upper_bound p C ltac:(lia)) as Hc.
  unfold get2, get3. cbn [shape data]. rewrite Hs.
  apply Nat.ltb_lt in Hc. pose proof Hk as Hk'. apply Nat.ltb_lt in Hk'.
  rewrite Hk', Hc. cbn [andb]. rewrite Hd by done. split; [done|].
  rewrite <- Hd by done. apply lookup_lt_is_Some. nia.
Qed.

Lemma flatten_preds_rows_are_class_scores_witness :
  exists fp,
    _flatten_preds (Build [2; 3; 2] [1; 2; 3; 4; 5; 6; 7; 8; 9; 10; 11; 12]%Z) None 1
    = Ok fp
    /\ shape fp = [4; 3]
    /\ data fp = [1; 3; 5; 2; 4; 6; 7; 9; 11; 8; 10; 12]%Z.
Proof.
  destruct (flatten_preds_rows_are_class_scores
              (Build [2; 3; 2] [1; 2; 3; 4; 5; 6; 7; 8; 9; 10; 11; 12]%Z) 2 3 2
              eq_refl eq_refl ltac:(lia))
    as (fp & Hfp & Hsh & _).
  exists fp. split; [exact Hfp|]. split; [exact Hsh|].
  assert (Ok fp = _flatten_preds
                    (Build [2; 3; 2] [1; 2; 3; 4; 5; 6; 7; 8; 9; 10; 11; 12]%Z) None 1)
    as Heq by (symmetry; exact Hfp).
  vm_compute in Heq. by injection Heq as ->.
Defined.

(** ** Accumulators along a log *)

Section log_facts.
Context {S B F : Type} (body : S -> B -> result (S * flow)).

(** An accumulator to which every iteration adds the value it shows is,
    at the end, the left-to-right sum of the values shown. *)
Lemma for_each_log_fold (acc : S -> F) (obs : S -> option F) (add : F -> F -> F)
    l st log :
  (forall s b s' fl, body s b = Ok (s', fl) ->
     exists x, obs s' = Some x /\ acc s' = add (acc s) x) ->
  for_each_log body st l = Ok log ->
  acc (default st (last log)) = foldl add (acc st) (omap obs log)
  /\ length (omap obs log) = length log.
Proof.
  intros Hstep. revert st log; induction l as [|b l IH]; intros st log Hlog;
    simpl in Hlog.
  - injection Hlog as <-. done.
  - destruct (body st b) as [[st1 fl]|] eqn:E; simpl in Hlog; [|done].
    destruct (Hstep _ _ _ _ E) as (x & Hx & Hacc).
    destruct fl.
    + destruct (for_each_log body st1 l) as [log'|] eqn:E'; simpl in Hlog; [|done].
      injection Hlog as <-. destruct (IH _ _ E') as (IH1 & IH2).
      rewrite last_cons_default. cbn [omap list_omap from_option id].
      rewrite Hx. cbn [foldl length]. rewrite IH1, Hacc.
      split; [done|]. f_equal. exact IH2.
    + injection Hlog as <-. cbn [omap list_omap last from_option id].
      rewrite Hx. cbn [foldl length]. by rewrite Hacc.
Qed.

(** A counter that every iteration increases by one counts the
    iterations. *)
Lemma for_each_log_count (counter : S -> nat) l st log :
  (forall s b s' fl, body s b = Ok (s', fl) -> counter s' = counter s + 1) ->
  for_each_log body st l = Ok log ->
  counter (default st (last log)) = counter st + length log.
Proof.
  intros Hstep. revert st log; induction l as [|b l IH]; intros st log Hlog;
    simpl in Hlog.
  - injection Hlog as <-. simpl. lia.
  - destruct (body st b) as [[st1 fl]|] eqn:E; simpl in Hlog; [|done].
    pose proof (Hstep _ _ _ _ E) as Hc.
    destruct fl.
    + destruct (for_each_log body st1 l) as [log'|] eqn:E'; simpl in Hlog; [|done].
      injection Hlog as <-. rewrite last_cons_default. cbn [from_option id length].
      rewrite (IH _ _ E'). lia.
    + injection Hlog as <-. cbn. lia.
Qed.

(** A loop that never breaks runs its body on every element. *)
Lemma for_each_no_break (counter : S -> nat) l st st' :
  (forall s b s' fl, body s b = Ok (s', fl) ->
     fl = Next /\ counter s' = counter s + 1) ->
  for_each body st l = Ok st' ->
  counter st' = counter st + length l.
Proof.
  intros Hstep. revert st; induction l as [|b l IH]; intros st Hrun; simpl in Hrun.
  - injection Hrun as <-. simpl. lia.
  - destruct (body st b) as [[st1 fl]|] eqn:E; simpl in Hrun; [|done].
    destruct (Hstep _ _ _ _ E) as [-> Hc]. rewrite (IH _ Hrun). simpl. lia.
Qed.
End log_facts.


(** ** [train_regression] *)

Section train_regression_facts.
Context {V F P : Type} `{FloatOps F} `{Raw V F}.
Variable model : P -> list (tensor V) -> tensor F.
Variable loss_func : tensor F -> tensor F -> F.
Variable optimise : P -> list (tensor V) -> tensor F -> P.
Variable data_config : config.
Variable steps_per_epoch : option nat.

Import TrainRegression.
#[local] Abbreviation body := (body model loss_func optimise data_config steps_per_epoch).

Lemma train_regression_body_step st b st' fl :
  body st b = Ok (st', fl) ->
  exists p, shown st' = Some p /\
            total_loss st' = fadd (total_loss st) (Loss p) /\
            num_batches st' = num_batches st + 1 /\
            fl = budget_check steps_per_epoch (num_batches st').
Proof.
  intros Hb. unfold TrainRegression.body in Hb. inv_bind Hb.
  injection Hb as <- <-. simpl. eauto.
Qed.

Lemma train_regression_no_targets st b :
  target_names data_config = [] -> is_ok (body st b) = false.
Proof.
  intros Hnames. unfold TrainRegression.body, build_target. rewrite Hnames.
  by destruct (get_inputs data_config b).
Qed.
End train_regression_facts.

(** X10. With a step budget of at least one, the batch loop of
    [train_regression] never counts more batches than the budget. *)
Lemma train_regression_within_budget {V F P : Type} `{FloatOps F} `{Raw V F}
    (model : P -> list (tensor V) -> tensor F) loss_func optimise data_config
    (budget : nat) θ train_loader st :
  0 < budget ->
  TrainRegression.loop model loss_func optimise data_config (Some budget) θ train_loader
  = Ok st ->
  TrainRegression.num_batches st <= budget.
Proof.
  intros Hpos. apply for_each_within_budget; [|done].
  intros s b s' fl Hb.
  destruct (train_regression_body_step _ _ _ _ _ _ _ _ _ Hb) as (p & _ & _ & Hn & Hfl).
  done.
Qed.

(** X11. The average loss in the summary of [train_regression] is the plain
    mean of the losses shown batch by batch: their left-to-right sum
    divided by the number of batches processed, whatever the number of
    examples in each batch. *)
Lemma train_regression_mean_loss {V F P : Type} `{FloatOps F} `{Raw V F}
    (model : P -> list (tensor V) -> tensor F) loss_func optimise data_config
    steps_per_epoch θ (train_loader : list (batch V)) rep :
  TrainRegression.train_regression model loss_func optimise data_config steps_per_epoch
                                   θ train_loader = Ok rep ->
  exists log,
    for_each_log (TrainRegression.body model loss_func optimise data_config
                                       steps_per_epoch)
                 (TrainRegression.init θ) train_loader = Ok log
    /\ length (TrainRegression.batch_losses log) = length log
    /\ length log = TrainRegression.num_batches (TrainRegression.final rep)
    /\ mean_of_batch_losses (TrainRegression.batch_losses log)
       = Ok (TrainRegression.rep_AvgLoss rep).
Proof.
  intros Hrun. unfold TrainRegression.train_regression, TrainRegression.loop in Hrun.
  inv_bind Hrun. injection Hrun as <-.
  match goal with
  | E : for_each _ _ _ = Ok _ |- _ =>
      destruct (for_each_log_last _ _ _ _ E) as (log & Hlog & ->)
  end.
  assert (forall s b s' fl,
            TrainRegression.body model loss_func optimise data_config steps_per_epoch
                                 s b = Ok (s', fl) ->
            exists x, TrainRegression.Loss <$> TrainRegression.shown s' = Some x
                      /\ TrainRegression.total_loss s'
                         = fadd (TrainRegression.total_loss s) x) as Hfold.
  { intros s b s' fl Hb.
    destruct (train_regression_body_step _ _ _ _ _ _ _ _ _ Hb) as (p & Hp & Hl & _).
    exists (TrainRegression.Loss p). by rewrite Hp. }
  assert (forall s b s' fl,
            TrainRegression.body model loss_func optimise data_config steps_per_epoch
                                 s b = Ok (s', fl) ->
            TrainRegression.num_batches s' = TrainRegression.num_batches s + 1)
    as Hcount.
  { intros s b s' fl Hb.
    by destruct (train_regression_body_step _ _ _ _ _ _ _ _ _ Hb) as (p & _ & _ & Hn & _). }
  destruct (for_each_log_fold _ _ _ fadd _ _ _ Hfold Hlog) as [Ht Hlen].
  pose proof (for_each_log_count _ _ _ _ _ Hcount Hlog) as Hn.
  exists log. split; [done|]. split; [exact Hlen|].
  cbn [TrainRegression.final TrainRegression.rep_AvgLoss]. cbn in Hn.
  split; [lia|].
  unfold mean_of_batch_losses, fsum, TrainRegression.batch_losses.
  rewrite Hlen. cbn in Ht. rewrite <- Ht.
  replace (length log) with
    (TrainRegression.num_batches
       (default (TrainRegression.init θ) (last log))) by lia.
  done.
Qed.

(** X12. With a configuration that names no target, [train_regression]
    never returns: the first batch fails (the target is still [None] when
    its shape is read), and an empty loader fails in the summary. *)
Lemma train_regression_without_targets {V F P : Type} `{FloatOps F} `{Raw V F}
    (model : P -> list (tensor V) -> tensor F) loss_func optimise data_config
    steps_per_epoch θ (train_loader : list (batch V)) :
  target_names data_config = [] ->
  is_ok (TrainRegression.train_regression model loss_func optimise data_config
                                          steps_per_epoch θ train_loader) = false.
Proof.
  intros Hnames. unfold TrainRegression.train_regression, TrainRegression.loop.
  destruct train_loader as [|b l]; [done|]. cbn [for_each].
  pose proof (train_regression_no_targets model loss_func optimise data_config
                steps_per_epoch (TrainRegression.init θ) b Hnames) as Hb.
  by destruct (TrainRegression.body _ _ _ _ _ _ _).
Qed.

Lemma train_regression_within_budget_witness :
  exists st,
    TrainRegression.loop (P := unit) (fun _ => Toy.echo) Toy.first_truth
                         (fun θ _ _ => θ) Toy.cfg (Some 1) tt Toy.regression_batches
    = Ok st
    /\ TrainRegression.num_batches st <= 1.
Proof.
  assert (exists st,
             TrainRegression.loop (P := unit) (fun _ => Toy.echo) Toy.first_truth
                                  (fun θ _ _ => θ) Toy.cfg (Some 1) tt
                                  Toy.regression_batches = Ok st)
    as [st Hst] by (vm_compute; eexists; reflexivity).
  exists st. split; [exact Hst|].
  exact (train_regression_within_budget _ _ _ _ 1 _ _ _ (le_n 1) Hst).
Defined.

Lemma train_regression_mean_loss_witness :
  exists rep (log : list (@TrainRegression.state Z unit)),
    Toy.train_regression Toy.cfg None Toy.regression_batches = Ok rep
    /\ TrainRegression.batch_losses log = [10; 4]%Z
    /\ mean_of_batch_losses (TrainRegression.batch_losses log)
       = Ok (TrainRegression.rep_AvgLoss rep)
    /\ TrainRegression.rep_AvgLoss rep = 7%Z.
Proof.
  assert (exists rep, Toy.train_regression Toy.cfg None Toy.regression_batches = Ok rep)
    as [rep Hrep] by (vm_compute; eexists; reflexivity).
  destruct (train_regression_mean_loss _ _ _ _ _ _ _ _ Hrep)
    as (log & Hlog & _ & _ & Hmean).
  exists rep, log. split; [exact Hrep|].
  assert (Ok rep = Toy.train_regression Toy.cfg None Toy.regression_batches)
    as Heq by (symmetry; exact Hrep).
  vm_compute in Heq. injection Heq as ->.
  match type of Hlog with
  | ?run = Ok log => assert (Ok log = run) as Heq by (symmetry; exact Hlog)
  end.
  vm_compute in Heq. injection Heq as ->.
  split; [reflexivity|]. split; [exact Hmean|reflexivity].
Defined.

Lemma train_regression_without_targets_witness :
  is_ok (Toy.train_regression Toy.cfg_no_target None Toy.regression_batches) = false.
Proof.
  exact (train_regression_without_targets
           (P := unit) (fun _ => Toy.echo) Toy.first_truth (fun θ _ _ => θ)
           Toy.cfg_no_target None tt Toy.regression_batches eq_refl).
Defined.

(** ** [evaluate_hybrid] *)

Ltac step_raise :=
  match goal with
  | |- is_ok (mbind _ (Raise _)) = false => reflexivity
  | |- is_ok (Raise _) = false => reflexivity
  | |- is_ok (mbind _ ?m) = false =>
      let E := fresh "E" in
      destruct m eqn:E; [try discriminate E; cbn [mbind result_bind]|reflexivity]
  end.

Section evaluate_hybrid_facts.
Context {V F : Type} `{FloatOps F} `{Raw V F}.
Variable model : list (tensor V) -> tensor F.
Variable softmax : tensor F -> tensor F.
Variable loss_func : option (tensor F -> tensor F -> F * F * F).
Variable data_config : config.
Variable for_training : bool.
Variable steps_per_epoch : option nat.

Import EvaluateHybrid.
#[local] Abbreviation body :=
  (body model softmax loss_func data_config for_training steps_per_epoch).

Lemma evaluate_hybrid_body_step st b st' fl :
  body st b = Ok (st', fl) ->
  exists x c,
    batch_loss model loss_func data_config b = Ok x /\
    batch_examples data_config b = Ok c /\
    total_loss st' = fadd (total_loss st) x /\
    count st' = count st + c /\
    entry_count st' = entry_count st + c /\
    num_batches st' = num_batches st + 1 /\
    length (scores_cat st') = length (scores_cat st) + 1 /\
    length (scores_reg st') = length (scores_reg st) + 1 /\
    fl = budget_check steps_per_epoch (num_batches st').
Proof.
  intros Hb. unfold EvaluateHybrid.body in Hb. inv_bind Hb.
  repeat match goal with
  | E : tensor_to ["non_blocking"] _ = Ok _ |- _ =>
      rewrite tensor_to_non_blocking in E; injection E as <-
  end.
  unfold batch_loss, batch_examples.
  repeat match goal with
  | E : ?m = Ok _ |- context [?m] => rewrite E; cbn [mbind result_bind]
  end.
  match goal with
  | E : (if ?c then _ else _) = Ok ?r |- _ =>
      lazymatch type of r with
      | (_ * _ * _)%type =>
          assert (length r.1.2 = length (scores_cat st) + 1
                  /\ length r.2 = length (scores_reg st) + 1) as [Hsc Hsr]
            by (destruct c; inv_bind E; injection E as <-; cbn;
                rewrite !length_app; cbn; lia)
      end
  end.
  match goal with
  | Hb : (if ?c then _ else _) = Ok (st', fl) |- _ => destruct c
  end; inv_bind Hb; injection Hb as <- <-; cbn; eexists _, _; repeat split; eauto.
Qed.

Lemma evaluate_hybrid_without_loss_body st b :
  loss_func = None -> is_ok (body st b) = false.
Proof.
  intros ->. unfold EvaluateHybrid.body. repeat step_raise.
Qed.
End evaluate_hybrid_facts.

Section evaluate_hybrid_totals.
Context {V F : Type} `{FloatOps F} `{Raw V F}.
Variable model : list (tensor V) -> tensor F.
Variable softmax : tensor F -> tensor F.
Variable loss_func : option (tensor F -> tensor F -> F * F * F).
Variable data_config : config.
Variable for_training : bool.
Variable steps_per_epoch : option nat.

Import EvaluateHybrid.
#[local] Abbreviation body :=
  (body model softmax loss_func data_config for_training steps_per_epoch).

Lemma evaluate_hybrid_run l st st' :
  for_each body st l = Ok st' ->
  exists ls cs,
    num_batches st <= num_batches st' /\
    num_batches st' - num_batches st <= length l /\
    traverse (batch_loss model loss_func data_config)
             (take (num_batches st' - num_batches st) l) = Ok ls /\
    traverse (batch_examples data_config)
             (take (num_batches st' - num_batches st) l) = Ok cs /\
    total_loss st' = foldl fadd (total_loss st) ls /\
    count st' = count st + sum_list cs /\
    entry_count st' = entry_count st + sum_list cs /\
    length (scores_cat st') = length (scores_cat st) + (num_batches st' - num_batches st) /\
    length (scores_reg st') = length (scores_reg st) + (num_batches st' - num_batches st).
Proof.
  revert st; induction l as [|b l IH]; intros st Hrun; simpl in Hrun.
  - injection Hrun as <-. exists [], []. rewrite Nat.sub_diag. cbn.
    repeat match goal with |- _ /\ _ => split end; try done; lia.
  - destruct (body st b) as [[st1 fl]|] eqn:E; simpl in Hrun; [|done].
    destruct (evaluate_hybrid_body_step _ _ _ _ _ _ _ _ _ _ E)
      as (x & c & Hx & Hc & Ht & Hcount & Hentry & Hn & Hsc & Hsr & _).
    destruct fl.
    + destruct (IH _ Hrun)
        as (ls & cs & Hle & Hlen & Hls & Hcs & Htot & Hcnt & Hent & Hsc' & Hsr').
      exists (x :: ls), (c :: cs).
      replace (num_batches st' - num_batches st)
        with (S (num_batches st' - num_batches st1)) by lia.
      cbn [take traverse length]. rewrite Hx, Hc, Hls, Hcs.
      cbn [mbind result_bind mret result_ret foldl].
      change (sum_list (c :: cs)) with (c + sum_list cs).
      rewrite Htot, Ht.
      repeat match goal with |- _ /\ _ => split end; try done; lia.
    + injection Hrun as <-. exists [x], [c].
      replace (num_batches st1 - num_batches st) with 1 by lia.
      cbn [take traverse length]. rewrite Hx, Hc.
      cbn [mbind result_bind mret result_ret foldl].
      change (sum_list [c]) with (c + 0).
      rewrite Ht.
      repeat match goal with |- _ /\ _ => split end; try done; lia.
Qed.
End evaluate_hybrid_totals.

(** X13. With its default [loss_func=None], [evaluate_hybrid] never
    returns, whatever the loader: in the first batch the loss that is added
    to the total is still [None], and an empty loader leaves nothing to
    concatenate. *)
Lemma evaluate_hybrid_without_loss {V F : Type} `{FloatOps F} `{Raw V F}
    (model : list (tensor V) -> tensor F) softmax data_config for_training
    steps_per_epoch _concat evaluate_metrics (test_loader : list (batch V)) :
  is_ok (EvaluateHybrid.evaluate_hybrid model softmax None data_config for_training
                                        steps_per_epoch _concat evaluate_metrics
                                        test_loader) = false.
Proof.
  unfold EvaluateHybrid.evaluate_hybrid, EvaluateHybrid.loop.
  destruct test_loader as [|b l]; [done|]. cbn [for_each].
  pose proof (evaluate_hybrid_without_loss_body model softmax None data_config
                for_training steps_per_epoch EvaluateHybrid.init b eq_refl) as Hb.
  by destruct (EvaluateHybrid.body _ _ _ _ _ _ _ _).
Qed.

(** X14. With a step budget of at least one, the batch loop of
    [evaluate_hybrid] never counts more batches than the budget: every
    batch it gets through, with or without a placeholder, ends on the
    budget test. *)
Lemma evaluate_hybrid_within_budget {V F : Type} `{FloatOps F} `{Raw V F}
    (model : list (tensor V) -> tensor F) softmax loss_func data_config for_training
    (budget : nat) (test_loader : list (batch V)) st :
  0 < budget ->
  EvaluateHybrid.loop model softmax loss_func data_config for_training (Some budget)
                      test_loader = Ok st ->
  EvaluateHybrid.num_batches st <= budget.
Proof.
  intros Hpos. apply for_each_within_budget; [|done].
  intros s b s' fl Hb.
  destruct (evaluate_hybrid_body_step _ _ _ _ _ _ _ _ _ _ Hb)
    as (x & c & _ & _ & _ & _ & _ & Hn & _ & _ & Hfl).
  done.
Qed.

(** X15. The scalar [evaluate_hybrid] returns is the sum of the losses of
    the batches it processed divided by the number of examples of these
    batches: the batch losses are added as they are, not weighted by the
    batch size as in the classification and regression evaluations. *)
Lemma evaluate_hybrid_returned_loss {V F : Type} `{FloatOps F} `{Raw V F}
    (model : list (tensor V) -> tensor F) softmax loss_func data_config for_training
    steps_per_epoch _concat evaluate_metrics (test_loader : list (batch V)) out :
  EvaluateHybrid.evaluate_hybrid model softmax loss_func data_config for_training
                                 steps_per_epoch _concat evaluate_metrics test_loader
  = Ok out ->
  exists n ls cs,
    n <= length test_loader /\
    traverse (EvaluateHybrid.batch_loss model loss_func data_config)
             (take n test_loader) = Ok ls /\
    traverse (EvaluateHybrid.batch_examples data_config) (take n test_loader) = Ok cs /\
    py_div (fsum ls) (sum_list cs) = Ok (summary_value out).
Proof.
  intros Hrun. unfold EvaluateHybrid.evaluate_hybrid, EvaluateHybrid.loop in Hrun.
  inv_bind Hrun.
  match goal with
  | E : for_each _ _ _ = Ok ?st |- _ =>
      destruct (evaluate_hybrid_run _ _ _ _ _ _ _ _ _ E)
        as (ls & cs & _ & Hlen & Hls & Hcs & Htot & Hcnt & _);
      exists (EvaluateHybrid.num_batches st), ls, cs
  end.
  cbn in Hlen, Hls, Hcs, Htot, Hcnt. rewrite Nat.sub_0_r in *.
  split; [done|]. split; [done|]. split; [done|].
  unfold fsum. rewrite <- Htot, <- Hcnt.
  destruct for_training.
  - inv_bind Hrun. by injection Hrun as <-.
  - inv_bind Hrun. destruct (_ && _); inv_bind Hrun; by injection Hrun as <-.
Qed.

(** X16. When the batch loop of [evaluate_hybrid] ends, it holds one block
    of class scores and one block of regression scores for every batch it
    counted, and its count of entries is its count of examples. *)
Lemma evaluate_hybrid_one_block_per_batch {V F : Type} `{FloatOps F} `{Raw V F}
    (model : list (tensor V) -> tensor F) softmax loss_func data_config for_training
    steps_per_epoch (test_loader : list (batch V)) st :
  EvaluateHybrid.loop model softmax loss_func data_config for_training steps_per_epoch
                      test_loader = Ok st ->
  length (EvaluateHybrid.scores_cat st) = EvaluateHybrid.num_batches st
  /\ length (EvaluateHybrid.scores_reg st) = EvaluateHybrid.num_batches st
  /\ EvaluateHybrid.entry_count st = EvaluateHybrid.count st.
Proof.
  intros Hrun. unfold EvaluateHybrid.loop in Hrun.
  destruct (evaluate_hybrid_run _ _ _ _ _ _ _ _ _ Hrun)
    as (ls & cs & _ & _ & _ & _ & _ & Hcnt & Hent & Hsc & Hsr).
  cbn in Hcnt, Hent, Hsc, Hsr. lia.
Qed.

Lemma evaluate_hybrid_within_budget_witness :
  exists st,
    EvaluateHybrid.loop Toy.echo Toy.softmax_id (Some Toy.hybrid_loss) Toy.cfg false
                        (Some 1) Toy.hybrid_batches = Ok st
    /\ EvaluateHybrid.num_batches st <= 1.
Proof.
  assert (exists st,
             EvaluateHybrid.loop Toy.echo Toy.softmax_id (Some Toy.hybrid_loss) Toy.cfg
                                 false (Some 1) Toy.hybrid_batches = Ok st)
    as [st Hst] by (vm_compute; eexists; reflexivity).
  exists st. split; [exact Hst|].
  exact (evaluate_hybrid_within_budget _ _ _ _ _ 1 _ _ (le_n 1) Hst).
Defined.

Lemma evaluate_hybrid_returned_loss_witness :
  exists out,
    Toy.evaluate_hybrid (Some Toy.hybrid_loss) true Toy.hybrid_batches = Ok out
    /\ summary_value out = 1%Z
    /\ exists n ls cs,
         traverse (EvaluateHybrid.batch_loss Toy.echo (Some Toy.hybrid_loss) Toy.cfg)
                  (take n Toy.hybrid_batches) = Ok ls
         /\ traverse (EvaluateHybrid.batch_examples Toy.cfg) (take n Toy.hybrid_batches)
            = Ok cs
         /\ py_div (fsum ls) (sum_list cs) = Ok (summary_value out).
Proof.
  assert (exists out,
             Toy.evaluate_hybrid (Some Toy.hybrid_loss) true Toy.hybrid_batches = Ok out)
    as [out Hout] by (vm_compute; eexists; reflexivity).
  exists out. split; [exact Hout|].
  destruct (evaluate_hybrid_returned_loss
              Toy.echo Toy.softmax_id (Some Toy.hybrid_loss) Toy.cfg true None
              np_concatenate (fun _ _ => Ok tt) Toy.hybrid_batches out Hout)
    as (n & ls & cs & _ & Hls & Hcs & Hdiv).
  split.
  - assert (Ok out = Toy.evaluate_hybrid (Some Toy.hybrid_loss) true Toy.hybrid_batches)
      as Heq by (symmetry; exact Hout).
    vm_compute in Heq. by injection Heq as ->.
  - exists n, ls, cs. split; [exact Hls|]. split; [exact Hcs|exact Hdiv].
Defined.

Lemma evaluate_hybrid_one_block_per_batch_witness :
  exists st,
    EvaluateHybrid.loop Toy.echo Toy.softmax_id (Some Toy.hybrid_loss) Toy.cfg false
                        None Toy.hybrid_batches = Ok st
    /\ length (EvaluateHybrid.scores_cat st) = EvaluateHybrid.num_batches st
    /\ EvaluateHybrid.num_batches st = 2.
Proof.
  assert (exists st,
             EvaluateHybrid.loop Toy.echo Toy.softmax_id (Some Toy.hybrid_loss) Toy.cfg
                                 false None Toy.hybrid_batches = Ok st)
    as [st Hst] by (vm_compute; eexists; reflexivity).
  exists st. split; [exact Hst|].
  split; [exact (proj1 (evaluate_hybrid_one_block_per_batch _ _ _ _ _ _ _ _ Hst))|].
  assert (Ok st = EvaluateHybrid.loop Toy.echo Toy.softmax_id (Some Toy.hybrid_loss)
                                      Toy.cfg false None Toy.hybrid_batches)
    as Heq by (symmetry; exact Hst).
  vm_compute in Heq. by injection Heq as ->.
Defined.

(** ** [train_hybrid]: one-row outputs and the budget *)

Lemma argmax1_squeezed_row {A} (ltb : A -> A -> bool) (t : tensor A) k :
  shape t = [1; k] -> argmax1 ltb (squeeze t) = Raise IndexError.
Proof.
  intros Hs. unfold argmax1, squeeze. cbn [shape]. rewrite Hs.
  rewrite filter_cons_False by (intros Hne; by apply Hne).
  destruct (decide (k = 1)) as [->|Hk].
  - by rewrite filter_cons_False by (intros Hne; by apply Hne).
  - by rewrite filter_cons_True.
Qed.

Section train_hybrid_facts.
Context {V F P : Type} `{FloatOps F} `{Raw V F}.
Variable model : P -> list (tensor V) -> tensor F.
Variable loss_func : tensor F -> tensor F -> F * F * F.
Variable optimise : P -> list (tensor V) -> tensor F -> P.
Variable data_config : config.
Variable steps_per_epoch : option nat.

Import TrainHybrid.
#[local] Abbreviation body := (body model loss_func optimise data_config steps_per_epoch).

(** X17. [train_hybrid] cannot get through a batch whose raw output has a
    single row (a batch of one example): squeezing the block of class
    scores removes the batch axis, and the maximum along axis 1 of what is
    left raises. *)
Lemma train_hybrid_single_row_raises st b inputs w :
  get_inputs data_config b = Ok inputs ->
  shape (model (params st) inputs) = [1; w] ->
  is_ok (body st b) = false.
Proof.
  intros Hin Hs. unfold TrainHybrid.body. rewrite Hin. cbn [mbind result_bind].
  repeat step_raise. unfold ndim. rewrite Hs. cbn [length Nat.eqb].
  unfold class_block, slice_cols. rewrite Hs. cbn [mbind result_bind].
  erewrite argmax1_squeezed_row; reflexivity.
Qed.

Lemma train_hybrid_body_step st b st' fl :
  body st b = Ok (st', fl) ->
  num_batches st' = num_batches st + 1
  /\ (fl = budget_check steps_per_epoch (num_batches st')
      \/ exists inputs, get_inputs data_config b = Ok inputs
                        /\ ndim (model (params st) inputs) = 1).
Proof.
  intros Hb. unfold TrainHybrid.body in Hb. inv_bind Hb.
  match goal with
  | Hb : (if ?c then _ else _) = Ok _ |- _ => destruct c eqn:Hc
  end.
  - injection Hb as <- <-. cbn. split; [done|]. right.
    apply Nat.eqb_eq in Hc. eauto.
  - inv_bind Hb. injection Hb as <- <-. cbn. auto.
Qed.
End train_hybrid_facts.

(** X18. With a model whose raw output never has rank 1, and a step budget
    of at least one, the batch loop of [train_hybrid] never counts more
    batches than the budget. *)
Lemma train_hybrid_within_budget {V F P : Type} `{FloatOps F} `{Raw V F}
    (model : P -> list (tensor V) -> tensor F) loss_func optimise data_config
    (budget : nat) θ (train_loader : list (batch V)) st :
  (forall θ' inputs, ndim (model θ' inputs) <> 1) ->
  0 < budget ->
  TrainHybrid.loop model loss_func optimise data_config (Some budget) θ train_loader
  = Ok st ->
  TrainHybrid.num_batches st <= budget.
Proof.
  intros Hrank Hpos. apply for_each_within_budget; [|done].
  intros s b s' fl Hb.
  destruct (train_hybrid_body_step _ _ _ _ _ _ _ _ _ Hb) as [Hn [Hfl|Hdeg]]; [done|].
  destruct Hdeg as (inputs & _ & Hone). by apply Hrank in Hone.
Qed.

Lemma train_hybrid_single_row_raises_witness :
  is_ok (TrainHybrid.body (P := unit) (fun _ => Toy.echo) Toy.hybrid_loss
                          (fun θ _ _ => θ) Toy.cfg None (TrainHybrid.init tt)
                          Toy.single_batch) = false.
Proof.
  exact (train_hybrid_single_row_raises
           (P := unit) (fun _ => Toy.echo) Toy.hybrid_loss (fun θ _ _ => θ) Toy.cfg None
           (TrainHybrid.init tt) Toy.single_batch [Build [1; 3] [9; 1; 10]%Z] 3
           eq_refl eq_refl).
Defined.

Lemma train_hybrid_within_budget_witness :
  exists st,
    TrainHybrid.loop Toy.constant_model Toy.hybrid_loss (fun θ _ _ => θ) Toy.cfg (Some 1)
                     tt [Toy.hybrid_batch; Toy.hybrid_batch] = Ok st
    /\ TrainHybrid.num_batches st <= 1.
Proof.
  assert (exists st,
             TrainHybrid.loop Toy.constant_model Toy.hybrid_loss (fun θ _ _ => θ) Toy.cfg
                              (Some 1) tt [Toy.hybrid_batch; Toy.hybrid_batch] = Ok st)
    as [st Hst] by (vm_compute; eexists; reflexivity).
  exists st. split; [exact Hst|].
  refine (train_hybrid_within_budget Toy.constant_model _ _ _ 1 _ _ _ _ (le_n 1) Hst).
  intros θ' inputs. cbn. lia.
Defined.

(** ** [evaluate_onnx_classification] *)

Section evaluate_onnx_classification_facts.
Context {V F : Type} `{FloatOps F} `{Countable V}.
Variable sess_run : gmap string (tensor V) -> list (tensor F).
Variable index_eqb : Z -> V -> bool.
Variable _concat : list (tensor V) -> result (tensor V).
Variable evaluate_metrics : tensor V -> tensor F -> result unit.
Variable data_config : config.

Import EvaluateOnnxClassification.

Lemma onnx_classification_body_step st b st' fl :
  body sess_run index_eqb data_config st b = Ok (st', fl) ->
  fl = Next
  /\ length (scores st') = length (scores st) + 1
  /\ targets st' = targets st.
Proof.
  intros Hb. unfold body in Hb. inv_bind Hb. injection Hb as <- <-. cbn.
  rewrite length_app. cbn. repeat split; done.
Qed.
End evaluate_onnx_classification_facts.

Lemma onnx_classification_loop_facts {V F : Type} `{FloatOps F} `{Countable V}
    (sess_run : gmap string (tensor V) -> list (tensor F)) index_eqb data_config
    (test_loader : list (batch V)) st :
  for_each (EvaluateOnnxClassification.body sess_run index_eqb data_config)
           EvaluateOnnxClassification.init test_loader = Ok st ->
  length (EvaluateOnnxClassification.scores st) = length test_loader
  /\ EvaluateOnnxClassification.targets st = ∅.
Proof.
  intros Hrun. split.
  - apply (for_each_no_break _ (fun s => length (EvaluateOnnxClassification.scores s)))
      in Hrun; [exact Hrun|].
    intros s b s' fl Hb.
    by destruct (onnx_classification_body_step _ _ _ _ _ _ _ Hb) as (-> & Hs & _).
  - apply (for_each_invariant _ (fun s => EvaluateOnnxClassification.targets s = ∅))
      in Hrun; [done| |done].
    intros s b s' fl Hs Hb.
    destruct (onnx_classification_body_step _ _ _ _ _ _ _ Hb) as (_ & _ & Ht).
    by rewrite Ht.
Qed.

(** X19. [evaluate_onnx_classification] has no step budget: when its batch
    loop ends normally it has taken a score array from every batch of the
    loader, and it has left the targets empty. *)
Lemma onnx_classification_every_batch {V F : Type} `{FloatOps F} `{Countable V}
    (sess_run : gmap string (tensor V) -> list (tensor F)) index_eqb data_config
    (test_loader : list (batch V)) st :
  EvaluateOnnxClassification.loop sess_run index_eqb data_config test_loader = Ok st ->
  length (EvaluateOnnxClassification.scores st) = length test_loader
  /\ EvaluateOnnxClassification.targets st = ∅.
Proof. apply onnx_classification_loop_facts. Qed.

(** X20. Whenever [evaluate_onnx_classification] returns, the loader had at
    least one batch, and the result has its five components with an empty
    targets mapping and, as scalar, the quotient of the number of matching
    predictions by the number of examples. *)
Lemma onnx_classification_output {V F : Type} `{FloatOps F} `{Countable V}
    (sess_run : gmap string (tensor V) -> list (tensor F)) index_eqb _concat
    evaluate_metrics data_config (test_loader : list (batch V)) out :
  EvaluateOnnxClassification.evaluate_onnx_classification
    sess_run index_eqb _concat evaluate_metrics data_config test_loader = Ok out ->
  test_loader <> []
  /\ exists st scores labels observers,
       EvaluateOnnxClassification.loop sess_run index_eqb data_config test_loader
       = Ok st
       /\ out = Detailed (fdiv (of_nat (EvaluateOnnxClassification.total_correct st))
                               (of_nat (EvaluateOnnxClassification.count st)))
                         scores labels ∅ observers.
Proof.
  intros Hrun. unfold EvaluateOnnxClassification.evaluate_onnx_classification in Hrun.
  split.
  - intros ->. discriminate Hrun.
  - inv_bind Hrun. injection Hrun as <-.
    match goal with
    | E : EvaluateOnnxClassification.loop _ _ _ _ = Ok ?st |- _ =>
        destruct (onnx_classification_loop_facts _ _ _ _ _ E) as [_ ->];
        exists st
    end.
    eauto.
Qed.

Lemma onnx_classification_every_batch_witness :
  exists st,
    EvaluateOnnxClassification.loop Toy.session Z.eqb Toy.cfg Toy.two_batches = Ok st
    /\ length (EvaluateOnnxClassification.scores st) = 2
    /\ EvaluateOnnxClassification.count st = 5.
Proof.
  assert (exists st,
             EvaluateOnnxClassification.loop Toy.session Z.eqb Toy.cfg Toy.two_batches
             = Ok st)
    as [st Hst] by (vm_compute; eexists; reflexivity).
  exists st. split; [exact Hst|].
  split; [exact (proj1 (onnx_classification_every_batch _ _ _ _ _ Hst))|].
  assert (Ok st = EvaluateOnnxClassification.loop Toy.session Z.eqb Toy.cfg
                                                  Toy.two_batches)
    as Heq by (symmetry; exact Hst).
  vm_compute in Heq. by injection Heq as ->.
Defined.

Lemma onnx_classification_output_witness :
  exists out,
    EvaluateOnnxClassification.evaluate_onnx_classification
      Toy.session Z.eqb np_concatenate (fun _ _ => Ok tt) Toy.cfg Toy.two_batches
    = Ok out
    /\ exists (st : @EvaluateOnnxClassification.state Z Z _ _) scores labels observers,
         out = Detailed (fdiv (of_nat (EvaluateOnnxClassification.total_correct st))
                              (of_nat (EvaluateOnnxClassification.count st)))
                        scores labels ∅ observers.
Proof.
  assert (exists out,
             EvaluateOnnxClassification.evaluate_onnx_classification
               Toy.session Z.eqb np_concatenate (fun _ _ => Ok tt) Toy.cfg
               Toy.two_batches = Ok out)
    as [out Hout] by (vm_compute; eexists; reflexivity).
  exists out. split; [exact Hout|].
  destruct (onnx_classification_output _ _ _ _ _ _ _ Hout)
    as (_ & st & scores & labels & observers & _ & ->).
  by exists st, scores, labels, observers.
Defined.

(** ** Column stacking: regression targets and the hybrid truth *)

Lemma get2_row {A} (t : tensor A) n w r c :
  shape t = [n; w] -> get2 t r c = row r t !! c \/ n <= r.
Proof.
  intros Hs. destruct (decide (r < n)) as [Hr|]; [left|right; lia].
  unfold get2, row. rewrite Hs, chunks_lookup by done. cbn [from_option id].
  destruct (c <? w) eqn:Hc.
  - apply Nat.ltb_lt in Hc. rewrite lookup_take_lt, lookup_drop by done. done.
  - apply Nat.ltb_ge in Hc. by rewrite lookup_take_ge.
Qed.

Lemma get2_row_lt {A} (t : tensor A) n w r c :
  shape t = [n; w] -> r < n -> get2 t r c = row r t !! c.
Proof. intros Hs Hr. destruct (get2_row t n w r c Hs); [done|lia]. Qed.

Lemma cat1_rank2 {A} (a b : tensor A) n ka kb :
  shape a = [n; ka] -> shape b = [n; kb] -> wf a -> wf b ->
  exists c, cat1 a b = Ok c /\ shape c = [n; ka + kb] /\ wf c /\
            forall r, r < n -> row r c = row r a ++ row r b.
Proof.
  intros Ha Hb Wa Wb. red in Wa, Wb. rewrite Ha in Wa. rewrite Hb in Wb.
  cbn in Wa, Wb. unfold cat1. rewrite Ha, Hb.
  rewrite bool_decide_eq_true_2 by done. cbn [numel foldr]. rewrite !Nat.mul_1_r.
  set (ls := zip_with app (chunks ka n (data a)) (chunks kb n (data b))).
  assert (length ls = n) as Hlen.
  { unfold ls. rewrite length_zip_with, !chunks_length. lia. }
  assert (forall r, r < n ->
            ls !! r = Some (take ka (drop (r * ka) (data a))
                            ++ take kb (drop (r * kb) (data b)))) as Hrow.
  { intros r Hr. unfold ls. rewrite lookup_zip_with, !chunks_lookup by done. done. }
  assert (forall x, x ∈ ls -> length x = ka + kb) as Hw.
  { intros x [r Hx]%list_elem_of_lookup.
    assert (r < n) as Hr by (apply lookup_lt_Some in Hx; lia).
    rewrite Hrow in Hx by done. injection Hx as <-.
    rewrite length_app, !length_take, !length_drop. nia. }
  eexists. split; [done|]. split; [done|]. split.
  - red. cbn [shape data numel foldr]. rewrite (concat_length_uniform _ _ Hw). lia.
  - intros r Hr. unfold row. cbn [shape data]. rewrite Ha, Hb.
    rewrite !chunks_lookup by done. cbn [from_option id].
    by apply concat_chunk; [|apply Hrow].
Qed.

Lemma cat1_rows_differ {A} (a b : tensor A) n m ka kb :
  shape a = [n; ka] -> shape b = [m; kb] -> n <> m -> cat1 a b = Raise RuntimeError.
Proof.
  intros Ha Hb Hne. unfold cat1. rewrite Ha, Hb.
  rewrite bool_decide_eq_false_2; [done|]. by intros [? _].
Qed.

Lemma as_column_rank1 {A} (t : tensor A) n :
  shape t = [n] -> wf t ->
  shape (as_column t) = [n; 1] /\ wf (as_column t) /\ data (as_column t) = data t /\
  forall r, r < n -> row r (as_column t) = option_list (data t !! r).
Proof.
  intros Hs W. red in W. rewrite Hs in W. cbn in W.
  unfold as_column, ndim. rewrite Hs. cbn [length Nat.leb shape data numel foldr].
  rewrite Nat.mul_1_r. split; [done|]. split; [red; cbn; lia|]. split; [done|].
  intros r Hr. unfold row. cbn [shape data]. rewrite chunks_lookup by done.
  cbn [from_option id]. rewrite Nat.mul_1_r.
  destruct (data t !! r) as [x|] eqn:Hx.
  - apply take_drop_middle in Hx as Hsplit.
    rewrite <- Hsplit at 1. rewrite drop_app_length'; [done|].
    rewrite length_take. apply lookup_lt_Some in Hx. lia.
  - apply lookup_ge_None in Hx. lia.
Qed.

Lemma as_column_rank2 {A} (t : tensor A) n m : shape t = [n; m] -> as_column t = t.
Proof. intros Hs. unfold as_column, ndim. by rewrite Hs. Qed.

Section build_target_facts.
Context {V F : Type} `{Raw V F}.
Variable y : gmap string (tensor V).
Variable n : nat.

#[local] Abbreviation column := (target_column y n).

Lemma stack_targets_rows names vs (target : tensor F) m :
  Forall2 column names vs ->
  shape target = [n; m] -> wf target ->
  exists T, stack_targets y target names = Ok T
            /\ shape T = [n; m + length names] /\ wf T
            /\ forall r, r < n ->
                 row r T = row r target
                           ++ omap (fun v => to_float <$> data v !! r) vs.
Proof.
  intros Hcols. revert target m.
  induction Hcols as [|name v names vs (Hy & Hs & W) Hcols IH]; intros target m Hsh Wt.
  - exists target. cbn. rewrite Nat.add_0_r. repeat split; try done.
    intros r Hr. by rewrite app_nil_r.
  - cbn [stack_targets]. rewrite Hy. cbn [or_raise mbind result_bind].
    unfold column_stack. rewrite (as_column_rank2 _ _ _ Hsh).
    assert (shape (tmap to_float v) = [n]) as Hs' by done.
    assert (wf (tmap to_float v)) as W'.
    { red. cbn. rewrite length_map. exact W. }
    destruct (as_column_rank1 _ _ Hs' W') as (Hcs & Wc & _ & Hcr).
    destruct (cat1_rank2 _ _ _ _ _ Hsh Hcs Wt Wc) as (T1 & -> & Hs1 & W1 & Hr1).
    cbn [mbind result_bind].
    destruct (IH T1 (m + 1) Hs1 W1) as (T & HT & HsT & WT & HrT).
    exists T. split; [done|]. split; [rewrite HsT; cbn; f_equal; f_equal; lia|].
    split; [done|]. intros r Hr. rewrite HrT, Hr1, Hcr by done.
    rewrite <- app_assoc. f_equal. cbn [omap list_omap data tmap].
    rewrite list_lookup_fmap. by destruct (data v !! r).
Qed.
End build_target_facts.

Lemma omap_lookup_total {A B} (f : A -> option B) (l : list A) j x :
  Forall (fun a => is_Some (f a)) l -> l !! j = Some x -> omap f l !! j = f x.
Proof.
  intros Hall. revert j; induction Hall as [|a l [b Hb] Hall IH]; intros j Hj; [done|].
  cbn [omap list_omap]. rewrite Hb. destruct j as [|j]; cbn in *.
  - injection Hj as <-. by rewrite Hb.
  - by apply IH.
Qed.

(** X21. With two or more target names, each naming a rank-1 tensor of [n]
    entries in the batch, the regression truth built by the loops is an
    [n] by [k] array whose column [j] is the [j]-th declared target,
    converted to float; with a single target name it is that target, left
    of rank 1. *)
Lemma build_target_columns {V F : Type} `{Raw V F} (data_config : config)
    (y : gmap string (tensor V)) (n : nat) (vs : list (tensor V)) :
  Forall2 (target_column y n) (target_names data_config) vs ->
  (forall v, vs = [v] -> build_target data_config y = Ok (tmap to_float v))
  /\ (2 <= length vs ->
      exists T, build_target data_config y = Ok T
                /\ shape T = [n; length (target_names data_config)]
                /\ wf T
                /\ forall r j v, r < n -> vs !! j = Some v ->
                     get2 T r j = to_float <$> data v !! r).
Proof.
  intros Hcols. unfold build_target. split.
  - intros v ->. inversion Hcols as [|name v' names vs' (Hy & _ & _) Hrest Hn Hv].
    inversion Hrest; subst. by rewrite Hy.
  - intros Hlen.
    destruct Hcols as [|n1 v1 names vs (Hy1 & Hs1 & W1) Hcols]; [cbn in Hlen; lia|].
    destruct Hcols as [|n2 v2 names vs (Hy2 & Hs2 & W2) Hcols]; [cbn in Hlen; lia|].
    rewrite Hy1. cbn [or_raise mbind result_bind stack_targets]. rewrite Hy2.
    cbn [or_raise mbind result_bind]. unfold column_stack.
    assert (forall v : tensor V, shape v = [n] -> wf v ->
              shape (tmap to_float v) = [n] /\ wf (tmap to_float v)) as Hf.
    { intros v Hs W. split; [done|]. red. cbn. by rewrite length_map. }
    destruct (Hf v1 Hs1 W1) as [Hs1' W1']. destruct (Hf v2 Hs2 W2) as [Hs2' W2'].
    destruct (as_column_rank1 _ _ Hs1' W1') as (Hc1 & Wc1 & _ & Hr1).
    destruct (as_column_rank1 _ _ Hs2' W2') as (Hc2 & Wc2 & _ & Hr2).
    destruct (cat1_rank2 _ _ _ _ _ Hc1 Hc2 Wc1 Wc2) as (T1 & -> & HsT1 & WT1 & HrT1).
    cbn [mbind result_bind].
    destruct (stack_targets_rows y n names vs T1 2 Hcols HsT1 WT1)
      as (T & -> & HsT & WT & HrT).
    exists T. split; [done|]. split; [by rewrite HsT|]. split; [done|].
    intros r j v Hr Hv.
    rewrite (get2_row_lt _ _ _ _ _ HsT Hr), HrT, HrT1, Hr1, Hr2 by done.
    cbn [data tmap]. rewrite !list_lookup_fmap.
    assert (forall w : tensor V, shape w = [n] -> wf w -> is_Some (data w !! r)) as Hsome.
    { intros w Hs W. apply lookup_lt_is_Some. red in W. rewrite W, Hs. cbn. lia. }
    destruct (Hsome v1 Hs1 W1) as [x1 Hx1]. destruct (Hsome v2 Hs2 W2) as [x2 Hx2].
    rewrite Hx1, Hx2. cbn [fmap option_fmap option_map option_list app].
    destruct j as [|[|j]]; cbn in Hv |- *.
    + injection Hv as <-. by rewrite Hx1.
    + injection Hv as <-. by rewrite Hx2.
    + apply (omap_lookup_total (fun v0 : tensor V => to_float <$> data v0 !! r));
        [|done].
      apply Forall_forall. intros w Hw.
      apply list_elem_of_lookup in Hw as [i Hi].
      destruct (Forall2_lookup_r _ _ _ _ _ Hcols Hi) as (nm & _ & _ & Hs & W).
      destruct (Hsome w Hs W) as [x ->]. by eexists.
Qed.

Lemma build_target_columns_witness :
  exists T,
    build_target (F := Z) (Config [] [] ["pt"; "eta"] [] [])
                 ({["pt" := Build [3] [10; 20; 30]%Z; "eta" := Build [3] [1; 2; 3]%Z]}
                    : gmap string (tensor Z)) = Ok T
    /\ shape T = [3; 2]
    /\ get2 T 1 0 = Some 20%Z /\ get2 T 1 1 = Some 2%Z.
Proof.
  destruct (proj2 (build_target_columns (F := Z)
                     (Config [] [] ["pt"; "eta"] [] [])
                     ({["pt" := Build [3] [10; 20; 30]%Z; "eta" := Build [3] [1; 2; 3]%Z]}
                        : gmap string (tensor Z))
                     3 [Build [3] [10; 20; 30]%Z; Build [3] [1; 2; 3]%Z]
                     ltac:(repeat constructor)) ltac:(cbn; lia))
    as (T & HT & Hs & _ & Hcol).
  exists T. split; [exact HT|]. split; [exact Hs|]. split.
  - apply (Hcol 1 0 (Build [3] [10; 20; 30]%Z)); [lia|reflexivity].
  - apply (Hcol 1 1 (Build [3] [1; 2; 3]%Z)); [lia|reflexivity].
Defined.

(** X22. The truth handed to the hybrid loss: for a label of [n] entries
    and targets of [n] rows and [k] columns (a rank-1 target counts as one
    column) it is an [n] by [1 + k] array with the label in column 0 and
    the targets, in their order, in the columns after it; when label and
    targets do not have the same number of rows, building it raises. *)
Lemma merge_truth_layout {F : Type} `{FloatOps F} (label : tensor Z) (target : tensor F)
    (n m k : nat) :
  shape label = [n] -> wf label -> shape (as_2d target) = [m; k] -> wf target ->
  (n = m ->
   exists T, merge_truth label target = Ok T
             /\ shape T = [n; 1 + k]
             /\ forall r, r < n ->
                  get2 T r 0 = of_int <$> data label !! r
                  /\ forall j, get2 T r (S j) = get2 (as_2d target) r j)
  /\ (n <> m -> merge_truth label target = Raise RuntimeError).
Proof.
  intros Hl Wl Ht Wt.
  assert (shape (tmap of_int (as_2d label)) = [n; 1]) as Hl2.
  { unfold as_2d, ndim. rewrite Hl. cbn. by rewrite Hl. }
  assert (wf (tmap of_int (as_2d label))) as Wl2.
  { red. red in Wl. rewrite Hl2. unfold as_2d, ndim. rewrite Hl in *.
    cbn in *. rewrite length_map. lia. }
  assert (wf (as_2d target)) as Wt2.
  { red. red in Wt. unfold as_2d, unsqueeze_last.
    destruct (ndim target =? 1); [|done]. cbn.
    unfold numel in *. rewrite foldr_app. cbn. exact Wt. }
  unfold merge_truth. split.
  - intros <-.
    destruct (cat1_rank2 _ _ _ _ _ Hl2 Ht Wl2 Wt2) as (T & -> & HsT & _ & HrT).
    exists T. split; [done|]. split; [done|]. intros r Hr.
    assert (row r (tmap of_int (as_2d label)) = option_list (of_int <$> data label !! r))
      as Hrow.
    { assert (as_2d label = as_column label) as ->.
      { unfold as_2d, as_column, unsqueeze_last, ndim. rewrite Hl. cbn.
        by rewrite Nat.mul_1_r. }
      assert (tmap (of_int (F := F)) (as_column label) = as_column (tmap of_int label))
        as ->.
      { unfold as_column, ndim. cbn. by destruct (length (shape label) <=? 1). }
      destruct (as_column_rank1 (tmap (of_int (F := F)) label) n) as (_ & _ & _ & Hrow).
      - done.
      - red. cbn. rewrite length_map. exact Wl.
      - rewrite Hrow by done. cbn. by rewrite list_lookup_fmap. }
    assert (is_Some (data label !! r)) as [x Hx].
    { apply lookup_lt_is_Some. red in Wl. rewrite Wl, Hl. cbn. lia. }
    rewrite Hx in Hrow. cbn in Hrow.
    split.
    + rewrite (get2_row_lt _ _ _ _ _ HsT Hr), HrT, Hrow, Hx by done. done.
    + intros j.
      rewrite (get2_row_lt _ _ _ _ _ HsT Hr), (get2_row_lt _ _ _ _ _ Ht Hr).
      by rewrite HrT, Hrow.
  - intros Hne. by apply (cat1_rows_differ _ _ n m 1 k).
Qed.

Lemma merge_truth_layout_witness :
  (exists T,
     merge_truth (F := Z) (Build [2] [0; 1]%Z) (Build [2; 2] [10; 11; 20; 21]%Z) = Ok T
     /\ shape T = [2; 3]
     /\ data T = [0; 10; 11; 1; 20; 21]%Z)
  /\ merge_truth (F := Z) (Build [2] [0; 1]%Z) (Build [3] [10; 20; 30]%Z)
     = Raise RuntimeError.
Proof.
  split.
  - destruct (proj1 (merge_truth_layout (F := Z) (Build [2] [0; 1]%Z)
                       (Build [2; 2] [10; 11; 20; 21]%Z) 2 2 2
                       eq_refl eq_refl eq_refl eq_refl) eq_refl)
      as (T & HT & Hs & _).
    exists T. split; [exact HT|]. split; [exact Hs|].
    assert (Ok T = merge_truth (F := Z) (Build [2] [0; 1]%Z)
                               (Build [2; 2] [10; 11; 20; 21]%Z))
      as Heq by (symmetry; exact HT).
    vm_compute in Heq. by injection Heq as ->.
  - apply (proj2 (merge_truth_layout (F := Z) (Build [2] [0; 1]%Z)
                    (Build [3] [10; 20; 30]%Z) 2 3 1
                    eq_refl eq_refl eq_refl eq_refl)).
    lia.
Defined.

(** ** Degenerate batches of [evaluate_hybrid] *)

Lemma squeeze_keeps_rows {A} (t : tensor A) m k :
  shape t = [m; k] -> m <> 1 -> exists rest, shape (squeeze t) = m :: rest.
Proof.
  intros Hs Hm. unfold squeeze. cbn [shape]. rewrite Hs.
  rewrite filter_cons_True by done. by eexists.
Qed.

Section evaluate_hybrid_placeholder.
Context {V F : Type} `{FloatOps F} `{Raw V F}.
Variable model : list (tensor V) -> tensor F.
Variable softmax : tensor F -> tensor F.
Variable loss_func : option (tensor F -> tensor F -> F * F * F).
Variable data_config : config.
Variable for_training : bool.
Variable steps_per_epoch : option nat.

Import EvaluateHybrid.

Lemma blocks_fit_rows_differ (pco pr : tensor F) m rest c :
  shape pco = m :: rest -> m <> c -> blocks_fit pco pr c = Ok false.
Proof.
  intros Hs Hne. unfold blocks_fit, shape0. rewrite Hs. cbn.
  apply Nat.eqb_neq in Hne. by rewrite Hne.
Qed.

(** X23. In [evaluate_hybrid], a batch whose raw output has a number of
    rows (other than one) that is not the number of examples of the batch
    is kept out of the metrics: if the iteration goes through, the count
    of correct predictions and the error sums are unchanged, a block of
    zeros of shape (examples, classes) is appended to the class scores,
    and the examples are still counted. *)
Lemma evaluate_hybrid_placeholder_batch st b inputs m w c st' fl :
  get_inputs data_config b = Ok inputs ->
  shape (model inputs) = [m; w] -> m <> 1 ->
  batch_examples data_config b = Ok c -> m <> c ->
  body model softmax loss_func data_config for_training steps_per_epoch st b
  = Ok (st', fl) ->
  total_correct st' = total_correct st
  /\ sum_abs_err st' = sum_abs_err st
  /\ sum_sqr_err st' = sum_sqr_err st
  /\ scores_cat st'
     = scores_cat st ++ [zeros (of_int 0) [c; length (label_value data_config)]]
  /\ count st' = count st + c
  /\ num_batches st' = num_batches st + 1.
Proof.
  intros Hin Hs Hm Hc Hne Hb. unfold body in Hb. rewrite Hin in Hb.
  cbn [mbind result_bind] in Hb. inv_bind Hb.
  repeat match goal with
  | E : tensor_to ["non_blocking"] _ = Ok _ |- _ =>
      rewrite tensor_to_non_blocking in E; injection E as <-
  end.
  revert Hc. unfold batch_examples.
  repeat match goal with
  | E : ?m = Ok _ |- context [?m] => rewrite E; cbn [mbind result_bind]
  end.
  intros [= <-].
  match goal with
  | E : class_block data_config (model inputs) = Ok ?pc |- _ =>
      assert (exists rest, shape (squeeze pc) = m :: rest) as [rest Hsq]
  end.
  { match goal with
    | E : class_block data_config (model inputs) = Ok ?pc |- _ =>
        unfold class_block, slice_cols in E; rewrite Hs in E; injection E as <-
    end.
    by eapply squeeze_keeps_rows. }
  repeat match goal with
  | E : blocks_fit _ _ _ = Ok _ |- _ =>
      rewrite (blocks_fit_rows_differ _ _ _ _ _ Hsq Hne) in E; injection E as <-
  end.
  match goal with
  | E : _ = Ok ?r |- _ =>
      lazymatch type of r with (_ * _ * _)%type => injection E as <- end
  end.
  injection Hb as <- <-. cbn. repeat split; done.
Qed.
End evaluate_hybrid_placeholder.

Lemma evaluate_hybrid_placeholder_batch_witness :
  exists st' fl,
    EvaluateHybrid.body Toy.echo Toy.softmax_id (Some Toy.hybrid_loss) Toy.cfg false None
                        EvaluateHybrid.init Toy.mismatched_batch = Ok (st', fl)
    /\ EvaluateHybrid.total_correct st' = 0
    /\ EvaluateHybrid.scores_cat st' = [Build [2; 2] [0; 0; 0; 0]%Z]
    /\ EvaluateHybrid.count st' = 2.
Proof.
  assert (exists st' fl,
             EvaluateHybrid.body Toy.echo Toy.softmax_id (Some Toy.hybrid_loss) Toy.cfg
                                 false None EvaluateHybrid.init Toy.mismatched_batch
             = Ok (st', fl))
    as (st' & fl & Hb) by (vm_compute; do 2 eexists; reflexivity).
  exists st', fl. split; [exact Hb|].
  destruct (evaluate_hybrid_placeholder_batch
              Toy.echo Toy.softmax_id (Some Toy.hybrid_loss) Toy.cfg false None
              EvaluateHybrid.init Toy.mismatched_batch
              [Build [3; 3] [9; 1; 10; 2; 8; 19; 4; 4; 4]%Z] 3 3 2 st' fl
              eq_refl eq_refl ltac:(lia) eq_refl ltac:(lia) Hb)
    as (H1 & _ & _ & H2 & H3 & _).
  split; [exact H1|]. split; [exact H2|exact H3].
Defined.

(** ** The inference-session variants of regression and hybrid *)

(** X24. [evaluate_onnx_regression] never gets through a batch: the list
    returned by [sess.run] has no [squeeze]. On a loader with at least one
    batch it therefore never returns, whatever the session returns and
    whatever the rest of the function would do. *)
Lemma evaluate_onnx_regression_never_returns {V F : Type} `{Raw V F}
    (sess_run : gmap string (tensor V) -> list (tensor F)) data_config
    {state output : Type} (init : state) rest (finish : state -> result output)
    (test_loader : list (batch V)) :
  test_loader <> [] ->
  is_ok (EvaluateOnnxRegression.evaluate_onnx_regression
           sess_run data_config init rest finish test_loader) = false.
Proof.
  intros Hne. destruct test_loader as [|b l]; [done|].
  unfold EvaluateOnnxRegression.evaluate_onnx_regression. cbn [for_each].
  unfold EvaluateOnnxRegression.body.
  destruct (build_target data_config (batch_y b)); [|done]. cbn [mbind result_bind].
  by destruct (shape0 _).
Qed.

Lemma evaluate_onnx_regression_never_returns_witness :
  is_ok (EvaluateOnnxRegression.evaluate_onnx_regression
           Toy.session Toy.cfg tt (fun st _ _ _ _ _ => Ok (st, Next))
           (fun st => Ok st) Toy.regression_batches) = false.
Proof.
  apply (evaluate_onnx_regression_never_returns
           Toy.session Toy.cfg tt (fun st _ _ _ _ _ => Ok (st, Next))
           (fun st => Ok st) Toy.regression_batches).
  discriminate.
Defined.

(** X25. [evaluate_onnx_hybrid] never gets through a batch: the list
    returned by [sess.run] cannot be indexed by [[:, :n]]. On a loader
    with at least one batch it therefore never returns, whatever the
    session returns and whatever the rest of the function would do. *)
Lemma evaluate_onnx_hybrid_never_returns {V F : Type} `{Raw V F} `{Countable V}
    (sess_run : gmap string (tensor V) -> list (tensor F)) data_config
    {output : Type} (init : EvaluateOnnxHybrid.state) rest
    (finish : EvaluateOnnxHybrid.state -> result output)
    (test_loader : list (batch V)) :
  test_loader <> [] ->
  is_ok (EvaluateOnnxHybrid.evaluate_onnx_hybrid
           sess_run data_config init rest finish test_loader) = false.
Proof.
  intros Hne. destruct test_loader as [|b l]; [done|].
  unfold EvaluateOnnxHybrid.evaluate_onnx_hybrid. cbn [for_each].
  unfold EvaluateOnnxHybrid.body.
  destruct (label_names data_config !! 0 ?! IndexError); [|done].
  cbn [mbind result_bind].
  destruct (batch_y b !! _ ?! KeyError); [|done]. cbn [mbind result_bind].
  destruct (build_target data_config (batch_y b)); [|done]. cbn [mbind result_bind].
  repeat match goal with |- context [shape0 ?t] => destruct (shape0 t) end;
    cbn [mbind result_bind]; try done.
  by destruct (counter_update_raw _ _).
Qed.

Lemma evaluate_onnx_hybrid_never_returns_witness :
  is_ok (EvaluateOnnxHybrid.evaluate_onnx_hybrid
           Toy.session Toy.cfg
           (EvaluateOnnxHybrid.State ∅ 0 0 0 0 0 0 0 [] [] ∅ ∅ ∅)%Z
           (fun st _ _ _ _ _ _ _ => Ok (st, Next)) (fun st => Ok st)
           Toy.hybrid_batches) = false.
Proof.
  apply (evaluate_onnx_hybrid_never_returns
           Toy.session Toy.cfg
           (EvaluateOnnxHybrid.State ∅ 0 0 0 0 0 0 0 [] [] ∅ ∅ ∅)%Z
           (fun st _ _ _ _ _ _ _ => Ok (st, Next)) (fun st => Ok st)
           Toy.hybrid_batches).
  discriminate.
Defined.

(** ** Per-entry counts of a batch of one entry *)

(** X26. The per-entry counts recorded for a masked batch of a single
    entry (a mask of shape (1, L)) are a 0-d array, and with such an array
    among the recorded counts the regrouping of a flat output whose length
    differs from the number of entries raises [ValueError]: numpy does not
    concatenate 0-d arrays. *)
Lemma regroup_single_entry_counts {V F} (scores : tensor F)
    (labels : gmap string (tensor V)) (entry_count count n : nat)
    (labels_counts : list (tensor nat)) (mask : tensor bool) (L : nat) :
  shape mask = [1; L] ->
  exists c,
    mask_counts mask = Ok c /\ ndim c = 0
    /\ (len scores = Ok n -> n <> entry_count -> c ∈ labels_counts ->
        regroup scores labels entry_count count labels_counts = Raise ValueError).
Proof.
  intros Hm. unfold mask_counts. rewrite Hm. cbn [last or_raise mbind result_bind].
  eexists. split; [done|]. split; [done|].
  intros Hn Hne Hc. unfold regroup. rewrite Hn. cbn [mbind result_bind].
  apply Nat.eqb_neq in Hne. rewrite Hne. cbn [negb].
  destruct labels_counts as [|c0 lcs]; [by apply elem_of_nil in Hc|].
  cbn [length Nat.eqb negb].
  by erewrite np_concatenate_rank0.
Qed.

Lemma regroup_single_entry_counts_witness :
  exists c,
    mask_counts (Build [1; 3] [true; true; false]) = Ok c /\ ndim c = 0
    /\ regroup (Build [2; 2] [1; 2; 3; 4]%Z)
               ({["label" := Build [2] [0; 1]%Z]} : gmap string (tensor Z)) 1 2 [c]
       = Raise ValueError.
Proof.
  destruct (regroup_single_entry_counts
              (Build [2; 2] [1; 2; 3; 4]%Z)
              ({["label" := Build [2] [0; 1]%Z]} : gmap string (tensor Z)) 1 2 2
              [Build [] [2]] (Build [1; 3] [true; true; false]) 3 eq_refl)
    as (c & Hc & Hr & Hraise).
  exists c. split; [exact Hc|]. split; [exact Hr|].
  assert (Ok c = mask_counts (Build [1; 3] [true; true; false])) as Heq
    by (symmetry; exact Hc).
  vm_compute in Heq. injection Heq as ->.
  apply Hraise; [reflexivity|lia|apply list_elem_of_here].
Defined.
